(** * The MyST demo notebook [02-notebook.ipynb]

    The repository is one Jupyter notebook: an Altair chart over the cars
    dataset, a time-series histogram (numpy + matplotlib) and a leafmap
    split map.  This development embeds the notebook as it is written:

    - the notebook is a list of cells; a code cell carries its source
      lines and its statements, each statement a transformer of the
      kernel (the global namespace, the state of numpy's random generator
      and the outputs displayed so far);
    - Python floats are IEEE binary64 numbers, the kernel's primitive
      floats; Python ints are [Z];
    - the library calls the notebook makes are modelled after the
      libraries' documented behaviour, in the modules [np], [alt], [plt]
      and [leafmap] below; what no program text fixes (the random draws,
      libm's sine, the content of uninitialised memory, the datasets and
      tiles fetched from outside) is a field of the record [world]. *)

From Stdlib Require Import Floats ZArith List Ascii String.
From stdpp Require Import base gmap strings list fin_maps.

Set Warnings "-inexact-float".
Set Default Proof Using "Type".

(** ** Exceptions and results *)

Inductive exn : Type :=
| NameError (name : string)
| AttributeError (obj attr : string)
| TypeError (what : string)
| ValueError (what : string)
| IndexError (what : string)
| OverflowError (what : string)
| LibraryError (library what : string).

Inductive res (A : Type) : Type :=
| Ok (a : A)
| Raise (e : exn).
Arguments Ok {A} a.
Arguments Raise {A} e.

#[global] Instance res_ret : MRet res := fun A a => Ok a.
#[global] Instance res_bind : MBind res := fun A B f m =>
  match m with Ok a => f a | Raise e => Raise e end.
#[global] Instance res_fmap : FMap res := fun A B f m =>
  match m with Ok a => Ok (f a) | Raise e => Raise e end.

(** [mapM] of stdpp is for any monad; this is its instance at [res],
    written out so that it computes by [simpl]. *)
Fixpoint traverse {A B : Type} (f : A -> res B) (l : list A) : res (list B) :=
  match l with
  | [] => Ok []
  | a :: t => b ← f a; bs ← traverse f t; Ok (b :: bs)
  end.

(** ** Python numbers *)

Module py.

(** [float(n)] for an int [n]: the nearest binary64 number. *)
Definition float_of_int (n : Z) : res float :=
  let x := SF2Prim (SpecFloat.binary_normalize prec emax n 0 false) in
  if PrimFloat.is_infinity x then Raise (OverflowError "int too large to convert to float")
  else Ok x.

(** The same, for the indices and counts numpy turns into floats; they
    are far below 2^53, where the conversion is exact. *)
Definition float_of_nat (n : nat) : float :=
  SF2Prim (SpecFloat.binary_normalize prec emax (Z.of_nat n) 0 false).

(** [round(x)] with one argument: the nearest integer, ties to even. *)
Definition round (x : float) : res Z :=
  match Prim2SF x with
  | S754_nan => Raise (ValueError "cannot convert float NaN to integer")
  | S754_infinity _ => Raise (OverflowError "cannot convert float infinity to integer")
  | S754_zero _ => Ok 0%Z
  | S754_finite s m e =>
      let mag :=
        match e with
        | Zneg p =>
            let d := Z.pow_pos 2 p in
            let q := (Zpos m / d)%Z in
            let r := (Zpos m mod d)%Z in
            match (2 * r ?= d)%Z with
            | Lt => q
            | Gt => (q + 1)%Z
            | Eq => if Z.even q then q else (q + 1)%Z
            end
        | _ => (Zpos m * 2 ^ e)%Z
        end in
      Ok (if s then (- mag)%Z else mag)
  end.

End py.

(** ** What the notebook takes from outside *)

(** A table as [vega_datasets] hands it over: column names and rows. *)
Record dataframe : Type := DataFrame {
  df_columns : list string;
  df_rows : list (list string)
}.

Record world : Type := World {
  (** [data.cars()] *)
  w_cars : res dataframe;
  (** entry [(i, j)] of the array the [c]-th call of [np.random.randn] returns *)
  w_randn : nat -> nat -> nat -> float;
  (** the sine behind [np.sin] *)
  w_sin : float -> float;
  (** what [np.empty] finds in the memory it does not initialise *)
  w_empty : nat -> nat -> float;
  (** the tile endpoint leafmap resolves for a remote raster *)
  w_cog_tile : string -> res string
}.

(** ** numpy *)

Abbreviation arr1 := (list float).
(** A 2-D array is the list of its rows. *)
Abbreviation arr2 := (list (list float)).

Module np.

Definition pi : float := 0x1.921fb54442d18p+1%float.

Definition tabulate (f : nat -> nat -> float) (rows cols : nat) : arr2 :=
  map (fun i => map (f i) (seq 0 cols)) (seq 0 rows).

Definition dims (d0 d1 : Z) : res (nat * nat) :=
  if ((d0 <? 0) || (d1 <? 0))%Z then Raise (ValueError "negative dimensions are not allowed")
  else Ok (Z.to_nat d0, Z.to_nat d1).

(** [np.random.randn(d0, d1)], the [call]-th use of the generator. *)
Definition random_randn (w : world) (call : nat) (d0 d1 : Z) : res arr2 :=
  '(r, c) ← dims d0 d1; Ok (tabulate (w_randn w call) r c).

(** [np.empty((d0, d1), dtype=float)] *)
Definition empty (w : world) (d0 d1 : Z) : res arr2 :=
  '(r, c) ← dims d0 d1; Ok (tabulate (w_empty w) r c).

(** [np.arange(n)] *)
Definition arange (n : Z) : arr1 := map py.float_of_nat (seq 0 (Z.to_nat n)).

Definition sqrt (a : arr1) : arr1 := map PrimFloat.sqrt a.

Definition sin (w : world) (a : arr2) : arr2 := map (map (w_sin w)) a.

Fixpoint set_last (a : arr1) (v : float) : arr1 :=
  match a with
  | [] => []
  | [_] => [v]
  | x :: t => x :: set_last t v
  end.

(** [np.linspace(start, stop, num)] with the endpoint included:
    [arange(num) * step + start], the last entry overwritten by [stop]. *)
Definition linspace_nat (start stop : float) (n : nat) : arr1 :=
  let delta := (stop - start)%float in
  let y := map py.float_of_nat (seq 0 n) in
  let y :=
    if (1 <? n)%nat then
      let div := py.float_of_nat (n - 1) in
      let step := (delta / div)%float in
      if (step =? 0)%float then map (fun v => (v / div * delta)%float) y
      else map (fun v => (v * step)%float) y
    else map (fun v => (v * delta)%float) y in
  let y := map (fun v => (v + start)%float) y in
  if (1 <? n)%nat then set_last y stop else y.

Definition linspace (start stop : float) (num : Z) : res arr1 :=
  if (num <? 0)%Z then Raise (ValueError "Number of samples must be non-negative")
  else Ok (linspace_nat start stop (Z.to_nat num)).

Fixpoint cumsum_from (acc : float) (a : arr1) : arr1 :=
  match a with
  | [] => []
  | x :: t => let s := (acc + x)%float in s :: cumsum_from s t
  end.

(** [np.cumsum(a, axis=-1)]: running sums along each row. *)
Definition cumsum_row (a : arr1) : arr1 :=
  match a with
  | [] => []
  | x :: t => x :: cumsum_from x t
  end.
Definition cumsum (a : arr2) : arr2 := map cumsum_row a.

Definition fmin (acc x : float) : float :=
  if PrimFloat.is_nan acc || (acc <=? x)%float then acc else x.
Definition fmax (acc x : float) : float :=
  if PrimFloat.is_nan acc || (x <=? acc)%float then acc else x.

(** [a.min()] and [a.max()] *)
Definition min (a : arr1) : res float :=
  match a with
  | [] => Raise (ValueError "zero-size array to reduction operation minimum")
  | x :: t => Ok (fold_left fmin t x)
  end.
Definition max (a : arr1) : res float :=
  match a with
  | [] => Raise (ValueError "zero-size array to reduction operation maximum")
  | x :: t => Ok (fold_left fmax t x)
  end.

(** Where [np.interp] finds a query among the sample points [xp]
    (increasing, as [np.interp] expects): not a number, left of the
    first, right of the last, or in the interval that starts at [xp[j]]. *)
Inductive place : Type :=
| AtNaN
| Below
| Above
| Within (j : nat).

Definition locate (q : float) (xp : arr1) : place :=
  if PrimFloat.is_nan q then AtNaN
  else if (List.last xp 0 <? q)%float then Above
  else if (q <? hd 0%float xp)%float then Below
  else Within (pred (length (filter (fun v => (v <=? q)%float = true) xp))).

(** The interpolant on the interval that starts at sample point [j]. *)
Definition interp_segment (xp fp : arr1) (q : float) (j : nat) : float :=
  let x0 := nth j xp 0%float in
  let y0 := nth j fp 0%float in
  if (S j =? length xp)%nat then y0
  else if (x0 =? q)%float then y0
  else
    let x1 := nth (S j) xp 0%float in
    let y1 := nth (S j) fp 0%float in
    let slope := ((y1 - y0) / (x1 - x0))%float in
    let r := (slope * (q - x0) + y0)%float in
    if PrimFloat.is_nan r then
      let r' := (slope * (q - x1) + y1)%float in
      if PrimFloat.is_nan r' && (y0 =? y1)%float then y0 else r'
    else r.

Definition interp_at (xp fp : arr1) (q : float) : float :=
  if (length xp =? 1)%nat then
    (* one sample point: its value, to the left, to the right and on it *)
    if (q <? hd 0%float xp)%float then hd 0%float fp
    else if (hd 0%float xp <? q)%float then List.last fp 0%float
    else hd 0%float fp
  else
    match locate q xp with
    | AtNaN => q
    | Below => hd 0%float fp
    | Above => List.last fp 0%float
    | Within j => interp_segment xp fp q j
    end.

(** [np.interp(x, xp, fp)] *)
Definition interp (x xp fp : arr1) : res arr1 :=
  if (length xp =? 0)%nat then Raise (ValueError "array of sample points is empty")
  else if negb (length fp =? length xp)%nat then
    Raise (ValueError "fp and xp are not of the same length.")
  else Ok (map (interp_at xp fp) x).

(** [a.flatten()] *)
Definition flatten (a : arr2) : arr1 := concat a.

(** [np.matlib.repmat(a, m, n)] for a 1-D [a]: [m] rows, each [a]
    repeated [n] times. *)
Definition matlib_repmat (a : arr1) (m n : Z) : res arr2 :=
  '(r, c) ← dims m n; Ok (replicate r (concat (replicate c a))).

(** *** Broadcasting and indexing *)

Definition ncols (a : arr2) : nat := length (hd [] a).

(** The common length of two axes: equal, or one of them is 1. *)
Definition bcast_len (n m : nat) : res nat :=
  if (n =? m)%nat then Ok n
  else if (n =? 1)%nat then Ok m
  else if (m =? 1)%nat then Ok n
  else Raise (ValueError "operands could not be broadcast together").

(** Entry [i] of an axis that is stretched when it has length 1. *)
Definition pick {A : Type} (l : list A) (i : nat) (d : A) : A :=
  if (length l =? 1)%nat then nth 0 l d else nth i l d.

Definition entry (a : arr2) (i j : nat) : float :=
  pick (pick a i []) j 0%float.

(** An elementwise binary operation on two 2-D arrays. *)
Definition broadcast2 (f : float -> float -> float) (a b : arr2) : res arr2 :=
  r ← bcast_len (length a) (length b);
  c ← (if (r =? 0)%nat then Ok 0%nat else bcast_len (ncols a) (ncols b));
  Ok (tabulate (fun i j => f (entry a i j) (entry b i j)) r c).

(** [s * a] for a Python float [s] *)
Definition scale (s : float) (a : arr2) : arr2 := map (map (fun v => (s * v)%float)) a.

(** [a[None, :]]: a 1-D array as one row *)
Definition as_row (a : arr1) : arr2 := [a].

(** [a.T] *)
Definition transpose (a : arr2) : arr2 :=
  tabulate (fun i j => nth i (nth j a []) 0%float) (ncols a) (length a).

(** Where the slice [a[-k:]] of [n] rows starts. *)
Definition tail_start (n : nat) (k : Z) : nat :=
  let i := (- k)%Z in
  if (i <? 0)%Z then Z.to_nat (Z.max 0 (Z.of_nat n + i))
  else Z.to_nat (Z.min i (Z.of_nat n)).

(** [a[-k:] = v]: the rows from [tail_start] on are overwritten by [v],
    broadcast to their shape; the rows before are kept. *)
Definition set_tail (a : arr2) (k : Z) (v : arr2) : res arr2 :=
  let s := tail_start (length a) k in
  let r := (length a - s)%nat in
  let c := ncols a in
  if negb ((length v =? r)%nat || (length v =? 1)%nat) then
    Raise (ValueError "could not broadcast input array")
  else if negb ((r =? 0)%nat || (ncols v =? c)%nat || (ncols v =? 1)%nat) then
    Raise (ValueError "could not broadcast input array")
  else Ok (take s a ++ tabulate (entry v) r c).

(** An index into an axis of length [n], negative ones counted from
    the end. *)
Definition index (n : nat) (i : Z) : res nat :=
  if ((0 <=? i) && (i <? Z.of_nat n))%Z then Ok (Z.to_nat i)
  else if ((- Z.of_nat n <=? i) && (i <? 0))%Z then Ok (Z.to_nat (Z.of_nat n + i))
  else Raise (IndexError "index is out of bounds for axis 0").

(** [a[i, :]] *)
Definition get_row (a : arr2) (i : Z) : res arr1 :=
  j ← index (length a) i; Ok (nth j a []).

(** [a[i, :] = v] *)
Definition set_row (a : arr2) (i : Z) (v : arr1) : res arr2 :=
  j ← index (length a) i;
  let c := length (nth j a []) in
  if negb ((length v =? c)%nat || (length v =? 1)%nat) then
    Raise (ValueError "could not broadcast input array")
  else Ok (<[j := map (fun jj => pick v jj 0%float) (seq 0 c)]> a).

(** *** The 2-D histogram *)

(** The range the edges span: the data's minimum and maximum, widened
    when they coincide. *)
Definition outer_edges (a : arr1) : res (float * float) :=
  match a with
  | [] => Ok (0%float, 1%float)
  | _ =>
      lo ← min a; hi ← max a;
      if negb (PrimFloat.is_finite lo && PrimFloat.is_finite hi) then
        Raise (ValueError "autodetected range is not finite")
      else if (lo =? hi)%float then Ok ((lo - 0.5)%float, (hi + 0.5)%float)
      else Ok (lo, hi)
  end.

Definition bin_edges (a : arr1) (bins : Z) : res arr1 :=
  if (bins <? 1)%Z then Raise (ValueError "bins must be positive")
  else '(lo, hi) ← outer_edges a; linspace lo hi (bins + 1).

(** The bin of a value: the number of edges not above it, the value on
    the last edge going to the last bin. *)
Definition bin_of (edges : arr1) (v : float) : nat :=
  let i := length (filter (fun e => (e <=? v)%float = true) edges) in
  if (v =? List.last edges 0)%float then pred i else i.

Definition count_in (cells : list (nat * nat)) (i j : nat) : float :=
  py.float_of_nat
    (length (filter (fun c => c = (S i, S j)) cells)).

(** [np.histogram2d(x, y, bins=[nx, ny])]: the counts and the two
    lists of edges. *)
Definition histogram2d (x y : arr1) (nx ny : Z) : res (arr2 * arr1 * arr1) :=
  if negb (length x =? length y)%nat then
    Raise (ValueError "x and y must have the same length.")
  else
    xe ← bin_edges x nx; ye ← bin_edges y ny;
    let cells := zip (map (bin_of xe) x) (map (bin_of ye) y) in
    Ok (tabulate (count_in cells) (Z.to_nat nx) (Z.to_nat ny), xe, ye).

End np.

(** ** Altair *)

Module alt.

Record selection : Type := Selection {
  sel_kind : string;
  sel_encodings : list string
}.

(** [alt.selection_interval(encodings=...)] *)
Definition selection_interval (encodings : list string) : selection :=
  Selection "interval" encodings.

(** A colour channel: a field, or [alt.condition(param, field,
    alt.value(v))]. *)
Inductive color : Type :=
| ColorField (shorthand : string)
| ColorCondition (param : selection) (if_true : string) (if_false : string).

Record encoding : Type := Encoding {
  enc_x : option string;
  enc_y : option string;
  enc_size : option string;
  enc_color : option color
}.

Inductive mark : Type := NoMark | Point | Bar.

Record unit_chart : Type := UnitChart {
  ch_data : dataframe;
  ch_mark : mark;
  ch_encoding : encoding;
  ch_params : list selection;
  ch_filters : list selection
}.

Inductive chart : Type :=
| Unit (u : unit_chart)
| VConcat (top bottom : chart).

(** [alt.Chart(data)] *)
Definition Chart (d : dataframe) : unit_chart :=
  UnitChart d NoMark (Encoding None None None None) [] [].

Definition mark_point (c : unit_chart) : unit_chart :=
  UnitChart (ch_data c) Point (ch_encoding c) (ch_params c) (ch_filters c).

Definition mark_bar (c : unit_chart) : unit_chart :=
  UnitChart (ch_data c) Bar (ch_encoding c) (ch_params c) (ch_filters c).

Definition or_else {A : Type} (new old : option A) : option A :=
  match new with Some _ => new | None => old end.

(** [.encode(...)]: the channels given replace those set before. *)
Definition encode (e : encoding) (c : unit_chart) : unit_chart :=
  let o := ch_encoding c in
  UnitChart (ch_data c) (ch_mark c)
    (Encoding (or_else (enc_x e) (enc_x o)) (or_else (enc_y e) (enc_y o))
              (or_else (enc_size e) (enc_size o)) (or_else (enc_color e) (enc_color o)))
    (ch_params c) (ch_filters c).

Definition add_selection (s : selection) (c : unit_chart) : unit_chart :=
  UnitChart (ch_data c) (ch_mark c) (ch_encoding c) (ch_params c ++ [s]) (ch_filters c).

Definition transform_filter (s : selection) (c : unit_chart) : unit_chart :=
  UnitChart (ch_data c) (ch_mark c) (ch_encoding c) (ch_params c) (ch_filters c ++ [s]).

(** The field of an encoding shorthand: ["Horsepower:Q"] and
    ["count(Origin):Q"] name [Horsepower] and [Origin]. *)
Definition shorthand_field (s : string) : string :=
  let s := match String.index 0 ":" s with
           | Some i => String.substring 0 i s
           | None => s
           end in
  match String.index 0 "(" s, String.index 0 ")" s with
  | Some i, Some j => String.substring (S i) (j - S i) s
  | _, _ => s
  end.

Definition color_fields (c : color) : list string :=
  match c with
  | ColorField s => [shorthand_field s]
  | ColorCondition _ t _ => [shorthand_field t]
  end.

(** The fields of the dataset a chart's encoding refers to, by channel
    in the order x, y, size, color. *)
Definition encoded_fields (e : encoding) : list string :=
  option_list (shorthand_field <$> enc_x e) ++
  option_list (shorthand_field <$> enc_y e) ++
  option_list (shorthand_field <$> enc_size e) ++
  from_option color_fields [] (enc_color e).

Fixpoint units (c : chart) : list unit_chart :=
  match c with
  | Unit u => [u]
  | VConcat a b => units a ++ units b
  end.

End alt.

(** ** matplotlib *)

Module plt.

Record colormap : Type := Colormap {
  cm_name : string;
  (** the colour shown for masked values: entry [i] of a named map *)
  cm_bad : option (string * Z)
}.

(** [plt.cm.plasma] *)
Definition cm_plasma : colormap := Colormap "plasma" None.

(** [cmap(i)] *)
Definition lookup_color (c : colormap) (i : Z) : string * Z := (cm_name c, i).

Definition set_bad (c : colormap) (color : string * Z) : colormap :=
  Colormap (cm_name c) (Some color).

Record quadmesh : Type := QuadMesh {
  qm_x : arr1;
  qm_y : arr1;
  qm_c : arr2;
  qm_cmap : colormap;
  qm_lognorm_vmax : float;
  qm_rasterized : bool
}.

Record axes : Type := Axes {
  ax_meshes : list quadmesh;
  ax_title : string
}.

Record colorbar : Type := Colorbar {
  cb_of : quadmesh;
  cb_label : string;
  cb_pad : Z
}.

Record figure : Type := Figure {
  fig_size : Z * Z;
  fig_constrained_layout : bool;
  fig_colorbars : list colorbar
}.

(** [plt.subplots(figsize=..., constrained_layout=...)] *)
Definition subplots (size : Z * Z) (constrained : bool) : figure * axes :=
  (Figure size constrained [], Axes [] "").

(** [axes.pcolormesh(X, Y, C, ...)]: [C] has a row per interval of [Y]
    and a column per interval of [X], or as many as their points. *)
Definition pcolormesh (ax : axes) (x y : arr1) (c : arr2) (cmap : colormap)
    (vmax : float) (rasterized : bool) : res (quadmesh * axes) :=
  let fits n m := ((S n =? m)%nat || (n =? m)%nat) in
  if fits (length c) (length y) && fits (np.ncols c) (length x) then
    let q := QuadMesh x y c cmap vmax rasterized in
    Ok (q, Axes (ax_meshes ax ++ [q]) (ax_title ax))
  else Raise (TypeError "Dimensions of C are incompatible with X and/or Y").

Definition add_colorbar (f : figure) (q : quadmesh) (label : string) (pad : Z) : figure :=
  Figure (fig_size f) (fig_constrained_layout f) (fig_colorbars f ++ [Colorbar q label pad]).

Definition set_title (ax : axes) (t : string) : axes := Axes (ax_meshes ax) t.

End plt.

(** ** leafmap *)

Module leafmap.

Record Map : Type := MkMap {
  height : Z;
  center : float * float;
  zoom : Z;
  (** the tile layers on the two sides of the split control *)
  split : option (string * string)
}.

Definition ends_with (suffix s : string) : bool :=
  let n := String.length s in
  let m := String.length suffix in
  (m <=? n)%nat && String.eqb (String.substring (n - m) m s) suffix.

(** A layer given as a string: a remote GeoTIFF is resolved to its tile
    endpoint, anything else is taken as a tile URL. *)
Definition tile_layer (w : world) (layer : string) : res string :=
  if String.prefix "http" layer && ends_with ".tif" layer then w_cog_tile w layer
  else Ok layer.

(** [m.split_map(left, right)] *)
Definition split_map (w : world) (m : Map) (left right : string) : res Map :=
  l ← tile_layer w left; r ← tile_layer w right;
  Ok (MkMap (height m) (center m) (zoom m) (Some (l, r))).

End leafmap.


(** ** The kernel *)

(** The objects the notebook's names are bound to. *)
Inductive value : Type :=
| VInt (n : Z)
| VFloat (x : float)
| VStr (s : string)
| VModule (name : string)
| VFrame (d : dataframe)
| VSelection (s : alt.selection)
| VChart (c : alt.chart)
| VArr1 (a : arr1)
| VArr2 (a : arr2)
| VFigure (f : plt.figure)
| VAxes (a : plt.axes)
| VCmap (c : plt.colormap)
| VMesh (q : plt.quadmesh)
| VMap (m : leafmap.Map).

Record kernel : Type := Kernel {
  (** the global namespace *)
  ns : gmap string value;
  (** how often [np.random.randn] has been called *)
  rng_calls : nat;
  (** the values displayed so far *)
  out : list value
}.

(** A kernel that has just started. *)
Definition fresh : kernel := Kernel ∅ 0 [].

Definition load (x : string) (k : kernel) : res value :=
  match ns k !! x with
  | Some v => Ok v
  | None => Raise (NameError x)
  end.

Definition store (x : string) (v : value) (k : kernel) : kernel :=
  Kernel (<[x := v]> (ns k)) (rng_calls k) (out k).

Fixpoint store_all (xs : list string) (vs : list value) (k : kernel) : kernel :=
  match xs, vs with
  | x :: xs, v :: vs => store_all xs vs (store x v k)
  | _, _ => k
  end.

Definition tick (n : nat) (k : kernel) : kernel :=
  Kernel (ns k) (rng_calls k + n) (out k).

Definition display (v : value) (k : kernel) : kernel :=
  Kernel (ns k) (rng_calls k) (out k ++ [v]).

(** The name [x] used as the module (or imported object) [m]. *)
Definition use (x m : string) (k : kernel) : res unit :=
  v ← load x k;
  match v with
  | VModule m' => if String.eqb m' m then Ok () else Raise (AttributeError m' m)
  | _ => Raise (AttributeError x m)
  end.

Definition as_int (v : value) : res Z :=
  match v with VInt n => Ok n | _ => Raise (TypeError "an integer is required") end.
Definition as_float (v : value) : res float :=
  match v with
  | VFloat x => Ok x
  | VInt n => py.float_of_int n
  | _ => Raise (TypeError "a number is required")
  end.
Definition as_str (v : value) : res string :=
  match v with VStr s => Ok s | _ => Raise (TypeError "a string is required") end.
Definition as_frame (v : value) : res dataframe :=
  match v with VFrame d => Ok d | _ => Raise (TypeError "a data frame is required") end.
Definition as_selection (v : value) : res alt.selection :=
  match v with VSelection s => Ok s | _ => Raise (TypeError "a selection is required") end.
Definition as_chart (v : value) : res alt.chart :=
  match v with VChart c => Ok c | _ => Raise (TypeError "a chart is required") end.
Definition as_arr1 (v : value) : res arr1 :=
  match v with VArr1 a => Ok a | _ => Raise (TypeError "a 1-D array is required") end.
Definition as_arr2 (v : value) : res arr2 :=
  match v with VArr2 a => Ok a | _ => Raise (TypeError "a 2-D array is required") end.
Definition as_figure (v : value) : res plt.figure :=
  match v with VFigure f => Ok f | _ => Raise (TypeError "a figure is required") end.
Definition as_axes (v : value) : res plt.axes :=
  match v with VAxes a => Ok a | _ => Raise (TypeError "axes are required") end.
Definition as_cmap (v : value) : res plt.colormap :=
  match v with VCmap c => Ok c | _ => Raise (TypeError "a colormap is required") end.
Definition as_mesh (v : value) : res plt.quadmesh :=
  match v with VMesh q => Ok q | _ => Raise (TypeError "a mesh is required") end.
Definition as_map (v : value) : res leafmap.Map :=
  match v with VMap m => Ok m | _ => Raise (TypeError "a map is required") end.

(** ** Statements *)

(** A statement ends normally or raises; either way it leaves a kernel
    behind: Python undoes nothing when an exception passes. *)
Inductive outcome : Type :=
| Done (k : kernel)
| Raised (e : exn) (k : kernel).

Definition stmt : Type := kernel -> outcome.

(** [x1, ..., xn = e]: the right-hand side is evaluated, then the names
    are bound. *)
Definition assign (xs : list string) (e : kernel -> res (list value)) : stmt :=
  fun k => match e k with
           | Ok vs => Done (store_all xs vs k)
           | Raise err => Raised err k
           end.

(** A statement whose right-hand side calls [np.random.randn] once. *)
Definition drawing (s : stmt) : stmt :=
  fun k => match s k with
           | Done k' => Done (tick 1 k')
           | Raised err k' => Raised err k'
           end.

(** An expression statement that ends a cell: its value is displayed. *)
Definition show (e : kernel -> res value) : stmt :=
  fun k => match e k with
           | Ok v => Done (display v k)
           | Raise err => Raised err k
           end.

Fixpoint for_each (x : string) (body : stmt) (items : list Z) : stmt :=
  fun k => match items with
           | [] => Done k
           | i :: rest =>
               match body (store x (VInt i) k) with
               | Done k' => for_each x body rest k'
               | Raised err k' => Raised err k'
               end
           end.

(** [for x in range(n): body] *)
Definition for_range (x : string) (n : kernel -> res Z) (body : stmt) : stmt :=
  fun k => match n k with
           | Ok n => for_each x body (map Z.of_nat (seq 0 (Z.to_nat n))) k
           | Raise err => Raised err k
           end.

(** Statements in sequence: the first exception ends the run. *)
Fixpoint exec (body : list stmt) : stmt :=
  fun k => match body with
           | [] => Done k
           | s :: rest =>
               match s k with
               | Done k' => exec rest k'
               | Raised err k' => Raised err k'
               end
           end.

(** ** The notebook *)

Inductive cell : Type :=
| Markdown (source : list string)
| Code (source : list string) (body : list stmt).

(** The notebook's text has no apostrophe; the source lines below are
    written with ['] where the notebook has a double quote, and [src] puts
    the double quotes back.  A line is given without its newline. *)
Definition src (line : string) : string :=
  string_of_list_ascii
    (map (fun c => if Ascii.eqb c "'"%char then "034"%char else c)
         (list_ascii_of_string line)).

Section Notebook.

Context (w : world).

(** *** Cell 1: the Altair charts *)

Definition s_import_alt : stmt :=
  assign ["alt"] (fun _ => Ok [VModule "altair"]).

Definition s_import_data : stmt :=
  assign ["data"] (fun _ => Ok [VModule "vega_datasets.data"]).

Definition s_source : stmt :=
  assign ["source"] (fun k =>
    _ ← use "data" "vega_datasets.data" k;
    d ← w_cars w;
    Ok [VFrame d]).

Definition s_brush : stmt :=
  assign ["brush"] (fun k =>
    _ ← use "alt" "altair" k;
    Ok [VSelection (alt.selection_interval ["x"])]).

Definition s_points : stmt :=
  assign ["points"] (fun k =>
    _ ← use "alt" "altair" k;
    source ← load "source" k ≫= as_frame;
    _ ← use "alt" "altair" k;
    brush ← load "brush" k ≫= as_selection;
    _ ← use "alt" "altair" k;
    brush' ← load "brush" k ≫= as_selection;
    Ok [VChart (alt.Unit
          (alt.add_selection brush'
            (alt.encode
               (alt.Encoding (Some "Horsepower:Q") (Some "Miles_per_Gallon:Q")
                  (Some "Acceleration")
                  (Some (alt.ColorCondition brush "Origin:N" "lightgray")))
               (alt.mark_point (alt.Chart source)))))]).

Definition s_bars : stmt :=
  assign ["bars"] (fun k =>
    _ ← use "alt" "altair" k;
    source ← load "source" k ≫= as_frame;
    brush ← load "brush" k ≫= as_selection;
    Ok [VChart (alt.Unit
          (alt.transform_filter brush
            (alt.encode
               (alt.Encoding (Some "count(Origin):Q") (Some "Origin:N") None
                  (Some (alt.ColorField "Origin:N")))
               (alt.mark_bar (alt.Chart source)))))]).

Definition cell_charts : cell :=
  Code (map src
    [ "import altair as alt";
      "from vega_datasets import data";
      "";
      "source = data.cars()";
      "brush = alt.selection_interval(encodings=['x'])";
      "points = (";
      "    alt.Chart(source)";
      "    .mark_point()";
      "    .encode(";
      "        x='Horsepower:Q',";
      "        y='Miles_per_Gallon:Q',";
      "        size='Acceleration',";
      "        color=alt.condition(brush, 'Origin:N', alt.value('lightgray')),";
      "    )";
      "    .add_selection(brush)";
      ")";
      "";
      "bars = (";
      "    alt.Chart(source)";
      "    .mark_bar()";
      "    .encode(y='Origin:N', color='Origin:N', x='count(Origin):Q')";
      "    .transform_filter(brush)";
      ")" ])
    [ s_import_alt; s_import_data; s_source; s_brush; s_points; s_bars ].

(** *** Cell 3: the chart is displayed *)

Definition s_show_chart : stmt :=
  show (fun k =>
    points ← load "points" k ≫= as_chart;
    bars ← load "bars" k ≫= as_chart;
    Ok (VChart (alt.VConcat points bars))).

Definition cell_show_chart : cell :=
  Code (map src
    [ "# | label: horsepower";
      "points & bars" ])
    [ s_show_chart ].

(** *** Cell 4: the imports of the histogram example *)

Definition s_import_copy : stmt :=
  assign ["copy"] (fun _ => Ok [VModule "copy.copy"]).
Definition s_import_np : stmt :=
  assign ["np"] (fun _ => Ok [VModule "numpy"]).
Definition s_import_matlib : stmt :=
  assign ["numpy"] (fun _ => Ok [VModule "numpy"]).
Definition s_import_plt : stmt :=
  assign ["plt"] (fun _ => Ok [VModule "matplotlib.pyplot"]).
Definition s_import_LogNorm : stmt :=
  assign ["LogNorm"] (fun _ => Ok [VModule "matplotlib.colors.LogNorm"]).

Definition cell_imports : cell :=
  Code (map src
    [ "# https://matplotlib.org/stable/gallery/statistics/time_series_histogram.html#sphx-glr-gallery-statistics-time-series-histogram-py";
      "from copy import copy";
      "";
      "import numpy as np";
      "import numpy.matlib";
      "import matplotlib.pyplot as plt";
      "from matplotlib.colors import LogNorm" ])
    [ s_import_copy; s_import_np; s_import_matlib; s_import_plt; s_import_LogNorm ].

(** *** Cell 6: the simulated time series *)

Definition s_num_series : stmt := assign ["num_series"] (fun _ => Ok [VInt 1000]).
Definition s_num_points : stmt := assign ["num_points"] (fun _ => Ok [VInt 100]).
Definition s_SNR : stmt := assign ["SNR"] (fun _ => Ok [VFloat 0.10]).

Definition s_x : stmt :=
  assign ["x"] (fun k =>
    _ ← use "np" "numpy" k;
    _ ← use "np" "numpy" k;
    num_points ← load "num_points" k ≫= as_int;
    x ← np.linspace 0 (4 * np.pi) num_points;
    Ok [VArr1 x]).

Definition s_Y : stmt :=
  drawing (assign ["Y"] (fun k =>
    _ ← use "np" "numpy" k;
    _ ← use "np" "numpy" k;
    num_series ← load "num_series" k ≫= as_int;
    num_points ← load "num_points" k ≫= as_int;
    r ← np.random_randn w (rng_calls k) num_series num_points;
    Ok [VArr2 (np.cumsum r)])).

Definition s_num_signal : stmt :=
  assign ["num_signal"] (fun k =>
    SNR ← load "SNR" k ≫= as_float;
    num_series ← load "num_series" k ≫= as_float;
    n ← py.round (SNR * num_series);
    Ok [VInt n]).

Definition s_phi : stmt :=
  drawing (assign ["phi"] (fun k =>
    _ ← use "np" "numpy" k;
    _ ← use "np" "numpy" k;
    num_signal ← load "num_signal" k ≫= as_int;
    r ← np.random_randn w (rng_calls k) num_signal 1;
    Ok [VArr2 (np.scale (np.pi / 8) r)])).

Definition s_Y_signal : stmt :=
  drawing (assign ["Y"] (fun k =>
    _ ← use "np" "numpy" k;
    _ ← use "np" "numpy" k;
    num_points ← load "num_points" k ≫= as_int;
    let rms := np.as_row (np.sqrt (np.arange num_points)) in
    _ ← use "np" "numpy" k;
    x ← load "x" k ≫= as_arr1;
    phi ← load "phi" k ≫= as_arr2;
    shifted ← np.broadcast2 PrimFloat.sub (np.as_row x) phi;
    let wave := np.sin w shifted in
    _ ← use "np" "numpy" k;
    num_signal ← load "num_signal" k ≫= as_int;
    num_points' ← load "num_points" k ≫= as_int;
    r ← np.random_randn w (rng_calls k) num_signal num_points';
    noisy ← np.broadcast2 PrimFloat.add wave (np.scale 0.05 r);
    signal ← np.broadcast2 PrimFloat.mul rms noisy;
    Y ← load "Y" k ≫= as_arr2;
    num_signal' ← load "num_signal" k ≫= as_int;
    Y' ← np.set_tail Y num_signal' signal;
    Ok [VArr2 Y'])).

Definition s_num_fine : stmt := assign ["num_fine"] (fun _ => Ok [VInt 800]).

Definition s_x_fine : stmt :=
  assign ["x_fine"] (fun k =>
    _ ← use "np" "numpy" k;
    x ← load "x" k ≫= as_arr1;
    lo ← np.min x;
    x' ← load "x" k ≫= as_arr1;
    hi ← np.max x';
    num_fine ← load "num_fine" k ≫= as_int;
    x_fine ← np.linspace lo hi num_fine;
    Ok [VArr1 x_fine]).

Definition s_y_fine : stmt :=
  assign ["y_fine"] (fun k =>
    _ ← use "np" "numpy" k;
    num_series ← load "num_series" k ≫= as_int;
    num_fine ← load "num_fine" k ≫= as_int;
    y_fine ← np.empty w num_series num_fine;
    Ok [VArr2 y_fine]).

(** The body of the loop: [y_fine[i, :] = np.interp(x_fine, x, Y[i, :])] *)
Definition s_interp_row : stmt :=
  assign ["y_fine"] (fun k =>
    _ ← use "np" "numpy" k;
    x_fine ← load "x_fine" k ≫= as_arr1;
    x ← load "x" k ≫= as_arr1;
    Y ← load "Y" k ≫= as_arr2;
    i ← load "i" k ≫= as_int;
    row ← np.get_row Y i;
    fine ← np.interp x_fine x row;
    y_fine ← load "y_fine" k ≫= as_arr2;
    i' ← load "i" k ≫= as_int;
    y_fine' ← np.set_row y_fine i' fine;
    Ok [VArr2 y_fine']).

Definition s_interp_loop : stmt :=
  for_range "i" (fun k => load "num_series" k ≫= as_int) s_interp_row.

Definition s_y_fine_flatten : stmt :=
  assign ["y_fine"] (fun k =>
    y_fine ← load "y_fine" k ≫= as_arr2;
    Ok [VArr1 (np.flatten y_fine)]).

Definition s_x_fine_flatten : stmt :=
  assign ["x_fine"] (fun k =>
    _ ← use "np" "numpy" k;
    x_fine ← load "x_fine" k ≫= as_arr1;
    num_series ← load "num_series" k ≫= as_int;
    tiled ← np.matlib_repmat x_fine num_series 1;
    Ok [VArr1 (np.flatten tiled)]).

Definition data_body : list stmt :=
  [ s_num_series; s_num_points; s_SNR; s_x; s_Y; s_num_signal; s_phi; s_Y_signal;
    s_num_fine; s_x_fine; s_y_fine; s_interp_loop; s_y_fine_flatten; s_x_fine_flatten ].

Definition cell_data : cell :=
  Code (map src
    [ "# Make some data; a 1D random walk + small fraction of sine waves";
      "num_series = 1000";
      "num_points = 100";
      "SNR = 0.10  # Signal to Noise Ratio";
      "x = np.linspace(0, 4 * np.pi, num_points)";
      "# Generate unbiased Gaussian random walks";
      "Y = np.cumsum(np.random.randn(num_series, num_points), axis=-1)";
      "# Generate sinusoidal signals";
      "num_signal = int(round(SNR * num_series))";
      "phi = (np.pi / 8) * np.random.randn(num_signal, 1)  # small random offset";
      "Y[-num_signal:] = np.sqrt(np.arange(num_points))[";
      "    None, :";
      "] * (  # random walk RMS scaling factor";
      "    np.sin(x[None, :] - phi) + 0.05 * np.random.randn(num_signal, num_points)";
      ")  # small random noise";
      "";
      "";
      "# Now we will convert the multiple time series into a histogram. Not only will";
      "# the hidden signal be more visible, but it is also a much quicker procedure.";
      "# Linearly interpolate between the points in each time series";
      "num_fine = 800";
      "x_fine = np.linspace(x.min(), x.max(), num_fine)";
      "y_fine = np.empty((num_series, num_fine), dtype=float)";
      "for i in range(num_series):";
      "    y_fine[i, :] = np.interp(x_fine, x, Y[i, :])";
      "y_fine = y_fine.flatten()";
      "x_fine = np.matlib.repmat(x_fine, num_series, 1).flatten()" ])
    data_body.

(** *** Cell 8: the histogram figure *)

Definition s_fig_axes : stmt :=
  assign ["fig"; "axes"] (fun k =>
    _ ← use "plt" "matplotlib.pyplot" k;
    let '(fig, axes) := plt.subplots (8, 4)%Z true in
    Ok [VFigure fig; VAxes axes]).

Definition s_cmap : stmt :=
  assign ["cmap"] (fun k =>
    _ ← use "copy" "copy.copy" k;
    _ ← use "plt" "matplotlib.pyplot" k;
    Ok [VCmap plt.cm_plasma]).

Definition s_set_bad : stmt :=
  assign ["cmap"] (fun k =>
    cmap ← load "cmap" k ≫= as_cmap;
    cmap' ← load "cmap" k ≫= as_cmap;
    Ok [VCmap (plt.set_bad cmap (plt.lookup_color cmap' 0))]).

Definition s_histogram : stmt :=
  assign ["h"; "xedges"; "yedges"] (fun k =>
    _ ← use "np" "numpy" k;
    x_fine ← load "x_fine" k ≫= as_arr1;
    y_fine ← load "y_fine" k ≫= as_arr1;
    '(h, xedges, yedges) ← np.histogram2d x_fine y_fine 400 100;
    Ok [VArr2 h; VArr1 xedges; VArr1 yedges]).

Definition s_pcm : stmt :=
  assign ["pcm"; "axes"] (fun k =>
    axes ← load "axes" k ≫= as_axes;
    xedges ← load "xedges" k ≫= as_arr1;
    yedges ← load "yedges" k ≫= as_arr1;
    h ← load "h" k ≫= as_arr2;
    cmap ← load "cmap" k ≫= as_cmap;
    _ ← use "LogNorm" "matplotlib.colors.LogNorm" k;
    '(pcm, axes') ← plt.pcolormesh axes xedges yedges (np.transpose h) cmap 1.5e2 true;
    Ok [VMesh pcm; VAxes axes']).

Definition s_colorbar : stmt :=
  assign ["fig"] (fun k =>
    fig ← load "fig" k ≫= as_figure;
    pcm ← load "pcm" k ≫= as_mesh;
    _ ← load "axes" k ≫= as_axes;
    Ok [VFigure (plt.add_colorbar fig pcm "# points" 0)]).

Definition s_set_title : stmt :=
  assign ["axes"] (fun k =>
    axes ← load "axes" k ≫= as_axes;
    Ok [VAxes (plt.set_title axes "2d histogram and log color scale")]).

Definition hist_body : list stmt :=
  [ s_fig_axes; s_cmap; s_set_bad; s_histogram; s_pcm; s_colorbar; s_set_title ].

Definition cell_hist : cell :=
  Code (map src
    [ "# | label: plasma";
      "fig, axes = plt.subplots(figsize=(8, 4), constrained_layout=True)";
      "cmap = copy(plt.cm.plasma)";
      "cmap.set_bad(cmap(0))";
      "h, xedges, yedges = np.histogram2d(x_fine, y_fine, bins=[400, 100])";
      "pcm = axes.pcolormesh(";
      "    xedges, yedges, h.T, cmap=cmap, norm=LogNorm(vmax=1.5e2), rasterized=True";
      ")";
      "fig.colorbar(pcm, ax=axes, label='# points', pad=0)";
      "axes.set_title('2d histogram and log color scale');" ])
    hist_body.

(** *** Cells 9 and 10: the split map *)

Definition s_import_leafmap : stmt :=
  assign ["leafmap"] (fun _ => Ok [VModule "leafmap.foliumap"]).

Definition cell_import_leafmap : cell :=
  Code (map src [ "import leafmap.foliumap as leafmap" ]) [ s_import_leafmap ].

Definition s_m : stmt :=
  assign ["m"] (fun k =>
    _ ← use "leafmap" "leafmap.foliumap" k;
    Ok [VMap (leafmap.MkMap 600 (39.4948, -108.5492)%float 12 None)]).

Definition s_url : stmt :=
  assign ["url"] (fun _ =>
    Ok [VStr "https://github.com/opengeos/data/releases/download/raster/Libya-2023-07-01.tif"]).

Definition s_url2 : stmt :=
  assign ["url2"] (fun _ =>
    Ok [VStr "https://github.com/opengeos/data/releases/download/raster/Libya-2023-09-13.tif"]).

Definition s_split_map : stmt :=
  assign ["m"] (fun k =>
    m ← load "m" k ≫= as_map;
    url ← load "url" k ≫= as_str;
    url2 ← load "url2" k ≫= as_str;
    m' ← leafmap.split_map w m url url2;
    Ok [VMap m']).

Definition s_show_m : stmt :=
  show (fun k => load "m" k).

Definition map_body : list stmt := [ s_m; s_url; s_url2; s_split_map; s_show_m ].

Definition cell_map : cell :=
  Code (map src
    [ "m = leafmap.Map(height=600, center=[39.4948, -108.5492], zoom=12)";
      "url = 'https://github.com/opengeos/data/releases/download/raster/Libya-2023-07-01.tif'";
      "url2 = 'https://github.com/opengeos/data/releases/download/raster/Libya-2023-09-13.tif'";
      "m.split_map(url, url2)";
      "m" ])
    map_body.

(** *** Cell 11: an empty code cell *)

Definition cell_empty : cell := Code [] [].

(** *** The markdown cells *)

Definition cell_title : cell :=
  Markdown (map src
    [ "---";
      "title: Linking Interactive Notebooks";
      "subtitle: Evolve markdown documents and notebooks into structured data";
      "author:";
      "  - name: Rowan Cockett";
      "    affiliations: Executable Books; Curvenote";
      "    orcid: 0000-0002-7859-8394";
      "    email: rowan@curvenote.com";
      "license:";
      "  code: MIT";
      "date: 2023-01-23";
      "---";
      "";
      "MyST allows you to directly include Jupyter Notebooks in your books, documents and websites.";
      "This Jupyter Notebook can be rendered directly using MyST.";
      "";
      "For example, let us import `altair` and create a demo of an interactive plot!" ]).

Definition cell_intro_chart : cell :=
  Markdown (map src
    [ "We can now plot the altair example, which is fully interactive, try dragging in the plot to select cars by their horsepower." ]).

Definition cell_reference : cell :=
  Markdown (map src [ "Here we reference [plot output](#horsepower)" ]).

Definition cell_warning : cell :=
  Markdown (map src
    [ "Important!";
      "This data is simulated, and may just be random noise! 🔊" ]).

(** *** The cells in notebook order *)

Definition notebook : list cell :=
  [ cell_title; cell_charts; cell_intro_chart; cell_show_chart; cell_imports;
    cell_reference; cell_data; cell_warning; cell_hist; cell_import_leafmap;
    cell_map; cell_empty ].

End Notebook.

(** ** Running cells *)

Definition cell_source (c : cell) : list string :=
  match c with Markdown s => s | Code s _ => s end.

Definition is_code (c : cell) : bool :=
  match c with Code _ _ => true | Markdown _ => false end.

(** A markdown cell runs nothing. *)
Definition cell_body (c : cell) : list stmt :=
  match c with Markdown _ => [] | Code _ b => b end.

Definition run_cell (c : cell) : stmt := exec (cell_body c).

(** The cells one after the other, as [Run All] does: the first cell
    that raises ends the run. *)
Definition run_cells (cs : list cell) : stmt := exec (map run_cell cs).

(** * The vocabulary of the properties *)

(** ** The text of the notebook *)

Definition code_cells (nb : list cell) : list cell := filter (fun c => is_code c = true) nb.

Definition code_lines (nb : list cell) : list string :=
  concat (map cell_source (code_cells nb)).

Definition markdown_lines (nb : list cell) : list string :=
  concat (map cell_source (filter (fun c => is_code c = false) nb)).

Definition contains (part s : string) : bool :=
  match String.index 0 part s with
  | Some _ => true
  | None => false
  end.

Definition is_name_char (c : ascii) : bool :=
  let n := nat_of_ascii c in
  ((48 <=? n) && (n <=? 57)) || ((65 <=? n) && (n <=? 90))
  || ((97 <=? n) && (n <=? 122)) || (n =? 95).

Definition flush (cur : list ascii) : list string :=
  match cur with
  | [] => []
  | _ => [string_of_list_ascii cur]
  end.

Fixpoint words_from (cur : list ascii) (s : list ascii) : list string :=
  match s with
  | [] => flush cur
  | c :: t =>
      if is_name_char c then words_from (cur ++ [c]) t
      else flush cur ++ words_from [] t
  end.

(** The words of a line: its maximal runs of letters, digits and [_]. *)
Definition words (line : string) : list string :=
  words_from [] (list_ascii_of_string line).

(** The Python keywords that handle or recover from a failure, or branch
    to a fallback. *)
Definition handling_keywords : list string :=
  ["try"; "except"; "finally"; "raise"; "assert"; "with"; "if"; "elif"; "else"; "while"].

Definition handles_errors (line : string) : bool :=
  existsb (fun word => existsb (String.eqb word) handling_keywords) (words line).

Fixpoint skip_spaces (s : list ascii) : list ascii :=
  match s with
  | " "%char :: t => skip_spaces t
  | _ => s
  end.

Fixpoint strip_prefix (p s : list ascii) : option (list ascii) :=
  match p, s with
  | [], _ => Some s
  | a :: p', b :: s' => if Ascii.eqb a b then strip_prefix p' s' else None
  | _ :: _, [] => None
  end.

(** A cell option written as a comment, [# | key: value]. *)
Definition cell_option (key line : string) : option string :=
  match skip_spaces (list_ascii_of_string line) with
  | "#"%char :: r =>
      match skip_spaces r with
      | "|"%char :: r' =>
          match strip_prefix (list_ascii_of_string key) (skip_spaces r') with
          | Some (":"%char :: v) => Some (string_of_list_ascii (skip_spaces v))
          | _ => None
          end
      | _ => None
      end
  | _ => None
  end.

(** The label of a code cell: the [label] option among its lines. *)
Definition cell_label (c : cell) : option string :=
  match c with
  | Markdown _ => None
  | Code s _ => hd_error (omap (cell_option "label") s)
  end.

Fixpoint until_paren (s : list ascii) : list ascii :=
  match s with
  | [] => []
  | ")"%char :: _ => []
  | c :: t => c :: until_paren t
  end.

Fixpoint link_targets (s : list ascii) : list string :=
  match s with
  | [] => []
  | c :: t =>
      match c, t with
      | "]"%char, "("%char :: "#"%char :: name =>
          string_of_list_ascii (until_paren name) :: link_targets t
      | _, _ => link_targets t
      end
  end.

(** The labels the markdown cells refer to, as [[text](#label)]. *)
Definition cross_references (nb : list cell) : list string :=
  concat (map (fun line => link_targets (list_ascii_of_string line)) (markdown_lines nb)).

Fixpoint split_quotes (cur : list ascii) (s : list ascii) : list string :=
  match s with
  | [] => [string_of_list_ascii cur]
  | c :: t =>
      if Ascii.eqb c "034"%char then string_of_list_ascii cur :: split_quotes [] t
      else split_quotes (cur ++ [c]) t
  end.

Fixpoint odd_items {A : Type} (l : list A) : list A :=
  match l with
  | _ :: b :: t => b :: odd_items t
  | _ => []
  end.

(** The string literals of a line of Python: what stands between its
    double quotes. *)
Definition string_literals (line : string) : list string :=
  odd_items (split_quotes [] (list_ascii_of_string line)).

(** A remote raster, as leafmap tells one: a URL of a GeoTIFF. *)
Definition is_remote_raster (s : string) : bool :=
  String.prefix "http" s && leafmap.ends_with ".tif" s.

(** ** Arrays, kernels and statements *)

(** [a] has [r] rows of [c] entries each. *)
Definition shaped (r c : nat) (a : arr2) : Prop :=
  length a = r /\ Forall (fun row => length row = c) a.

(** [np.interp] finds the query inside the range of the sample points. *)
Definition inside (xp : arr1) (q : float) : bool :=
  match np.locate q xp with
  | np.Within _ => true
  | _ => false
  end.

(** The name [np] is bound to numpy. *)
Definition numpy_in (k : kernel) : Prop := ns k !! "np" = Some (VModule "numpy").

(** The modules of the import cell are bound. *)
Definition imports_in (k : kernel) : Prop :=
  ns k !! "copy" = Some (VModule "copy.copy") /\
  ns k !! "np" = Some (VModule "numpy") /\
  ns k !! "plt" = Some (VModule "matplotlib.pyplot") /\
  ns k !! "LogNorm" = Some (VModule "matplotlib.colors.LogNorm").

Definition kernel_of (o : outcome) : kernel :=
  match o with Done k => k | Raised _ k => k end.

Definition map_outcome (f : kernel -> kernel) (o : outcome) : outcome :=
  match o with
  | Done k => Done (f k)
  | Raised e k => Raised e (f k)
  end.

(** The name [x] is neither read nor bound by the statement [s]:
    binding it before or after [s] makes no difference. *)
Definition ignores (x : string) (s : stmt) : Prop :=
  forall v k, s (store x v k) = map_outcome (store x v) (s k).

(** The statement [s] leaves the binding of [x] as it is, whether it
    ends normally or raises. *)
Definition keeps (x : string) (s : stmt) : Prop :=
  forall k, ns (kernel_of (s k)) !! x = ns k !! x.

(** A statement that raises leaves the kernel as it found it. *)
Definition atomic (s : stmt) : Prop :=
  forall k err k', s k = Raised err k' -> k' = k.

(** The cell [c] binds [x] in some run. *)
Definition binds (c : cell) (x : string) : Prop :=
  exists k k', run_cell c k = Done k' /\ ns k' !! x <> ns k !! x.

(** ** What the chart cell computes *)

(** The selection and the two charts cell 1 builds from the table [d],
    and the kernel it leaves. *)
Definition brush : alt.selection := alt.selection_interval ["x"].

Definition points_chart (d : dataframe) : alt.unit_chart :=
  alt.add_selection brush
    (alt.encode
       (alt.Encoding (Some "Horsepower:Q") (Some "Miles_per_Gallon:Q") (Some "Acceleration")
          (Some (alt.ColorCondition brush "Origin:N" "lightgray")))
       (alt.mark_point (alt.Chart d))).

Definition bars_chart (d : dataframe) : alt.unit_chart :=
  alt.transform_filter brush
    (alt.encode
       (alt.Encoding (Some "count(Origin):Q") (Some "Origin:N") None
          (Some (alt.ColorField "Origin:N")))
       (alt.mark_bar (alt.Chart d))).

Definition after_charts (d : dataframe) (k : kernel) : kernel :=
  store "bars" (VChart (alt.Unit (bars_chart d)))
    (store "points" (VChart (alt.Unit (points_chart d)))
       (store "brush" (VSelection brush)
          (store "source" (VFrame d)
             (store "data" (VModule "vega_datasets.data")
                (store "alt" (VModule "altair") k))))).

(** ** What the data cell computes *)

(** The value line 112 assigns: the broadcasts of
    [sqrt(arange(P))[None, :] * (sin(x[None, :] - phi) + 0.05 * randn(S, P))]
    written out, for [S] signals of [P] points and the random draws of
    call [c]. *)
Definition signal_of (w : world) (c : nat) (x : arr1) (phi : arr2) (S P : nat) : arr2 :=
  let shifted :=
    np.tabulate (fun i j => PrimFloat.sub (np.entry (np.as_row x) i j) (np.entry phi i j)) S P in
  let wave := np.sin w shifted in
  let noise := np.scale 0.05 (np.tabulate (w_randn w c) S P) in
  let noisy :=
    np.tabulate (fun i j => PrimFloat.add (np.entry wave i j) (np.entry noise i j)) S P in
  let rms := np.as_row (np.sqrt (np.arange (Z.of_nat P))) in
  np.tabulate (fun i j => PrimFloat.mul (np.entry rms i j) (np.entry noisy i j)) S P.

(** Each series interpolated from the sample points [x] onto the grid
    [x_fine]: what the loop of lines 125-126 leaves in [y_fine]. *)
Definition interp_rows (x_fine x : arr1) (Y : arr2) : arr2 :=
  map (fun row => map (np.interp_at x row) x_fine) Y.

(** The kernel after [s] rounds of the loop that have left [V] in
    [y_fine]. *)
Definition after_iters (s : nat) (V : arr2) (k : kernel) : kernel :=
  match s with
  | O => k
  | S s' => store "y_fine" (VArr2 V) (store "i" (VInt (Z.of_nat s')) k)
  end.

(** The sample points [x] of line 106 and the fine grid of line 123. *)
Definition x_grid : arr1 := np.linspace_nat 0 (4 * np.pi) 100.
Definition x_fine_grid : arr1 := np.linspace_nat 0 (4 * np.pi) 800.

(** The random walks of line 108, from the draws of call [c]. *)
Definition walks (w : world) (c : nat) : arr2 :=
  np.cumsum (np.tabulate (w_randn w c) 1000 100).

(** The phase offsets of line 111, from the draws of call [c]. *)
Definition phases (w : world) (c : nat) : arr2 :=
  np.scale (np.pi / 8) (np.tabulate (w_randn w c) 100 1).

(** The sinusoidal signals of lines 112-116, with the phases of call
    [c + 1] and the noise of call [c + 2]. *)
Definition signals (w : world) (c : nat) : arr2 :=
  signal_of w (c + 2) x_grid (phases w (c + 1)) 100 100.

(** [Y] as the interpolation reads it: 900 walks, then 100 signals. *)
Definition series (w : world) (c : nat) : arr2 :=
  take 900 (walks w c) ++ signals w c.

(** [y_fine] before it is flattened. *)
Definition fine_series (w : world) (c : nat) : arr2 :=
  interp_rows x_fine_grid x_grid (series w c).

(** The kernel after line 108, after line 116, after line 124, after the
    loop and at the end of the cell, when the cell starts in [k]. *)
Definition after_walks (w : world) (k : kernel) : kernel :=
  tick 1 (store "Y" (VArr2 (walks w (rng_calls k)))
    (store "x" (VArr1 x_grid)
      (store "SNR" (VFloat 0.10)
        (store "num_points" (VInt 100)
          (store "num_series" (VInt 1000) k))))).

Definition after_signal (w : world) (k : kernel) : kernel :=
  tick 1 (store "Y" (VArr2 (series w (rng_calls k)))
    (tick 1 (store "phi" (VArr2 (phases w (rng_calls k + 1)))
      (store "num_signal" (VInt 100) (after_walks w k))))).

Definition after_grid (w : world) (k : kernel) : kernel :=
  store "y_fine" (VArr2 (np.tabulate (w_empty w) 1000 800))
    (store "x_fine" (VArr1 x_fine_grid)
      (store "num_fine" (VInt 800) (after_signal w k))).

Definition after_loop (w : world) (k : kernel) : kernel :=
  after_iters 1000 (fine_series w (rng_calls k)) (after_grid w k).

Definition after_data (w : world) (k : kernel) : kernel :=
  store "x_fine" (VArr1 (np.flatten (replicate 1000 x_fine_grid)))
    (store "y_fine" (VArr1 (np.flatten (fine_series w (rng_calls k))))
      (after_loop w k)).

(** ** What the histogram cell and the map cell compute *)

(** The mesh line 150 draws and the kernel the histogram cell leaves,
    for the counts [h] and the edges [histogram2d] returned. *)
Definition hist_cmap : plt.colormap :=
  plt.set_bad plt.cm_plasma (plt.lookup_color plt.cm_plasma 0).

Definition hist_mesh (h : arr2) (xedges yedges : arr1) : plt.quadmesh :=
  plt.QuadMesh xedges yedges (np.transpose h) hist_cmap 1.5e2 true.

Definition after_hist (h : arr2) (xedges yedges : arr1) (k : kernel) : kernel :=
  store "axes"
    (VAxes (plt.Axes [hist_mesh h xedges yedges] "2d histogram and log color scale"))
    (store "fig"
       (VFigure (plt.Figure (8, 4)%Z true
                   [plt.Colorbar (hist_mesh h xedges yedges) "# points" 0]))
       (store "axes" (VAxes (plt.Axes [hist_mesh h xedges yedges] ""))
          (store "pcm" (VMesh (hist_mesh h xedges yedges))
             (store "yedges" (VArr1 yedges)
                (store "xedges" (VArr1 xedges)
                   (store "h" (VArr2 h)
                      (store "cmap" (VCmap hist_cmap)
                         (store "cmap" (VCmap plt.cm_plasma)
                            (store "axes" (VAxes (plt.Axes [] ""))
                               (store "fig" (VFigure (plt.Figure (8, 4)%Z true [])) k)))))))))).

(** The kernel when [np.histogram2d] is called, the histogram cell
    having started in [k]. *)
Definition at_histogram_call (k : kernel) : kernel :=
  store "cmap" (VCmap hist_cmap)
    (store "cmap" (VCmap plt.cm_plasma)
       (store "axes" (VAxes (plt.Axes [] ""))
          (store "fig" (VFigure (plt.Figure (8, 4)%Z true [])) k))).

Definition url_left : string :=
  "https://github.com/opengeos/data/releases/download/raster/Libya-2023-07-01.tif".
Definition url_right : string :=
  "https://github.com/opengeos/data/releases/download/raster/Libya-2023-09-13.tif".

(** The widget line 172 makes, and the kernel when [split_map] is called. *)
Definition map_widget : leafmap.Map :=
  leafmap.MkMap 600 (39.4948, -108.5492)%float 12 None.

Definition at_split_map (k : kernel) : kernel :=
  store "url2" (VStr url_right)
    (store "url" (VStr url_left) (store "m" (VMap map_widget) k)).

(** ** The names of each cell *)

(** The names each cell reads from the kernel it starts in, and the
    names it binds. *)
Definition names_read : list (list string) :=
  [ []; []; []; ["points"; "bars"]; []; []; ["np"]; [];
    ["plt"; "copy"; "np"; "LogNorm"; "x_fine"; "y_fine"]; []; ["leafmap"]; [] ].

Definition names_bound : list (list string) :=
  [ [];
    ["alt"; "data"; "source"; "brush"; "points"; "bars"];
    [];
    [];
    ["copy"; "np"; "numpy"; "plt"; "LogNorm"];
    [];
    ["num_series"; "num_points"; "SNR"; "x"; "Y"; "num_signal"; "phi";
     "num_fine"; "x_fine"; "y_fine"; "i"];
    [];
    ["fig"; "axes"; "cmap"; "h"; "xedges"; "yedges"; "pcm"];
    ["leafmap"];
    ["m"; "url"; "url2"];
    [] ].

(** The names each cell of the notebook reads or binds, cell by cell. *)
Definition names_used : list (list string) :=
  [ [];
    ["alt"; "data"; "source"; "brush"; "points"; "bars"];
    [];
    ["points"; "bars"];
    ["copy"; "np"; "numpy"; "plt"; "LogNorm"];
    [];
    ["np"; "num_series"; "num_points"; "SNR"; "x"; "Y"; "num_signal"; "phi";
     "num_fine"; "x_fine"; "y_fine"; "i"];
    [];
    ["plt"; "copy"; "np"; "LogNorm"; "x_fine"; "y_fine"; "fig"; "axes"; "cmap";
     "h"; "xedges"; "yedges"; "pcm"];
    ["leafmap"];
    ["leafmap"; "m"; "url"; "url2"];
    [] ].

(** The names that flow from cell [i] to a later cell [j]: bound by
    the one, read by the other. *)
Definition flows : list (nat * nat * string) :=
  concat (imap (fun j reads =>
    concat (imap (fun i bound =>
      if (i <? j)%nat
      then map (fun x => (i, j, x)) (filter (fun x => x ∈ bound) reads)
      else []) names_bound)) names_read).

(** ** Two claims as they are worded *)

(** The claim as it is worded: every series the interpolation reads is
    the cumulative sum of the draws of line 108. *)
Definition every_series_is_a_walk (w : world) (k : kernel) : Prop :=
  forall k12 Y,
    exec (take 12 (data_body w)) k = Done k12 ->
    ns k12 !! "Y" = Some (VArr2 Y) ->
    Y = np.cumsum (np.tabulate (w_randn w (rng_calls k)) 1000 100).

(** The claim as it is worded: a later cell has nothing to do with the
    names an earlier cell binds. *)
Definition cells_independent (nb : list cell) : Prop :=
  forall (i j : nat) (ci cj : cell) (x : string),
    i < j -> nb !! i = Some ci -> nb !! j = Some cj ->
    binds ci x -> ignores x (run_cell cj).

(** ** Sample inputs *)

(** A world to run the notebook in: a two-row table of cars, draws that
    cycle through eleven values, a cubic in place of the sine, zeroed
    memory and tiles that resolve to themselves. *)
Definition sample_world : world :=
  World
    (Ok (DataFrame ["Name"; "Miles_per_Gallon"; "Horsepower"; "Acceleration"; "Origin"]
           [ ["chevrolet chevelle malibu"; "18.0"; "130.0"; "12.0"; "USA"];
             ["datsun pl510"; "27.0"; "88.0"; "14.5"; "Japan"] ]))
    (fun c i j =>
       (SF2Prim (SpecFloat.binary_normalize prec emax
                   ((Z.of_nat i * 7 + Z.of_nat j * 13 + Z.of_nat c) mod 11) 0 false) - 5)%float)
    (fun x => (x - x * x * x / 6)%float)
    (fun _ _ => 0%float)
    (fun url => Ok url).

(** A world in which the dataset cannot be loaded and the tile endpoint
    is unreachable. *)
Definition offline_world : world :=
  World (Raise (LibraryError "vega_datasets" "cannot load cars"))
        (w_randn sample_world) (w_sin sample_world) (w_empty sample_world)
        (fun _ => Raise (LibraryError "leafmap" "tile endpoint unreachable")).

(** The kernel once the import cell has run. *)
Definition kernel_after_imports : kernel :=
  kernel_of (run_cell cell_imports fresh).

(** The kernel once the import of leafmap has run. *)
Definition kernel_after_leafmap : kernel :=
  kernel_of (run_cell cell_import_leafmap fresh).

(** A small kernel in which lines 123-128 can run: two series of two
    samples, to be interpolated to three points. *)
Definition small_kernel : kernel :=
  store "Y" (VArr2 [[1; 2]; [3; 5]]%float)
    (store "x" (VArr1 [0; 1]%float)
       (store "num_fine" (VInt 3)
          (store "num_series" (VInt 2) kernel_after_imports))).

(** A chart to stand for [points] where only [bars] is in question. *)
Definition blank_chart : alt.chart := alt.Unit (alt.Chart (DataFrame [] [])).

(** ** The kernels a whole run goes through *)

(** The kernel the import cell leaves, and the kernel the map cell
    leaves when the two rasters resolve to the tile layers [l] and [r]. *)
Definition after_imports (k : kernel) : kernel :=
  store "LogNorm" (VModule "matplotlib.colors.LogNorm")
    (store "plt" (VModule "matplotlib.pyplot")
       (store "numpy" (VModule "numpy")
          (store "np" (VModule "numpy")
             (store "copy" (VModule "copy.copy") k)))).

Definition split_widget (l r : string) : leafmap.Map :=
  leafmap.MkMap 600 (39.4948, -108.5492)%float 12 (Some (l, r)).

Definition after_map (l r : string) (k : kernel) : kernel :=
  display (VMap (split_widget l r))
    (store "m" (VMap (split_widget l r)) (at_split_map k)).

(** What the display cell shows for the table [d]: the scatter plot
    above the bars. *)
Definition shown_chart (d : dataframe) : value :=
  VChart (alt.VConcat (alt.Unit (points_chart d)) (alt.Unit (bars_chart d))).

(** The kernel in which the histogram cell starts, and the kernel in
    which the map cell ends, when all cells are run in order from [k]. *)
Definition before_hist (w : world) (d : dataframe) (k : kernel) : kernel :=
  after_data w (after_imports (display (shown_chart d) (after_charts d k))).

Definition after_all (w : world) (d : dataframe) (l r : string)
    (h : arr2) (xedges yedges : arr1) (k : kernel) : kernel :=
  after_map l r
    (store "leafmap" (VModule "leafmap.foliumap")
       (after_hist h xedges yedges (before_hist w d k))).

(** A kernel with four points to bin. *)
Definition binned_kernel : kernel :=
  store "y_fine" (VArr1 [0; 0; 1; 1]%float)
    (store "x_fine" (VArr1 [0; 1; 2; 3]%float) kernel_after_imports).

(** The sample world with no dataset and no tile endpoint, and other
    content in the memory [np.empty] hands out. *)
Definition scrambled_world : world :=
  World (w_cars offline_world) (w_randn sample_world) (w_sin sample_world)
        (fun i j => py.float_of_nat (i + j)) (w_cog_tile offline_world).

(** ** Outputs and random draws *)

(** The statement [s] displays nothing, and it does not call the random
    generator, whether it ends normally or raises. *)
Definition silent (s : stmt) : Prop :=
  forall k, out (kernel_of (s k)) = out k.

Definition drawless (s : stmt) : Prop :=
  forall k, rng_calls (kernel_of (s k)) = rng_calls k.

(** The statement [s] displays at most one value. *)
Definition shows_one (s : stmt) : Prop :=
  forall k, out (kernel_of (s k)) = out k \/ exists v, out (kernel_of (s k)) = out k ++ [v].

(** The statement [s] calls the random generator at most [n] times. *)
Definition draws_at_most (n : nat) (s : stmt) : Prop :=
  forall k, rng_calls k <= rng_calls (kernel_of (s k)) <= rng_calls k + n.

(** ** The bins of the histogram *)

(** The 401 edges along x that line 149 computes. *)
Definition x_edges : arr1 := np.linspace_nat 0 (4 * np.pi) 401.

(** A kernel in which lines 110-116 run with a signal fraction that
    rounds to no series at all: two series of two samples. *)
Definition faint_kernel : kernel :=
  store "SNR" (VFloat 0.0004) (store "num_points" (VInt 2) small_kernel).

(** The table of [sample_world]. *)
Definition sample_cars : dataframe :=
  DataFrame ["Name"; "Miles_per_Gallon"; "Horsepower"; "Acceleration"; "Origin"]
    [ ["chevrolet chevelle malibu"; "18.0"; "130.0"; "12.0"; "USA"];
      ["datsun pl510"; "27.0"; "88.0"; "14.5"; "Japan"] ].

(** ** Counting the points of the histogram *)

(** The number of points in each bin, as natural numbers: what
    [np.histogram2d] returns before the counts become floats. *)
Definition bin_counts (cells : list (nat * nat)) (nx ny : nat) : list (list nat) :=
  map (fun i => map (fun j => length (filter (fun c => c = (S i, S j)) cells)) (seq 0 ny))
    (seq 0 nx).

(** The values of [a] are not all equal, and the width of one of [bins]
    bins over their range is a finite number. *)
Definition finite_width (a : arr1) (bins : nat) : bool :=
  match np.min a, np.max a with
  | Ok lo, Ok hi =>
      (lo <? hi)%float && PrimFloat.is_finite ((hi - lo) / py.float_of_nat bins)
  | _, _ => false
  end.

(** The comparison of numbers that are not NaN, read as a comparison of
    keys in a linear order: the sign first, then exponent and mantissa. *)
Definition SFkey (a : spec_float) : Z * Z * Z :=
  match a with
  | S754_nan => (0, 0, 0)%Z
  | S754_zero _ => (0, 0, 0)%Z
  | S754_infinity s => if s then (-2, 0, 0)%Z else (2, 0, 0)%Z
  | S754_finite s m e => if s then (-1, - e, - Zpos m)%Z else (1, e, Zpos m)%Z
  end.

Definition key_le (p q : Z * Z * Z) : Prop :=
  let '(a, b, c) := p in
  let '(a', b', c') := q in
  (a < a' \/ (a = a' /\ (b < b' \/ (b = b' /\ c <= c'))))%Z.

(** A kernel with four points that differ along both axes. *)
Definition spread_kernel : kernel :=
  store "y_fine" (VArr1 [0; 0.5; 1; 4]%float)
    (store "x_fine" (VArr1 [0; 1; 2; 3]%float) kernel_after_imports).

(** * Properties *)

(** ** The library models on small inputs *)

Example linspace_quarters :
  np.linspace 0 1 5 = Ok [0; 0.25; 0.5; 0.75; 1]%float.
Proof. vm_compute. reflexivity. Qed.

Example linspace_second_sample :
  nth 1 (np.linspace_nat 0 (4 * np.pi) 100) 0%float = 0.12693303650867852%float.
Proof. vm_compute. reflexivity. Qed.

Example cumsum_rows :
  np.cumsum [[1; 2; 3]; [0.5; 0.25]]%float = [[1; 3; 6]; [0.5; 0.75]]%float.
Proof. vm_compute. reflexivity. Qed.

Example round_ties_to_even :
  py.round 0.5 = Ok 0%Z /\ py.round 1.5 = Ok 2%Z /\ py.round 2.5 = Ok 2%Z /\
  py.round (-2.5) = Ok (-2)%Z /\ py.round 2.6 = Ok 3%Z.
Proof. repeat split; vm_compute; reflexivity. Qed.

Example interp_clamps_outside :
  np.interp [0; 0.5; 1; 2.5; 3; 4]%float [1; 2; 3]%float [10; 20; 40]%float
  = Ok [10; 10; 10; 30; 40; 40]%float.
Proof. vm_compute. reflexivity. Qed.

Example interp_checks_lengths :
  np.interp [0.5]%float [] [] = Raise (ValueError "array of sample points is empty") /\
  np.interp [0.5]%float [1; 2]%float [7]%float
  = Raise (ValueError "fp and xp are not of the same length.").
Proof. split; reflexivity. Qed.

Example column_minus_row :
  np.broadcast2 PrimFloat.sub [[1; 2; 3]]%float [[10]; [20]]%float
  = Ok [[-9; -8; -7]; [-19; -18; -17]]%float.
Proof. vm_compute. reflexivity. Qed.

Example set_tail_last_two :
  np.set_tail [[1]; [2]; [3]]%float 2 [[7]; [8]]%float = Ok [[1]; [7]; [8]]%float.
Proof. vm_compute. reflexivity. Qed.

(** [a[-0:]] is all of [a]. *)
Example set_tail_zero :
  np.set_tail [[1]; [2]]%float 0 [[9]]%float = Ok [[9]; [9]]%float /\
  np.set_tail [[1]; [2]]%float 0 [] = Raise (ValueError "could not broadcast input array").
Proof. split; vm_compute; reflexivity. Qed.

Example repmat_rows :
  np.matlib_repmat [1; 2]%float 3 1 = Ok [[1; 2]; [1; 2]; [1; 2]]%float.
Proof. vm_compute. reflexivity. Qed.

Example histogram_of_four_points :
  np.histogram2d [0; 1; 2; 3]%float [0; 0; 1; 1]%float 2 2
  = Ok ([[2; 0]; [0; 2]], [0; 1.5; 3], [0; 0.5; 1])%float.
Proof. vm_compute. reflexivity. Qed.

Example histogram_checks_lengths :
  np.histogram2d [0; 1]%float [0]%float 2 2
  = Raise (ValueError "x and y must have the same length.").
Proof. reflexivity. Qed.

Example shorthand_fields :
  alt.shorthand_field "count(Origin):Q" = "Origin" /\
  alt.shorthand_field "Horsepower:Q" = "Horsepower" /\
  alt.shorthand_field "Acceleration" = "Acceleration".
Proof. repeat split. Qed.

Example cell_options :
  cell_option "label" (src "# | label: horsepower") = Some "horsepower" /\
  cell_option "label" (src "fig.colorbar(pcm, ax=axes, label='# points', pad=0)") = None.
Proof. split; reflexivity. Qed.

Example literals_of_a_line :
  string_literals (src "    .encode(y='Origin:N', color='Origin:N', x='count(Origin):Q')")
  = ["Origin:N"; "Origin:N"; "count(Origin):Q"].
Proof. reflexivity. Qed.

(** ** Shapes of arrays *)

Section Shapes.

Implicit Types (a v : arr2) (r c i j : nat).

Lemma length_tabulate f r c : length (np.tabulate f r c) = r.
Proof. unfold np.tabulate. now rewrite length_map, length_seq. Qed.

Lemma tabulate_shaped f r c : shaped r c (np.tabulate f r c).
Proof.
  split; [apply length_tabulate|].
  unfold np.tabulate. apply Forall_forall. intros row Hin.
  apply list_elem_of_In, in_map_iff in Hin. destruct Hin as (i & <- & _).
  now rewrite length_map, length_seq.
Qed.

Lemma nth_map_seq {A : Type} (g : nat -> A) c j d :
  j < c -> nth j (map g (seq 0 c)) d = g j.
Proof.
  intros Hj. rewrite (nth_indep _ d (g 0%nat)) by now rewrite length_map, length_seq.
  rewrite map_nth, seq_nth by exact Hj. reflexivity.
Qed.

Lemma nth_tabulate f r c i :
  i < r -> nth i (np.tabulate f r c) [] = map (f i) (seq 0 c).
Proof.
  intros Hi. unfold np.tabulate.
  now rewrite (nth_map_seq (fun i => map (f i) (seq 0 c))).
Qed.

Lemma shaped_nth r c a i : shaped r c a -> i < r -> length (nth i a []) = c.
Proof.
  intros [Hlen Hrows] Hi. rewrite Forall_forall in Hrows.
  apply Hrows, list_elem_of_In, nth_In. lia.
Qed.

Lemma shaped_ncols r c a : shaped r c a -> 0 < r -> np.ncols a = c.
Proof.
  intros H Hr. unfold np.ncols. rewrite <- (shaped_nth r c a 0 H Hr).
  now destruct a.
Qed.

Lemma length_cumsum_from acc (l : arr1) : length (np.cumsum_from acc l) = length l.
Proof. revert acc. induction l as [|x t IH]; intros acc; simpl; [|rewrite IH]; reflexivity. Qed.

Lemma length_cumsum_row (l : arr1) : length (np.cumsum_row l) = length l.
Proof. destruct l; simpl; [|rewrite length_cumsum_from]; reflexivity. Qed.

Lemma shaped_map (g : arr1 -> arr1) r c a :
  (forall row, length (g row) = length row) -> shaped r c a -> shaped r c (map g a).
Proof.
  intros Hg [Hlen Hrows]. split; [now rewrite length_map|].
  apply Forall_forall. intros row Hin.
  apply list_elem_of_In, in_map_iff in Hin. destruct Hin as (row' & <- & Hin).
  rewrite Hg. rewrite Forall_forall in Hrows. now apply Hrows, list_elem_of_In.
Qed.

Lemma cumsum_shaped r c a : shaped r c a -> shaped r c (np.cumsum a).
Proof. apply shaped_map, length_cumsum_row. Qed.

Lemma scale_shaped s r c a : shaped r c a -> shaped r c (np.scale s a).
Proof. apply shaped_map. intros row. apply length_map. Qed.

Lemma sin_shaped w r c a : shaped r c a -> shaped r c (np.sin w a).
Proof. apply shaped_map. intros row. apply length_map. Qed.

Lemma length_set_last (l : arr1) x : length (np.set_last l x) = length l.
Proof.
  induction l as [|y t IH]; [reflexivity|].
  destruct t as [|z t]; [reflexivity|].
  change (length (y :: np.set_last (z :: t) x) = length (y :: z :: t)).
  simpl in *. now rewrite IH.
Qed.

Lemma length_linspace_nat start stop n : length (np.linspace_nat start stop n) = n.
Proof.
  unfold np.linspace_nat.
  repeat match goal with |- context [if ?b then _ else _] => destruct b end;
    rewrite ?length_set_last, !length_map, length_seq; reflexivity.
Qed.

(** Stretching an axis that already has the length asked for changes
    nothing. *)
Lemma pick_seq {A : Type} (l : list A) d :
  map (fun j => np.pick l j d) (seq 0 (length l)) = l.
Proof.
  unfold np.pick. destruct (length l =? 1)%nat eqn:E.
  - apply Nat.eqb_eq in E. destruct l as [|x [|y t]]; try discriminate. reflexivity.
  - apply (nth_ext _ _ d d); [now rewrite length_map, length_seq|].
    intros n Hn. rewrite length_map, length_seq in Hn.
    now rewrite (nth_map_seq (fun j => nth j l d)).
Qed.

Lemma pick_row r c a i : shaped r c a -> i < r -> length (np.pick a i []) = c.
Proof.
  intros H Hi. unfold np.pick. destruct (length a =? 1)%nat eqn:E.
  - apply (shaped_nth r c); [exact H|lia].
  - now apply (shaped_nth r c).
Qed.

Lemma tabulate_entry r c v : shaped r c v -> np.tabulate (np.entry v) r c = v.
Proof.
  intros H. unfold np.tabulate, np.entry.
  transitivity (map (fun i => np.pick v i []) (seq 0 r)).
  - apply map_ext_in. intros i Hi. apply in_seq in Hi.
    rewrite <- (pick_row r c v i) by (auto; lia).
    apply pick_seq.
  - destruct H as [<- _]. apply pick_seq.
Qed.

Lemma index_nat n i : i < n -> np.index n (Z.of_nat i) = Ok i.
Proof.
  intros Hi. unfold np.index.
  replace ((0 <=? Z.of_nat i)%Z && (Z.of_nat i <? Z.of_nat n)%Z) with true
    by (symmetry; apply andb_true_iff; split; [apply Z.leb_le|apply Z.ltb_lt]; lia).
  now rewrite Nat2Z.id.
Qed.

Lemma get_row_nat a i : i < length a -> np.get_row a (Z.of_nat i) = Ok (nth i a []).
Proof. intros Hi. unfold np.get_row. now rewrite index_nat. Qed.

Lemma set_row_nat a i (row : arr1) :
  i < length a -> length row = length (nth i a []) ->
  np.set_row a (Z.of_nat i) row = Ok (<[i := row]> a).
Proof.
  intros Hi Hrow. unfold np.set_row. rewrite index_nat by exact Hi. simpl.
  rewrite Hrow, Nat.eqb_refl. simpl. rewrite <- Hrow. now rewrite pick_seq.
Qed.

(** [a[-q:] = v] for [q] rows [v] of the width of [a]: the last [q] rows
    are replaced, the rows before them stay. *)
Lemma set_tail_rows r c q a v :
  shaped r c a -> shaped q c v -> 0 < q -> q <= r ->
  np.set_tail a (Z.of_nat q) v = Ok (take (r - q) a ++ v).
Proof.
  intros Ha Hv Hq Hqr. unfold np.set_tail.
  assert (Hs : np.tail_start (length a) (Z.of_nat q) = (r - q)%nat).
  { unfold np.tail_start. destruct Ha as [-> _].
    replace (- Z.of_nat q <? 0)%Z with true by (symmetry; apply Z.ltb_lt; lia). lia. }
  rewrite Hs. destruct Ha as [Hla Hra]. rewrite Hla.
  replace (r - (r - q))%nat with q by lia.
  destruct Hv as [Hlv Hrv]. rewrite Hlv, Nat.eqb_refl. simpl.
  rewrite (shaped_ncols q c v), (shaped_ncols r c a) by (try split; auto; lia).
  rewrite Nat.eqb_refl, orb_true_r. simpl.
  now rewrite tabulate_entry by (split; auto).
Qed.

Lemma length_interp (x xp fp out : arr1) :
  np.interp x xp fp = Ok out -> length out = length x.
Proof.
  unfold np.interp. repeat match goal with |- context [if ?b then _ else _] => destruct b end;
    intros [= <-]. apply length_map.
Qed.

Lemma interp_ok (x xp fp : arr1) :
  0 < length xp -> length fp = length xp ->
  np.interp x xp fp = Ok (map (np.interp_at xp fp) x).
Proof.
  intros Hxp Hfp. unfold np.interp.
  destruct (length xp =? 0)%nat eqn:E; [apply Nat.eqb_eq in E; lia|].
  now rewrite Hfp, Nat.eqb_refl.
Qed.

(** Flattening [r] rows of [c] entries gives [r * c] entries. *)
Lemma length_flatten r c a : shaped r c a -> length (np.flatten a) = (r * c)%nat.
Proof.
  intros [Hlen Hrows]. subst r. unfold np.flatten.
  induction Hrows as [|row t Hrow _ IH]; [reflexivity|].
  simpl. rewrite length_app, IH, Hrow. reflexivity.
Qed.

Lemma replicate_shaped r (row : arr1) : shaped r (length row) (replicate r row).
Proof.
  split; [apply length_replicate|]. apply Forall_forall. intros x Hx.
  apply elem_of_replicate in Hx. now destruct Hx as [-> _].
Qed.

End Shapes.

(** ** Stores and lookups *)

(** The arrays stay folded while statements are simplified. *)
Arguments np.tabulate : simpl never.
Arguments np.linspace_nat : simpl never.
Arguments np.cumsum : simpl never.
Arguments np.interp_at : simpl never.
Arguments np.flatten : simpl never.
Arguments np.transpose : simpl never.
Arguments np.histogram2d : simpl never.
Arguments py.round : simpl never.
Arguments py.float_of_int : simpl never.

Section Kernel.

Implicit Types (k : kernel) (x y : string) (v : value).

Lemma ns_store x v k : ns (store x v k) = <[x := v]> (ns k).
Proof. reflexivity. Qed.
Lemma ns_tick n k : ns (tick n k) = ns k.
Proof. reflexivity. Qed.
Lemma ns_display v k : ns (display v k) = ns k.
Proof. reflexivity. Qed.
Lemma rng_store x v k : rng_calls (store x v k) = rng_calls k.
Proof. reflexivity. Qed.
Lemma rng_tick n k : rng_calls (tick n k) = (rng_calls k + n)%nat.
Proof. reflexivity. Qed.
Lemma rng_display v k : rng_calls (display v k) = rng_calls k.
Proof. reflexivity. Qed.
Lemma out_store x v k : out (store x v k) = out k.
Proof. reflexivity. Qed.
Lemma out_tick n k : out (tick n k) = out k.
Proof. reflexivity. Qed.
Lemma out_display v k : out (display v k) = out k ++ [v].
Proof. reflexivity. Qed.

Lemma load_bound x v k : ns k !! x = Some v -> load x k = Ok v.
Proof. unfold load. now intros ->. Qed.

Lemma load_unbound x k : ns k !! x = None -> load x k = Raise (NameError x).
Proof. unfold load. now intros ->. Qed.

Lemma use_bound x m k : ns k !! x = Some (VModule m) -> use x m k = Ok ().
Proof. intros H. unfold use. rewrite (load_bound _ _ _ H). simpl. now rewrite String.eqb_refl. Qed.

Lemma use_unbound x m k : ns k !! x = None -> use x m k = Raise (NameError x).
Proof. intros H. unfold use. now rewrite (load_unbound _ _ H). Qed.

Lemma assign_done xs e k vs : e k = Ok vs -> assign xs e k = Done (store_all xs vs k).
Proof. unfold assign. now intros ->. Qed.

Lemma assign1_done x e k v : e k = Ok [v] -> assign [x] e k = Done (store x v k).
Proof. unfold assign. now intros ->. Qed.

Lemma assign_raised xs e k err : e k = Raise err -> assign xs e k = Raised err k.
Proof. unfold assign. now intros ->. Qed.

Lemma exec_app (b1 b2 : list stmt) k k1 :
  exec b1 k = Done k1 -> exec (b1 ++ b2) k = exec b2 k1.
Proof.
  revert k. induction b1 as [|s b1 IH]; intros k; simpl.
  - now intros [= ->].
  - destruct (s k) as [k'|err k']; [apply IH|discriminate].
Qed.

Lemma exec_app_raised (b1 b2 : list stmt) k err k1 :
  exec b1 k = Raised err k1 -> exec (b1 ++ b2) k = Raised err k1.
Proof.
  revert k. induction b1 as [|s b1 IH]; intros k; simpl; [discriminate|].
  destruct (s k) as [k'|err' k']; [apply IH|trivial].
Qed.

Lemma exec_cons (s : stmt) (b : list stmt) k k1 :
  s k = Done k1 -> exec (s :: b) k = exec b k1.
Proof. simpl. now intros ->. Qed.

End Kernel.

Create HintDb kernels.

(** Looks a name up in a kernel built by stores over a kernel whose
    bindings are among the hypotheses. *)
Ltac lookup_ns :=
  try unfold numpy_in; autounfold with kernels; cbn [store_all];
  repeat first [ rewrite ns_store | rewrite ns_tick | rewrite ns_display ];
  repeat first
    [ rewrite lookup_insert_eq
    | rewrite lookup_insert_ne by (intros [=]) ];
  first [ eassumption | reflexivity
        | match goal with H : _ |- _ => exact H end | idtac ].

(** ** The data cell, statement by statement *)

Section DataSteps.

Context (w : world).
Implicit Types (k : kernel).

Lemma s_x_spec k p :
  numpy_in k -> ns k !! "num_points" = Some (VInt p) -> (0 <= p)%Z ->
  s_x k = Done (store "x" (VArr1 (np.linspace_nat 0 (4 * np.pi) (Z.to_nat p))) k).
Proof.
  intros Hnp Hp Hpos. apply assign1_done.
  rewrite (use_bound _ _ _ Hnp), (load_bound _ _ _ Hp). simpl.
  unfold np.linspace. destruct (p <? 0)%Z eqn:E; [apply Z.ltb_lt in E; lia|].
  reflexivity.
Qed.

Lemma dims_ok (d0 d1 : Z) :
  (0 <= d0)%Z -> (0 <= d1)%Z -> np.dims d0 d1 = Ok (Z.to_nat d0, Z.to_nat d1).
Proof.
  intros H0 H1. unfold np.dims.
  replace (d0 <? 0)%Z with false by (symmetry; apply Z.ltb_ge; lia).
  replace (d1 <? 0)%Z with false by (symmetry; apply Z.ltb_ge; lia).
  reflexivity.
Qed.

Lemma s_Y_spec k (n p : nat) :
  numpy_in k ->
  ns k !! "num_series" = Some (VInt (Z.of_nat n)) ->
  ns k !! "num_points" = Some (VInt (Z.of_nat p)) ->
  s_Y w k =
    Done (tick 1 (store "Y"
            (VArr2 (np.cumsum (np.tabulate (w_randn w (rng_calls k)) n p))) k)).
Proof.
  intros Hnp Hn Hp. unfold s_Y, drawing.
  erewrite assign1_done; [reflexivity|].
  rewrite (use_bound _ _ _ Hnp), (load_bound _ _ _ Hn), (load_bound _ _ _ Hp). simpl.
  unfold np.random_randn. rewrite dims_ok by lia. simpl. now rewrite !Nat2Z.id.
Qed.

Lemma s_num_signal_spec k (snr : float) (n q : Z) (f : float) :
  ns k !! "SNR" = Some (VFloat snr) ->
  ns k !! "num_series" = Some (VInt n) ->
  py.float_of_int n = Ok f ->
  py.round (snr * f) = Ok q ->
  s_num_signal k = Done (store "num_signal" (VInt q) k).
Proof.
  intros Hs Hn Hf Hq. apply assign1_done.
  rewrite (load_bound _ _ _ Hs), (load_bound _ _ _ Hn). simpl.
  rewrite Hf. simpl. rewrite Hq. reflexivity.
Qed.

Lemma s_phi_spec k (q : nat) :
  numpy_in k ->
  ns k !! "num_signal" = Some (VInt (Z.of_nat q)) ->
  s_phi w k =
    Done (tick 1 (store "phi"
            (VArr2 (np.scale (np.pi / 8) (np.tabulate (w_randn w (rng_calls k)) q 1))) k)).
Proof.
  intros Hnp Hq. unfold s_phi, drawing.
  erewrite assign1_done; [reflexivity|].
  rewrite (use_bound _ _ _ Hnp), (load_bound _ _ _ Hq). simpl.
  unfold np.random_randn. rewrite dims_ok by lia. simpl. now rewrite !Nat2Z.id.
Qed.

End DataSteps.

Section SignalStep.

Context (w : world).
Implicit Types (k : kernel).

Lemma signal_of_shaped c x phi S P : shaped S P (signal_of w c x phi S P).
Proof. apply tabulate_shaped. Qed.

Lemma bcast_len_same n : np.bcast_len n n = Ok n.
Proof. unfold np.bcast_len. now rewrite Nat.eqb_refl. Qed.

Lemma bcast_len_one_l n : np.bcast_len 1 n = Ok n.
Proof.
  unfold np.bcast_len. destruct (1 =? n)%nat eqn:E; [|reflexivity].
  apply Nat.eqb_eq in E. now subst.
Qed.

Lemma bcast_len_one_r n : np.bcast_len n 1 = Ok n.
Proof.
  unfold np.bcast_len. destruct (n =? 1)%nat eqn:E; [reflexivity|].
  now rewrite Nat.eqb_refl.
Qed.

Lemma broadcast2_lengths f a b r c :
  np.bcast_len (length a) (length b) = Ok r ->
  (0 < r -> np.bcast_len (np.ncols a) (np.ncols b) = Ok c) ->
  (r = 0%nat -> c = 0%nat) ->
  np.broadcast2 f a b = Ok (np.tabulate (fun i j => f (np.entry a i j) (np.entry b i j)) r c).
Proof.
  intros Hr Hc H0. unfold np.broadcast2. rewrite Hr. simpl.
  destruct r as [|r]; simpl.
  - now rewrite H0.
  - rewrite Hc by lia. reflexivity.
Qed.

Lemma length_arange (P : nat) : length (np.sqrt (np.arange (Z.of_nat P))) = P.
Proof. unfold np.sqrt, np.arange. now rewrite !length_map, length_seq, Nat2Z.id. Qed.

Lemma s_Y_signal_spec k (S P R : nat) (x : arr1) (phi Y : arr2) :
  numpy_in k ->
  ns k !! "num_points" = Some (VInt (Z.of_nat P)) ->
  ns k !! "num_signal" = Some (VInt (Z.of_nat S)) ->
  ns k !! "x" = Some (VArr1 x) ->
  ns k !! "phi" = Some (VArr2 phi) ->
  ns k !! "Y" = Some (VArr2 Y) ->
  length x = P -> shaped S 1 phi -> shaped R P Y -> 0 < S -> S <= R ->
  s_Y_signal w k =
    Done (tick 1 (store "Y"
            (VArr2 (take (R - S) Y ++ signal_of w (rng_calls k) x phi S P)) k)).
Proof.
  intros Hnp HP HS Hx Hphi HY Hlx Hsphi HsY HS0 HSR. unfold s_Y_signal, drawing.
  erewrite assign1_done; [reflexivity|].
  rewrite (use_bound _ _ _ Hnp), (load_bound _ _ _ HP), (load_bound _ _ _ HS),
    (load_bound _ _ _ Hx), (load_bound _ _ _ Hphi), (load_bound _ _ _ HY).
  simpl.
  rewrite (broadcast2_lengths _ _ _ S P); cycle 1.
  { destruct Hsphi as [-> _]. apply bcast_len_one_l. }
  { intros _. rewrite (shaped_ncols S 1 phi) by (auto; lia).
    unfold np.as_row, np.ncols. simpl. rewrite Hlx. apply bcast_len_one_r. }
  { lia. }
  simpl. unfold np.random_randn. rewrite dims_ok by lia. simpl. rewrite !Nat2Z.id.
  rewrite (broadcast2_lengths _ _ _ S P); cycle 1.
  { rewrite (proj1 (sin_shaped w S P _ (tabulate_shaped _ S P))).
    rewrite (proj1 (scale_shaped _ S P _ (tabulate_shaped _ S P))).
    apply bcast_len_same. }
  { intros _.
    rewrite (shaped_ncols S P _ (sin_shaped w S P _ (tabulate_shaped _ S P))) by lia.
    rewrite (shaped_ncols S P _ (scale_shaped _ S P _ (tabulate_shaped _ S P))) by lia.
    apply bcast_len_same. }
  { lia. }
  simpl.
  rewrite (broadcast2_lengths _ _ _ S P); cycle 1.
  { rewrite length_tabulate. apply bcast_len_one_l. }
  { intros _. rewrite (shaped_ncols S P _ (tabulate_shaped _ S P)) by lia.
    unfold np.as_row, np.ncols. simpl. rewrite length_arange. apply bcast_len_same. }
  { lia. }
  simpl.
  rewrite (set_tail_rows R P S) by (auto using tabulate_shaped).
  reflexivity.
Qed.

End SignalStep.

Section GridSteps.

Context (w : world).
Implicit Types (k : kernel).

Lemma store_store x v v' k : store x v' (store x v k) = store x v' k.
Proof. unfold store. simpl. now rewrite insert_insert_eq. Qed.

Lemma store_commute x y v u k :
  x <> y -> store x v (store y u k) = store y u (store x v k).
Proof. intros H. unfold store. simpl. now rewrite insert_insert_ne. Qed.

Lemma s_x_fine_spec k (x : arr1) (lo hi : float) (m : nat) :
  numpy_in k ->
  ns k !! "x" = Some (VArr1 x) ->
  ns k !! "num_fine" = Some (VInt (Z.of_nat m)) ->
  np.min x = Ok lo -> np.max x = Ok hi ->
  s_x_fine k = Done (store "x_fine" (VArr1 (np.linspace_nat lo hi m)) k).
Proof.
  intros Hnp Hx Hm Hlo Hhi. apply assign1_done.
  rewrite (use_bound _ _ _ Hnp), (load_bound _ _ _ Hx), (load_bound _ _ _ Hm). simpl.
  rewrite Hlo, Hhi. simpl. unfold np.linspace.
  replace (Z.of_nat m <? 0)%Z with false by (symmetry; apply Z.ltb_ge; lia).
  now rewrite Nat2Z.id.
Qed.

Lemma s_y_fine_spec k (n m : nat) :
  numpy_in k ->
  ns k !! "num_series" = Some (VInt (Z.of_nat n)) ->
  ns k !! "num_fine" = Some (VInt (Z.of_nat m)) ->
  s_y_fine w k = Done (store "y_fine" (VArr2 (np.tabulate (w_empty w) n m)) k).
Proof.
  intros Hnp Hn Hm. apply assign1_done.
  rewrite (use_bound _ _ _ Hnp), (load_bound _ _ _ Hn), (load_bound _ _ _ Hm). simpl.
  unfold np.empty. rewrite dims_ok by lia. simpl. now rewrite !Nat2Z.id.
Qed.

Lemma s_interp_row_spec k (s : nat) (x_fine x : arr1) (Y V : arr2) :
  numpy_in k ->
  ns k !! "x_fine" = Some (VArr1 x_fine) ->
  ns k !! "x" = Some (VArr1 x) ->
  ns k !! "Y" = Some (VArr2 Y) ->
  ns k !! "i" = Some (VInt (Z.of_nat s)) ->
  ns k !! "y_fine" = Some (VArr2 V) ->
  s < length Y -> length (nth s Y []) = length x -> 0 < length x ->
  s < length V -> length (nth s V []) = length x_fine ->
  s_interp_row k =
    Done (store "y_fine"
            (VArr2 (<[s := map (np.interp_at x (nth s Y [])) x_fine]> V)) k).
Proof.
  intros Hnp Hxf Hx HY Hi HV HsY Hrow Hx0 HsV HrowV. apply assign1_done.
  rewrite (use_bound _ _ _ Hnp), (load_bound _ _ _ Hxf), (load_bound _ _ _ Hx),
    (load_bound _ _ _ HY), (load_bound _ _ _ Hi), (load_bound _ _ _ HV).
  simpl. rewrite get_row_nat by exact HsY. simpl.
  rewrite interp_ok by auto. simpl.
  rewrite set_row_nat by (auto; now rewrite length_map).
  reflexivity.
Qed.

Lemma iter_step (s : nat) (V V' : arr2) k :
  store "y_fine" (VArr2 V') (store "i" (VInt (Z.of_nat s)) (after_iters s V k))
  = after_iters (S s) V' k.
Proof.
  destruct s as [|s]; [reflexivity|]. unfold after_iters.
  rewrite (store_commute "i" "y_fine") by discriminate.
  now rewrite (store_store "y_fine"), (store_store "i").
Qed.

Lemma lookup_after_iters (s : nat) (V : arr2) k (x : string) :
  x <> "i" -> x <> "y_fine" -> ns (after_iters s V k) !! x = ns k !! x.
Proof.
  intros Hi Hy. destruct s; [reflexivity|]. unfold after_iters.
  rewrite !ns_store. now rewrite !lookup_insert_ne by congruence.
Qed.

Lemma lookup_after_iters_y (s : nat) (V : arr2) k :
  (s = 0%nat -> ns k !! "y_fine" = Some (VArr2 V)) ->
  ns (after_iters s V k) !! "y_fine" = Some (VArr2 V).
Proof.
  intros H. destruct s; [now apply H|]. unfold after_iters.
  rewrite ns_store. now rewrite lookup_insert_eq.
Qed.

(** Writing the interpolated row [s] next to the rows already written. *)
Lemma insert_next_row (f : arr1 -> arr1) (Y yf0 : arr2) (s : nat) :
  s < length Y -> s < length yf0 ->
  <[s := f (nth s Y [])]> (map f (take s Y) ++ drop s yf0)
  = map f (take (S s) Y) ++ drop (S s) yf0.
Proof.
  intros HY Hyf.
  assert (Hlen : length (map f (take s Y)) = s)
    by (rewrite length_map, length_take; lia).
  rewrite insert_app_r_alt by lia. rewrite Hlen, Nat.sub_diag.
  destruct (lookup_lt_is_Some_2 yf0 s Hyf) as [y0 Hy0].
  destruct (lookup_lt_is_Some_2 Y s HY) as [y Hy].
  rewrite (drop_S _ _ _ Hy0). simpl.
  rewrite (take_S_r _ _ _ Hy), map_app. simpl.
  rewrite <- app_assoc. simpl.
  now rewrite (nth_lookup_Some _ _ _ _ Hy).
Qed.

Lemma for_each_interp k (x_fine x : arr1) (Y yf0 : arr2) (n : nat) :
  numpy_in k ->
  ns k !! "x_fine" = Some (VArr1 x_fine) ->
  ns k !! "x" = Some (VArr1 x) ->
  ns k !! "Y" = Some (VArr2 Y) ->
  ns k !! "y_fine" = Some (VArr2 yf0) ->
  shaped n (length x_fine) yf0 ->
  n <= length Y -> Forall (fun row => length row = length x) Y -> 0 < length x ->
  forall t s, (s + t = n)%nat ->
    for_each "i" s_interp_row (map Z.of_nat (seq s t))
      (after_iters s (interp_rows x_fine x (take s Y) ++ drop s yf0) k)
    = Done (after_iters n (interp_rows x_fine x (take n Y) ++ drop n yf0) k).
Proof.
  intros Hnp Hxf Hx HY Hyf Hshape HnY Hrows Hx0.
  induction t as [|t IH]; intros s Hst.
  - simpl. replace s with n by lia. reflexivity.
  - simpl.
    set (V := interp_rows x_fine x (take s Y) ++ drop s yf0).
    assert (HlenV : length V = n).
    { unfold V, interp_rows. rewrite length_app, length_map, length_take, length_drop.
      destruct Hshape as [-> _]. lia. }
    rewrite (s_interp_row_spec _ s x_fine x Y V).
    + rewrite iter_step. unfold V, interp_rows at 1.
      rewrite (insert_next_row (fun row => map (np.interp_at x row) x_fine))
        by (destruct Hshape as [Hl _]; lia).
      apply (IH (S s)). lia.
    + unfold numpy_in. rewrite ns_store, lookup_insert_ne by discriminate.
      now rewrite lookup_after_iters by discriminate.
    + rewrite ns_store, lookup_insert_ne by discriminate.
      now rewrite lookup_after_iters by discriminate.
    + rewrite ns_store, lookup_insert_ne by discriminate.
      now rewrite lookup_after_iters by discriminate.
    + rewrite ns_store, lookup_insert_ne by discriminate.
      now rewrite lookup_after_iters by discriminate.
    + rewrite ns_store. now rewrite lookup_insert_eq.
    + rewrite ns_store, lookup_insert_ne by discriminate.
      apply lookup_after_iters_y. intros ->. unfold V. simpl. now rewrite drop_0.
    + lia.
    + rewrite Forall_forall in Hrows. apply Hrows, list_elem_of_In, nth_In. lia.
    + exact Hx0.
    + lia.
    + unfold V, interp_rows.
      rewrite app_nth2 by (rewrite length_map, length_take; lia).
      rewrite length_map, length_take.
      replace (s - s `min` length Y)%nat with 0%nat by lia.
      destruct Hshape as [Hl Hr]. rewrite Forall_forall in Hr.
      destruct (lookup_lt_is_Some_2 yf0 s ltac:(lia)) as [y0 Hy0].
      rewrite (drop_S _ _ _ Hy0). simpl.
      eapply Hr, list_elem_of_lookup_2, Hy0.
Qed.

Lemma s_interp_loop_spec k (x_fine x : arr1) (Y yf0 : arr2) (n : nat) :
  numpy_in k ->
  ns k !! "num_series" = Some (VInt (Z.of_nat n)) ->
  ns k !! "x_fine" = Some (VArr1 x_fine) ->
  ns k !! "x" = Some (VArr1 x) ->
  ns k !! "Y" = Some (VArr2 Y) ->
  ns k !! "y_fine" = Some (VArr2 yf0) ->
  shaped n (length x_fine) yf0 ->
  n <= length Y -> Forall (fun row => length row = length x) Y -> 0 < length x ->
  s_interp_loop k = Done (after_iters n (interp_rows x_fine x (take n Y)) k).
Proof.
  intros Hnp Hn Hxf Hx HY Hyf Hshape HnY Hrows Hx0.
  unfold s_interp_loop, for_range. rewrite (load_bound _ _ _ Hn). simpl.
  rewrite Nat2Z.id.
  pose proof (for_each_interp k x_fine x Y yf0 n Hnp Hxf Hx HY Hyf Hshape HnY Hrows Hx0
                n 0%nat ltac:(lia)) as H.
  simpl in H. rewrite H.
  rewrite drop_ge by (destruct Hshape as [-> _]; lia).
  now rewrite app_nil_r.
Qed.

End GridSteps.

#[global] Hint Unfold after_iters after_walks after_signal after_grid after_loop after_data : kernels.

Section DataCell.

Context (w : world).
Implicit Types (k : kernel).

Lemma s_y_fine_flatten_spec k (V : arr2) :
  ns k !! "y_fine" = Some (VArr2 V) ->
  s_y_fine_flatten k = Done (store "y_fine" (VArr1 (np.flatten V)) k).
Proof. intros HV. apply assign1_done. now rewrite (load_bound _ _ _ HV). Qed.

Lemma s_x_fine_flatten_spec k (x_fine : arr1) (n : nat) :
  numpy_in k ->
  ns k !! "x_fine" = Some (VArr1 x_fine) ->
  ns k !! "num_series" = Some (VInt (Z.of_nat n)) ->
  s_x_fine_flatten k = Done (store "x_fine" (VArr1 (np.flatten (replicate n x_fine))) k).
Proof.
  intros Hnp Hxf Hn. apply assign1_done.
  rewrite (use_bound _ _ _ Hnp), (load_bound _ _ _ Hxf), (load_bound _ _ _ Hn). simpl.
  unfold np.matlib_repmat. rewrite dims_ok by lia. simpl.
  now rewrite Nat2Z.id, app_nil_r.
Qed.

Lemma length_x_grid : length x_grid = 100%nat.
Proof. apply length_linspace_nat. Qed.

Lemma length_x_fine_grid : length x_fine_grid = 800%nat.
Proof. apply length_linspace_nat. Qed.

Lemma x_grid_min : np.min x_grid = Ok 0%float.
Proof. vm_compute. reflexivity. Qed.

Lemma x_grid_max : np.max x_grid = Ok (4 * np.pi)%float.
Proof. vm_compute. reflexivity. Qed.

Lemma num_signal_value :
  py.float_of_int 1000 = Ok 1000%float /\ py.round (0.10 * 1000) = Ok 100%Z.
Proof. split; vm_compute; reflexivity. Qed.

Lemma walks_shaped c : shaped 1000 100 (walks w c).
Proof. apply cumsum_shaped, tabulate_shaped. Qed.

Lemma phases_shaped c : shaped 100 1 (phases w c).
Proof. apply scale_shaped, tabulate_shaped. Qed.

Lemma signals_shaped c : shaped 100 100 (signals w c).
Proof. apply signal_of_shaped. Qed.

Lemma series_shaped c : shaped 1000 100 (series w c).
Proof.
  destruct (walks_shaped c) as [Hl Hr]. destruct (signals_shaped c) as [Hl' Hr'].
  split.
  - unfold series. rewrite length_app, length_take, Hl, Hl'. reflexivity.
  - unfold series. apply Forall_app. split; [now apply Forall_take|exact Hr'].
Qed.

Lemma fine_series_shaped c : shaped 1000 800 (fine_series w c).
Proof.
  destruct (series_shaped c) as [Hl _]. split.
  - unfold fine_series, interp_rows. now rewrite length_map.
  - unfold fine_series, interp_rows. apply Forall_forall. intros row Hin.
    apply list_elem_of_In, in_map_iff in Hin. destruct Hin as (r & <- & _).
    rewrite length_map. apply length_x_fine_grid.
Qed.

Lemma s_num_series_spec k : s_num_series k = Done (store "num_series" (VInt 1000) k).
Proof. reflexivity. Qed.
Lemma s_num_points_spec k : s_num_points k = Done (store "num_points" (VInt 100) k).
Proof. reflexivity. Qed.
Lemma s_SNR_spec k : s_SNR k = Done (store "SNR" (VFloat 0.10) k).
Proof. reflexivity. Qed.
Lemma s_num_fine_spec k : s_num_fine k = Done (store "num_fine" (VInt 800) k).
Proof. reflexivity. Qed.

Lemma run_walks k :
  numpy_in k -> exec (take 5 (data_body w)) k = Done (after_walks w k).
Proof.
  intros Hnp. unfold data_body, take.
  rewrite (exec_cons _ _ _ _ (s_num_series_spec _)).
  rewrite (exec_cons _ _ _ _ (s_num_points_spec _)).
  rewrite (exec_cons _ _ _ _ (s_SNR_spec _)).
  erewrite exec_cons
    by (apply (s_x_spec _ 100); [unfold numpy_in; lookup_ns|lookup_ns|lia]).
  erewrite exec_cons
    by (apply (s_Y_spec w _ 1000 100); [unfold numpy_in; lookup_ns|lookup_ns|lookup_ns]).
  reflexivity.
Qed.

Lemma rng_after_walks k : rng_calls (after_walks w k) = (rng_calls k + 1)%nat.
Proof. reflexivity. Qed.

Lemma run_signal k :
  numpy_in k -> exec (take 8 (data_body w)) k = Done (after_signal w k).
Proof.
  intros Hnp.
  change (take 8 (data_body w))
    with (take 5 (data_body w) ++ [s_num_signal; s_phi w; s_Y_signal w]).
  rewrite (exec_app _ _ _ _ (run_walks k Hnp)).
  destruct num_signal_value as [Hf Hq].
  erewrite exec_cons
    by (apply (s_num_signal_spec _ 0.10 1000 100 1000); [lookup_ns|lookup_ns|exact Hf|exact Hq]).
  erewrite exec_cons by (apply (s_phi_spec w _ 100); lookup_ns).
  erewrite exec_cons.
  2:{ apply (s_Y_signal_spec w _ 100 100 1000 x_grid
               (phases w (rng_calls k + 1)) (walks w (rng_calls k)));
        [lookup_ns|lookup_ns|lookup_ns|lookup_ns|lookup_ns|lookup_ns
        |apply length_x_grid|apply phases_shaped|apply walks_shaped|lia|lia]. }
  unfold exec.
  repeat first [ rewrite rng_tick | rewrite rng_store | rewrite rng_after_walks ].
  fold (phases w (rng_calls k + 1)).
  replace (rng_calls k + 1 + 1)%nat with (rng_calls k + 2)%nat by lia.
  change (1000 - 100)%nat with 900%nat.
  reflexivity.
Qed.

Lemma run_grid k :
  numpy_in k -> exec (take 11 (data_body w)) k = Done (after_grid w k).
Proof.
  intros Hnp.
  change (take 11 (data_body w))
    with (take 8 (data_body w) ++ [s_num_fine; s_x_fine; s_y_fine w]).
  rewrite (exec_app _ _ _ _ (run_signal k Hnp)).
  rewrite (exec_cons _ _ _ _ (s_num_fine_spec _)).
  erewrite exec_cons
    by (apply (s_x_fine_spec _ x_grid 0 (4 * np.pi) 800);
        [lookup_ns|lookup_ns|lookup_ns|apply x_grid_min|apply x_grid_max]).
  erewrite exec_cons by (apply (s_y_fine_spec w _ 1000 800); lookup_ns).
  reflexivity.
Qed.

Lemma run_loop k :
  numpy_in k -> exec (take 12 (data_body w)) k = Done (after_loop w k).
Proof.
  intros Hnp.
  change (take 12 (data_body w)) with (take 11 (data_body w) ++ [s_interp_loop]).
  rewrite (exec_app _ _ _ _ (run_grid k Hnp)).
  destruct (series_shaped (rng_calls k)) as [Hl Hr].
  erewrite exec_cons.
  2:{ apply (s_interp_loop_spec _ x_fine_grid x_grid (series w (rng_calls k))
               (np.tabulate (w_empty w) 1000 800) 1000);
        [lookup_ns|lookup_ns|lookup_ns|lookup_ns|lookup_ns|lookup_ns| | | |].
      - rewrite length_x_fine_grid. apply tabulate_shaped.
      - rewrite Hl. lia.
      - rewrite length_x_grid. exact Hr.
      - rewrite length_x_grid. lia. }
  unfold exec, after_loop, fine_series.
  rewrite take_ge by (rewrite Hl; lia).
  reflexivity.
Qed.

Lemma run_data k :
  numpy_in k -> exec (data_body w) k = Done (after_data w k).
Proof.
  intros Hnp.
  change (data_body w)
    with (take 12 (data_body w) ++ [s_y_fine_flatten; s_x_fine_flatten]).
  rewrite (exec_app _ _ _ _ (run_loop k Hnp)).
  erewrite exec_cons
    by (apply (s_y_fine_flatten_spec _ (fine_series w (rng_calls k)));
        lookup_ns).
  erewrite exec_cons
    by (apply (s_x_fine_flatten_spec _ x_fine_grid 1000);
        lookup_ns).
  reflexivity.
Qed.

End DataCell.

(** ** C8: the signal overwrite *)

Section Claims_data.

Context (w : world).

(** C8.  The cell computes [num_signal = int(round(0.10 * 1000)) = 100],
    and the assignment [Y[-num_signal:] = ...] of lines 112-116 replaces
    the last 100 rows of [Y] by the sinusoidal signals and leaves the
    first 900 rows as they were: the random walks that [np.cumsum] made of
    the Gaussian draws in line 108. *)
Theorem signal_overwrites_last_rows (k : kernel) :
  numpy_in k ->
  exists k5 k8 Y,
    exec (take 5 (data_body w)) k = Done k5 /\
    ns k5 !! "Y" = Some (VArr2 (np.cumsum (np.tabulate (w_randn w (rng_calls k)) 1000 100))) /\
    exec (take 8 (data_body w)) k = Done k8 /\
    ns k8 !! "num_signal" = Some (VInt 100) /\
    ns k8 !! "Y" = Some (VArr2 Y) /\
    length Y = 1000%nat /\
    take 900 Y = take 900 (np.cumsum (np.tabulate (w_randn w (rng_calls k)) 1000 100)) /\
    drop 900 Y = signals w (rng_calls k).
Proof.
  intros Hnp.
  exists (after_walks w k), (after_signal w k), (series w (rng_calls k)).
  destruct (walks_shaped w (rng_calls k)) as [Hl _].
  assert (Ht : length (take 900 (walks w (rng_calls k))) = 900%nat)
    by (rewrite length_take, Hl; reflexivity).
  split_and!.
  - now apply run_walks.
  - lookup_ns.
  - now apply run_signal.
  - lookup_ns.
  - lookup_ns.
  - apply series_shaped.
  - unfold series. rewrite take_app_length'; [reflexivity|exact Ht].
  - unfold series. rewrite drop_app_length'; [reflexivity|exact Ht].
Qed.

End Claims_data.

(** The claim at the kernel the import cell leaves. *)
Lemma signal_overwrites_last_rows_witness :
  exists k5 k8 Y,
    exec (take 5 (data_body sample_world)) kernel_after_imports = Done k5 /\
    ns k5 !! "Y" = Some (VArr2 (np.cumsum (np.tabulate (w_randn sample_world 0) 1000 100))) /\
    exec (take 8 (data_body sample_world)) kernel_after_imports = Done k8 /\
    ns k8 !! "num_signal" = Some (VInt 100) /\
    ns k8 !! "Y" = Some (VArr2 Y) /\
    length Y = 1000%nat /\
    take 900 Y = take 900 (np.cumsum (np.tabulate (w_randn sample_world 0) 1000 100)) /\
    drop 900 Y = signals sample_world 0.
Proof.
  apply (signal_overwrites_last_rows sample_world kernel_after_imports).
  vm_compute. reflexivity.
Defined.

(** ** C2: the shapes of the dataset *)

Section Ignores.

Implicit Types (x y : string) (s : stmt) (k : kernel).

Lemma store_all_commute x v xs vs k :
  x ∉ xs -> store_all xs vs (store x v k) = store x v (store_all xs vs k).
Proof.
  revert vs k. induction xs as [|y xs IH]; intros vs k Hx; [reflexivity|].
  destruct vs as [|u vs]; [reflexivity|]. simpl.
  apply not_elem_of_cons in Hx. destruct Hx as [Hxy Hx].
  rewrite (store_commute y x) by congruence. now apply IH.
Qed.

Lemma assign_ignores x xs (e : kernel -> res (list value)) :
  x ∉ xs -> (forall v k, e (store x v k) = e k) -> ignores x (assign xs e).
Proof.
  intros Hx He v k. unfold assign. rewrite He.
  destruct (e k) as [vs|err]; simpl; [|reflexivity].
  now rewrite store_all_commute.
Qed.

Lemma drawing_ignores x s : ignores x s -> ignores x (drawing s).
Proof.
  intros Hs v k. unfold drawing. rewrite Hs.
  destruct (s k); reflexivity.
Qed.

Lemma show_ignores x (e : kernel -> res value) :
  (forall v k, e (store x v k) = e k) -> ignores x (show e).
Proof.
  intros He v k. unfold show. rewrite He. destruct (e k); reflexivity.
Qed.

Lemma for_each_ignores x y s items :
  x <> y -> ignores x s -> ignores x (for_each y s items).
Proof.
  intros Hxy Hs. induction items as [|i rest IH]; intros v k; [reflexivity|].
  simpl. rewrite (store_commute y x) by congruence. rewrite Hs.
  destruct (s (store y (VInt i) k)) as [k'|err k']; simpl; [apply IH|reflexivity].
Qed.

Lemma for_range_ignores x y (n : kernel -> res Z) s :
  x <> y -> (forall v k, n (store x v k) = n k) -> ignores x s ->
  ignores x (for_range y n s).
Proof.
  intros Hxy Hn Hs v k. unfold for_range. rewrite Hn.
  destruct (n k) as [m|err]; [|reflexivity].
  now apply for_each_ignores.
Qed.

Lemma exec_ignores x (body : list stmt) :
  Forall (ignores x) body -> ignores x (exec body).
Proof.
  induction 1 as [|s body Hs _ IH]; intros v k; [reflexivity|].
  simpl. rewrite Hs. destruct (s k) as [k'|err k']; simpl; [apply IH|reflexivity].
Qed.

Lemma load_store_ne x y v k : x <> y -> load y (store x v k) = load y k.
Proof. intros H. unfold load. rewrite ns_store. now rewrite lookup_insert_ne. Qed.

Lemma use_store_ne x y m v k : x <> y -> use y m (store x v k) = use y m k.
Proof. intros H. unfold use. now rewrite load_store_ne. Qed.

End Ignores.

(** Proves that an expression does not read [x], given that [x] differs
    from every name the expression loads. *)
Ltac not_read :=
  intros;
  repeat first
    [ rewrite load_store_ne by congruence
    | rewrite use_store_ne by congruence
    | rewrite rng_store ];
  reflexivity.

(** Splits [x ∉ [a; b; ...]] into [x <> a], [x <> b], ... *)
Ltac split_notin H :=
  repeat (apply not_elem_of_cons in H;
          let H1 := fresh "Hne" in destruct H as [H1 H]).

Create HintDb stmts.
#[global] Hint Unfold
  s_import_alt s_import_data s_source s_brush s_points s_bars s_show_chart
  s_import_copy s_import_np s_import_matlib s_import_plt s_import_LogNorm
  s_num_series s_num_points s_SNR s_x s_Y s_num_signal s_phi s_Y_signal
  s_num_fine s_x_fine s_y_fine s_interp_row s_interp_loop s_y_fine_flatten
  s_x_fine_flatten s_fig_axes s_cmap s_set_bad s_histogram s_pcm s_colorbar
  s_set_title s_import_leafmap s_m s_url s_url2 s_split_map s_show_m : stmts.

Ltac solve_notin :=
  repeat (apply not_elem_of_cons; split; [first [congruence|discriminate]|]);
  apply not_elem_of_nil.

(** One statement ignores [x], the inequalities of [x] with the names
    the statement uses being among the hypotheses. *)
Ltac ignores_stmt :=
  autounfold with stmts;
  repeat first
    [ apply drawing_ignores
    | apply for_range_ignores; [congruence|cbv beta; not_read|]
    | apply assign_ignores; [solve_notin|cbv beta; not_read]
    | apply show_ignores; cbv beta; not_read ].

Ltac ignores_body :=
  apply exec_ignores;
  repeat (constructor; [ignores_stmt|]);
  constructor.

Section CellNames.

Context (w : world).

Lemma markdown_ignores x src : ignores x (run_cell (Markdown src)).
Proof. intros v k. reflexivity. Qed.

Lemma charts_ignores x :
  x ∉ ["alt"; "data"; "source"; "brush"; "points"; "bars"] ->
  ignores x (run_cell (cell_charts w)).
Proof. intros Hx. split_notin Hx. unfold run_cell, cell_charts, cell_body. ignores_body. Qed.

Lemma show_chart_ignores x :
  x ∉ ["points"; "bars"] -> ignores x (run_cell cell_show_chart).
Proof. intros Hx. split_notin Hx. unfold run_cell, cell_show_chart, cell_body. ignores_body. Qed.

Lemma imports_ignores x :
  x ∉ ["copy"; "np"; "numpy"; "plt"; "LogNorm"] -> ignores x (run_cell cell_imports).
Proof. intros Hx. split_notin Hx. unfold run_cell, cell_imports, cell_body. ignores_body. Qed.

Lemma data_ignores x :
  x ∉ ["np"; "num_series"; "num_points"; "SNR"; "x"; "Y"; "num_signal"; "phi";
       "num_fine"; "x_fine"; "y_fine"; "i"] ->
  ignores x (run_cell (cell_data w)).
Proof.
  intros Hx. split_notin Hx. unfold run_cell, cell_data, cell_body, data_body.
  ignores_body.
Qed.

Lemma hist_ignores x :
  x ∉ ["plt"; "copy"; "np"; "LogNorm"; "x_fine"; "y_fine"; "fig"; "axes"; "cmap";
       "h"; "xedges"; "yedges"; "pcm"] ->
  ignores x (run_cell cell_hist).
Proof.
  intros Hx. split_notin Hx. unfold run_cell, cell_hist, cell_body, hist_body.
  ignores_body.
Qed.

Lemma import_leafmap_ignores x :
  x ∉ ["leafmap"] -> ignores x (run_cell cell_import_leafmap).
Proof.
  intros Hx. split_notin Hx. unfold run_cell, cell_import_leafmap, cell_body. ignores_body.
Qed.

Lemma map_ignores x :
  x ∉ ["leafmap"; "m"; "url"; "url2"] -> ignores x (run_cell (cell_map w)).
Proof.
  intros Hx. split_notin Hx. unfold run_cell, cell_map, cell_body, map_body. ignores_body.
Qed.

Lemma empty_ignores x : ignores x (run_cell cell_empty).
Proof. intros v k. reflexivity. Qed.

(** Every cell ignores every name outside its list. *)
Lemma cells_ignore_other_names :
  Forall2 (fun c used => forall x, x ∉ used -> ignores x (run_cell c))
    (notebook w) names_used.
Proof.
  unfold notebook, names_used.
  repeat match goal with |- Forall2 _ _ _ => constructor end.
  - intros x _. apply markdown_ignores.
  - apply charts_ignores.
  - intros x _. apply markdown_ignores.
  - apply show_chart_ignores.
  - apply imports_ignores.
  - intros x _. apply markdown_ignores.
  - apply data_ignores.
  - intros x _. apply markdown_ignores.
  - apply hist_ignores.
  - apply import_leafmap_ignores.
  - apply map_ignores.
  - intros x _. apply empty_ignores.
Qed.

End CellNames.

Section Keeps.

Implicit Types (x y : string) (s : stmt) (k : kernel).

Lemma store_all_keeps x xs vs k : x ∉ xs -> ns (store_all xs vs k) !! x = ns k !! x.
Proof.
  revert vs k. induction xs as [|y xs IH]; intros vs k Hx; [reflexivity|].
  destruct vs as [|u vs]; [reflexivity|]. simpl.
  apply not_elem_of_cons in Hx. destruct Hx as [Hxy Hx].
  rewrite IH by exact Hx. rewrite ns_store. now rewrite lookup_insert_ne by congruence.
Qed.

Lemma assign_keeps x xs (e : kernel -> res (list value)) : x ∉ xs -> keeps x (assign xs e).
Proof.
  intros Hx k. unfold assign. destruct (e k) as [vs|err]; simpl; [|reflexivity].
  now apply store_all_keeps.
Qed.

Lemma drawing_keeps x s : keeps x s -> keeps x (drawing s).
Proof. intros Hs k. unfold drawing. specialize (Hs k). now destruct (s k). Qed.

Lemma show_keeps x (e : kernel -> res value) : keeps x (show e).
Proof. intros k. unfold show. now destruct (e k). Qed.

Lemma for_each_keeps x y s items : x <> y -> keeps x s -> keeps x (for_each y s items).
Proof.
  intros Hxy Hs. induction items as [|i rest IH]; intros k; [reflexivity|].
  simpl. specialize (Hs (store y (VInt i) k)).
  rewrite ns_store, lookup_insert_ne in Hs by congruence.
  destruct (s (store y (VInt i) k)) as [k'|err k']; simpl in *; [|exact Hs].
  now rewrite IH.
Qed.

Lemma for_range_keeps x y (n : kernel -> res Z) s :
  x <> y -> keeps x s -> keeps x (for_range y n s).
Proof.
  intros Hxy Hs k. unfold for_range. destruct (n k) as [m|err]; [|reflexivity].
  now apply for_each_keeps.
Qed.

Lemma exec_keeps x (body : list stmt) : Forall (keeps x) body -> keeps x (exec body).
Proof.
  induction 1 as [|s body Hs _ IH]; intros k; [reflexivity|].
  simpl. specialize (Hs k). destruct (s k) as [k'|err k']; simpl in *; [|exact Hs].
  now rewrite IH.
Qed.

End Keeps.

(** One statement keeps [x], the inequalities of [x] with the names the
    statement binds being among the hypotheses. *)
Ltac keeps_stmt :=
  autounfold with stmts;
  repeat first
    [ apply drawing_keeps
    | apply for_range_keeps; [congruence|]
    | apply assign_keeps; solve_notin
    | apply show_keeps ].

Ltac keeps_body :=
  apply exec_keeps;
  repeat (constructor; [keeps_stmt|]);
  constructor.

Section Claims_shapes.

Context (w : world).

(** The cells before the data cell and the cells after the histogram
    cell neither read nor bind the arrays of the simulation. *)
Lemma dataset_unused_elsewhere (x : string) :
  x ∈ ["Y"; "x_fine"; "y_fine"; "h"; "xedges"; "yedges"] ->
  Forall (fun c => ignores x (run_cell c)) (take 6 (notebook w) ++ drop 9 (notebook w)).
Proof.
  intros Hx.
  repeat (apply elem_of_cons in Hx; destruct Hx as [->|Hx]);
    [| | | | | |now apply elem_of_nil in Hx];
    (unfold notebook, take, drop, app;
     repeat constructor;
     first [ apply markdown_ignores | apply empty_ignores
           | apply charts_ignores; solve_notin
           | apply show_chart_ignores; solve_notin
           | apply imports_ignores; solve_notin
           | apply import_leafmap_ignores; solve_notin
           | apply map_ignores; solve_notin ]).
Qed.

(** The histogram cell reads the flattened arrays and binds neither;
    [Y] it does not use at all. *)
Lemma hist_keeps_dataset (x : string) :
  x ∈ ["Y"; "x_fine"; "y_fine"] -> keeps x (run_cell cell_hist).
Proof.
  intros Hx.
  repeat (apply elem_of_cons in Hx; destruct Hx as [->|Hx]);
    [| | |now apply elem_of_nil in Hx];
    (unfold run_cell, cell_hist, cell_body, hist_body; keeps_body).
Qed.

(** C2.  After line 116 [Y] holds 1000 series of 100 samples; after the
    loop of lines 125-126, [y_fine] holds 1000 series of 800 points and [Y]
    is as before.  The arrays are made in this one cell: no cell before
    it and no cell after the histogram cell reads or binds [Y], [x_fine] or
    [y_fine], and the histogram cell leaves them as they are. *)
Theorem dataset_shapes (k : kernel) :
  numpy_in k ->
  exists k8 k12 Y y_fine,
    exec (take 8 (data_body w)) k = Done k8 /\
    ns k8 !! "Y" = Some (VArr2 Y) /\
    shaped 1000 100 Y /\
    exec (take 12 (data_body w)) k = Done k12 /\
    ns k12 !! "Y" = Some (VArr2 Y) /\
    ns k12 !! "y_fine" = Some (VArr2 y_fine) /\
    shaped 1000 800 y_fine /\
    (forall x, x ∈ ["Y"; "x_fine"; "y_fine"] ->
       Forall (fun c => ignores x (run_cell c))
         (take 6 (notebook w) ++ drop 9 (notebook w)) /\
       keeps x (run_cell cell_hist)).
Proof.
  intros Hnp.
  exists (after_signal w k), (after_loop w k), (series w (rng_calls k)),
    (fine_series w (rng_calls k)).
  split_and!.
  - now apply run_signal.
  - lookup_ns.
  - apply series_shaped.
  - now apply run_loop.
  - lookup_ns.
  - lookup_ns.
  - apply fine_series_shaped.
  - intros x Hx. split; [|now apply hist_keeps_dataset].
    apply dataset_unused_elsewhere.
    apply list_elem_of_In. apply list_elem_of_In in Hx. simpl in *. tauto.
Qed.

End Claims_shapes.

Lemma dataset_shapes_witness :
  exists k8 k12 Y y_fine,
    exec (take 8 (data_body sample_world)) kernel_after_imports = Done k8 /\
    ns k8 !! "Y" = Some (VArr2 Y) /\
    shaped 1000 100 Y /\
    exec (take 12 (data_body sample_world)) kernel_after_imports = Done k12 /\
    ns k12 !! "Y" = Some (VArr2 Y) /\
    ns k12 !! "y_fine" = Some (VArr2 y_fine) /\
    shaped 1000 800 y_fine /\
    (forall x, x ∈ ["Y"; "x_fine"; "y_fine"] ->
       Forall (fun c => ignores x (run_cell c))
         (take 6 (notebook sample_world) ++ drop 9 (notebook sample_world)) /\
       keeps x (run_cell cell_hist)).
Proof.
  apply (dataset_shapes sample_world kernel_after_imports).
  vm_compute. reflexivity.
Defined.

(** ** C10: the interpolation stays inside the sampled domain *)

Lemma forallb_Forall {A : Type} (p : A -> bool) (l : list A) :
  forallb p l = true -> Forall (fun a => p a = true) l.
Proof.
  induction l as [|a l IH]; simpl; intros H; constructor.
  - now apply andb_true_iff in H.
  - apply IH. now apply andb_true_iff in H.
Qed.

Lemma x_fine_grid_inside :
  forallb (fun q => (0 <=? q)%float && (q <=? 4 * np.pi)%float && inside x_grid q)
    x_fine_grid = true.
Proof. vm_compute. reflexivity. Qed.

(** C10.  When line 123 has run, [x] is [linspace(0, 4*pi, 100)], its
    minimum is 0 and its maximum [4*pi], and [x_fine] is
    [linspace(0, 4*pi, 800)]; every entry of [x_fine] lies in [[0, 4*pi]],
    and [np.interp] places it within the sample points, neither left of
    the first nor right of the last, so that its value is the one of the
    interpolant on an interval, whatever the samples are.  The loop
    interpolates with these two arrays. *)
Theorem interpolation_inside_samples (w : world) (k : kernel) :
  numpy_in k ->
  exists k10 k12,
    exec (take 10 (data_body w)) k = Done k10 /\
    ns k10 !! "x" = Some (VArr1 (np.linspace_nat 0 (4 * np.pi) 100)) /\
    np.min (np.linspace_nat 0 (4 * np.pi) 100) = Ok 0%float /\
    np.max (np.linspace_nat 0 (4 * np.pi) 100) = Ok (4 * np.pi)%float /\
    ns k10 !! "x_fine" = Some (VArr1 (np.linspace_nat 0 (4 * np.pi) 800)) /\
    Forall (fun q => (0 <=? q)%float = true /\ (q <=? 4 * np.pi)%float = true /\
                     exists j,
                       np.locate q (np.linspace_nat 0 (4 * np.pi) 100) = np.Within j /\
                       forall fp,
                         np.interp_at (np.linspace_nat 0 (4 * np.pi) 100) fp q
                         = np.interp_segment (np.linspace_nat 0 (4 * np.pi) 100) fp q j)
      (np.linspace_nat 0 (4 * np.pi) 800) /\
    exec (take 12 (data_body w)) k = Done k12 /\
    ns k12 !! "y_fine" =
      Some (VArr2 (interp_rows (np.linspace_nat 0 (4 * np.pi) 800)
                     (np.linspace_nat 0 (4 * np.pi) 100) (series w (rng_calls k)))).
Proof.
  intros Hnp.
  exists (store "x_fine" (VArr1 x_fine_grid) (store "num_fine" (VInt 800) (after_signal w k))),
    (after_loop w k).
  split_and!.
  - change (take 10 (data_body w)) with (take 8 (data_body w) ++ [s_num_fine; s_x_fine]).
    rewrite (exec_app _ _ _ _ (run_signal w k Hnp)).
    rewrite (exec_cons _ _ _ _ (s_num_fine_spec _)).
    erewrite exec_cons
      by (apply (s_x_fine_spec _ x_grid 0 (4 * np.pi) 800);
          [lookup_ns|lookup_ns|lookup_ns|apply x_grid_min|apply x_grid_max]).
    reflexivity.
  - lookup_ns.
  - apply x_grid_min.
  - apply x_grid_max.
  - lookup_ns.
  - pose proof (forallb_Forall _ _ x_fine_grid_inside) as H.
    eapply Forall_impl; [exact H|]. intros q Hq. simpl in Hq.
    apply andb_true_iff in Hq. destruct Hq as [Hq Hin].
    apply andb_true_iff in Hq. destruct Hq as [Hlo Hhi].
    split_and!; [exact Hlo|exact Hhi|].
    unfold inside in Hin. fold x_grid.
    destruct (np.locate q x_grid) as [| | |j] eqn:Hloc; try discriminate.
    exists j. split; [reflexivity|]. intros fp.
    unfold np.interp_at. rewrite length_x_grid, Hloc. reflexivity.
  - now apply run_loop.
  - lookup_ns.
Qed.

Lemma interpolation_inside_samples_witness :
  exists k10 k12,
    exec (take 10 (data_body sample_world)) kernel_after_imports = Done k10 /\
    ns k10 !! "x" = Some (VArr1 (np.linspace_nat 0 (4 * np.pi) 100)) /\
    np.min (np.linspace_nat 0 (4 * np.pi) 100) = Ok 0%float /\
    np.max (np.linspace_nat 0 (4 * np.pi) 100) = Ok (4 * np.pi)%float /\
    ns k10 !! "x_fine" = Some (VArr1 (np.linspace_nat 0 (4 * np.pi) 800)) /\
    Forall (fun q => (0 <=? q)%float = true /\ (q <=? 4 * np.pi)%float = true /\
                     exists j,
                       np.locate q (np.linspace_nat 0 (4 * np.pi) 100) = np.Within j /\
                       forall fp,
                         np.interp_at (np.linspace_nat 0 (4 * np.pi) 100) fp q
                         = np.interp_segment (np.linspace_nat 0 (4 * np.pi) 100) fp q j)
      (np.linspace_nat 0 (4 * np.pi) 800) /\
    exec (take 12 (data_body sample_world)) kernel_after_imports = Done k12 /\
    ns k12 !! "y_fine" =
      Some (VArr2 (interp_rows (np.linspace_nat 0 (4 * np.pi) 800)
                     (np.linspace_nat 0 (4 * np.pi) 100)
                     (series sample_world (rng_calls kernel_after_imports)))).
Proof.
  apply (interpolation_inside_samples sample_world kernel_after_imports).
  vm_compute. reflexivity.
Defined.

(** ** The histogram cell, statement by statement *)

#[global] Hint Unfold after_hist : kernels.

Section HistSteps.

Implicit Types (k : kernel).

Lemma assign_done_eq xs e k vs k' :
  e k = Ok vs -> k' = store_all xs vs k -> assign xs e k = Done k'.
Proof. intros He ->. now apply assign_done. Qed.

Lemma histogram2d_paired (x y : arr1) (nx ny : Z) :
  length x = length y ->
  np.histogram2d x y nx ny =
    (xe ← np.bin_edges x nx; ye ← np.bin_edges y ny;
     Ok (np.tabulate (np.count_in (zip (map (np.bin_of xe) x) (map (np.bin_of ye) y)))
           (Z.to_nat nx) (Z.to_nat ny), xe, ye)).
Proof. intros H. unfold np.histogram2d. now rewrite H, Nat.eqb_refl. Qed.

Lemma bin_edges_length (a edges : arr1) (bins : Z) :
  np.bin_edges a bins = Ok edges -> length edges = S (Z.to_nat bins).
Proof.
  unfold np.bin_edges. destruct (bins <? 1)%Z eqn:E; [discriminate|].
  apply Z.ltb_ge in E.
  destruct (np.outer_edges a) as [[lo hi]|err]; simpl; [|discriminate].
  unfold np.linspace. destruct (bins + 1 <? 0)%Z; [discriminate|].
  intros [= <-]. rewrite length_linspace_nat. lia.
Qed.

Lemma histogram2d_shapes (x y : arr1) (nx ny : Z) (h : arr2) (xe ye : arr1) :
  np.histogram2d x y nx ny = Ok (h, xe, ye) ->
  shaped (Z.to_nat nx) (Z.to_nat ny) h /\
  length xe = S (Z.to_nat nx) /\ length ye = S (Z.to_nat ny).
Proof.
  unfold np.histogram2d. destruct (negb (length x =? length y)%nat); [discriminate|].
  destruct (np.bin_edges x nx) as [xe'|err] eqn:Ex; simpl; [|discriminate].
  destruct (np.bin_edges y ny) as [ye'|err] eqn:Ey; simpl; [|discriminate].
  intros [= <- <- <-]. split_and!.
  - apply tabulate_shaped.
  - now apply (bin_edges_length x).
  - now apply (bin_edges_length y).
Qed.

Lemma transpose_shaped r c (a : arr2) :
  shaped r c a -> 0 < r -> shaped c r (np.transpose a).
Proof.
  intros Ha Hr. unfold np.transpose.
  rewrite (shaped_ncols r c a Ha Hr). destruct Ha as [-> _]. apply tabulate_shaped.
Qed.

Lemma run_hist k (x_fine y_fine : arr1) (h : arr2) (xedges yedges : arr1) :
  imports_in k ->
  ns k !! "x_fine" = Some (VArr1 x_fine) ->
  ns k !! "y_fine" = Some (VArr1 y_fine) ->
  np.histogram2d x_fine y_fine 400 100 = Ok (h, xedges, yedges) ->
  run_cell cell_hist k = Done (after_hist h xedges yedges k).
Proof.
  intros (Hcopy & Hnp & Hplt & Hnorm) Hx Hy Hh.
  destruct (histogram2d_shapes _ _ _ _ _ _ _ Hh) as (Hsh & Hlx & Hly).
  unfold run_cell, cell_hist, cell_body, hist_body.
  erewrite exec_cons.
  2:{ unfold s_fig_axes. eapply assign_done_eq; [|reflexivity].
      rewrite (use_bound _ _ _ Hplt). reflexivity. }
  erewrite exec_cons.
  2:{ unfold s_cmap. eapply assign_done_eq; [|reflexivity].
      erewrite !use_bound by lookup_ns. reflexivity. }
  erewrite exec_cons.
  2:{ unfold s_set_bad. eapply assign_done_eq; [|reflexivity].
      erewrite !load_bound by lookup_ns. reflexivity. }
  erewrite exec_cons.
  2:{ unfold s_histogram. eapply assign_done_eq; [|reflexivity].
      erewrite !use_bound by lookup_ns. simpl.
      erewrite (load_bound "x_fine") by lookup_ns. simpl.
      erewrite (load_bound "y_fine") by lookup_ns. simpl.
      rewrite Hh. reflexivity. }
  erewrite exec_cons.
  2:{ unfold s_pcm. eapply assign_done_eq; [|reflexivity].
      erewrite (load_bound "axes") by lookup_ns. simpl.
      erewrite (load_bound "xedges") by lookup_ns. simpl.
      erewrite (load_bound "yedges") by lookup_ns. simpl.
      erewrite (load_bound "h") by lookup_ns. simpl.
      erewrite (load_bound "cmap") by lookup_ns. simpl.
      erewrite !use_bound by lookup_ns. simpl.
      unfold plt.pcolormesh.
      destruct (transpose_shaped _ _ _ Hsh ltac:(simpl; lia)) as [Hlt Hrt].
      rewrite Hlt, Hly, Hlx.
      rewrite (shaped_ncols _ _ _ (conj Hlt Hrt)) by (simpl; lia).
      rewrite !Nat.eqb_refl. simpl. reflexivity. }
  erewrite exec_cons.
  2:{ unfold s_colorbar. eapply assign_done_eq; [|reflexivity].
      erewrite (load_bound "fig") by lookup_ns. simpl.
      erewrite (load_bound "pcm") by lookup_ns. simpl.
      erewrite (load_bound "axes") by lookup_ns. simpl.
      reflexivity. }
  erewrite exec_cons.
  2:{ unfold s_set_title. eapply assign_done_eq; [|reflexivity].
      erewrite (load_bound "axes") by lookup_ns. simpl.
      reflexivity. }
  reflexivity.
Qed.

End HistSteps.

(** ** C9: the flattened arrays pair up *)

#[global] Hint Unfold at_histogram_call : kernels.

Section Claims_lengths.

Context (w : world).
Implicit Types (k : kernel).

Lemma run_hist_prefix k :
  imports_in k -> exec (take 3 hist_body) k = Done (at_histogram_call k).
Proof.
  intros (Hcopy & Hnp & Hplt & Hnorm). unfold hist_body, take.
  erewrite exec_cons.
  2:{ unfold s_fig_axes. eapply assign_done_eq; [|reflexivity].
      rewrite (use_bound _ _ _ Hplt). reflexivity. }
  erewrite exec_cons.
  2:{ unfold s_cmap. eapply assign_done_eq; [|reflexivity].
      erewrite !use_bound by lookup_ns. reflexivity. }
  erewrite exec_cons.
  2:{ unfold s_set_bad. eapply assign_done_eq; [|reflexivity].
      erewrite !load_bound by lookup_ns. reflexivity. }
  reflexivity.
Qed.

Lemma s_histogram_spec k (x_fine y_fine : arr1) :
  numpy_in k ->
  ns k !! "x_fine" = Some (VArr1 x_fine) ->
  ns k !! "y_fine" = Some (VArr1 y_fine) ->
  s_histogram k =
    match np.histogram2d x_fine y_fine 400 100 with
    | Ok (h, xedges, yedges) =>
        Done (store "yedges" (VArr1 yedges)
                (store "xedges" (VArr1 xedges) (store "h" (VArr2 h) k)))
    | Raise err => Raised err k
    end.
Proof.
  intros Hnp Hx Hy. unfold s_histogram, assign.
  rewrite (use_bound _ _ _ Hnp), (load_bound _ _ _ Hx). simpl.
  rewrite (load_bound _ _ _ Hy). simpl.
  destruct (np.histogram2d x_fine y_fine 400 100) as [[[h xe] ye]|err]; reflexivity.
Qed.

Lemma np_min_ok (x : arr1) : 0 < length x -> exists lo, np.min x = Ok lo.
Proof. destruct x as [|a t]; simpl; [lia|]. intros _. eexists. reflexivity. Qed.

Lemma np_max_ok (x : arr1) : 0 < length x -> exists hi, np.max x = Ok hi.
Proof. destruct x as [|a t]; simpl; [lia|]. intros _. eexists. reflexivity. Qed.

Lemma interp_rows_shaped (x_fine x : arr1) (Y : arr2) :
  shaped (length Y) (length x_fine) (interp_rows x_fine x Y).
Proof.
  unfold interp_rows. split; [apply length_map|].
  apply Forall_forall. intros row Hin.
  apply list_elem_of_In, in_map_iff in Hin. destruct Hin as (r & <- & _).
  apply length_map.
Qed.

(** Lines 123-128 for any number of series and of grid points. *)
Lemma grid_lengths k (n m : nat) (x : arr1) (Y : arr2) :
  numpy_in k ->
  ns k !! "num_series" = Some (VInt (Z.of_nat n)) ->
  ns k !! "num_fine" = Some (VInt (Z.of_nat m)) ->
  ns k !! "x" = Some (VArr1 x) ->
  ns k !! "Y" = Some (VArr2 Y) ->
  0 < length x -> shaped n (length x) Y ->
  exists k' x_fine y_fine,
    exec (drop 9 (data_body w)) k = Done k' /\
    ns k' !! "x_fine" = Some (VArr1 x_fine) /\
    ns k' !! "y_fine" = Some (VArr1 y_fine) /\
    length x_fine = (n * m)%nat /\
    length y_fine = (n * m)%nat.
Proof.
  intros Hnp Hn Hm Hx HY Hx0 [HlY HrY].
  destruct (np_min_ok x Hx0) as [lo Hlo]. destruct (np_max_ok x Hx0) as [hi Hhi].
  set (xf := np.linspace_nat lo hi m).
  assert (Hlxf : length xf = m) by apply length_linspace_nat.
  unfold data_body, drop.
  erewrite exec_cons by (apply (s_x_fine_spec _ x lo hi m); eauto).
  erewrite exec_cons by (apply (s_y_fine_spec w _ n m); lookup_ns).
  erewrite exec_cons.
  2:{ apply (s_interp_loop_spec _ xf x Y (np.tabulate (w_empty w) n m) n);
        [lookup_ns|lookup_ns|lookup_ns|lookup_ns|lookup_ns|lookup_ns| | | |].
      - fold xf. rewrite Hlxf. apply tabulate_shaped.
      - lia.
      - exact HrY.
      - exact Hx0. }
  rewrite take_ge by lia.
  erewrite exec_cons.
  2:{ apply (s_y_fine_flatten_spec _ (interp_rows xf x Y)).
      apply lookup_after_iters_y. intros ->.
      destruct Y; [lookup_ns|discriminate]. }
  erewrite exec_cons.
  2:{ apply (s_x_fine_flatten_spec _ xf n).
      - unfold numpy_in. rewrite ns_store, lookup_insert_ne by discriminate.
        rewrite lookup_after_iters by discriminate. lookup_ns.
      - rewrite ns_store, lookup_insert_ne by discriminate.
        rewrite lookup_after_iters by discriminate. lookup_ns.
      - rewrite ns_store, lookup_insert_ne by discriminate.
        rewrite lookup_after_iters by discriminate. lookup_ns. }
  eexists _, _, _. split_and!.
  - reflexivity.
  - lookup_ns.
  - rewrite ns_store, lookup_insert_ne by discriminate. lookup_ns.
  - rewrite (length_flatten n (length xf)) by apply replicate_shaped. now rewrite Hlxf.
  - rewrite (length_flatten (length Y) (length xf)) by apply interp_rows_shaped.
    now rewrite HlY, Hlxf.
Qed.

(** C9.  When the data cell has run, [x_fine] and [y_fine] are flat
    arrays of [1000 * 800] entries each; they are what [np.histogram2d]
    is called with, its check of equal lengths passes and it bins
    [1000 * 800] pairs.  The lengths agree by construction: lines 123-128
    leave [num_series * num_fine] entries in both arrays, whatever the
    two numbers are. *)
Theorem flattened_arrays_pair_up (k : kernel) :
  imports_in k ->
  (exists k' x_fine y_fine,
      run_cell (cell_data w) k = Done k' /\
      ns k' !! "x_fine" = Some (VArr1 x_fine) /\
      ns k' !! "y_fine" = Some (VArr1 y_fine) /\
      length x_fine = (1000 * 800)%nat /\
      length y_fine = (1000 * 800)%nat /\
      exec (take 3 hist_body) k' = Done (at_histogram_call k') /\
      s_histogram (at_histogram_call k') =
        match np.histogram2d x_fine y_fine 400 100 with
        | Ok (h, xedges, yedges) =>
            Done (store "yedges" (VArr1 yedges)
                    (store "xedges" (VArr1 xedges)
                       (store "h" (VArr2 h) (at_histogram_call k'))))
        | Raise err => Raised err (at_histogram_call k')
        end /\
      np.histogram2d x_fine y_fine 400 100 =
        (xe ← np.bin_edges x_fine 400; ye ← np.bin_edges y_fine 100;
         Ok (np.tabulate
               (np.count_in (zip (map (np.bin_of xe) x_fine) (map (np.bin_of ye) y_fine)))
               400 100, xe, ye)) /\
      forall xe ye,
        length (zip (map (np.bin_of xe) x_fine) (map (np.bin_of ye) y_fine))
        = (1000 * 800)%nat) /\
  (forall (k0 : kernel) (n m : nat) (x : arr1) (Y : arr2),
      numpy_in k0 ->
      ns k0 !! "num_series" = Some (VInt (Z.of_nat n)) ->
      ns k0 !! "num_fine" = Some (VInt (Z.of_nat m)) ->
      ns k0 !! "x" = Some (VArr1 x) ->
      ns k0 !! "Y" = Some (VArr2 Y) ->
      0 < length x -> shaped n (length x) Y ->
      0 < n -> 0 < m ->
      exists k' x_fine y_fine,
        exec (drop 9 (data_body w)) k0 = Done k' /\
        ns k' !! "x_fine" = Some (VArr1 x_fine) /\
        ns k' !! "y_fine" = Some (VArr1 y_fine) /\
        length x_fine = (n * m)%nat /\
        length y_fine = (n * m)%nat).
Proof.
  intros Himp. pose proof Himp as (Hcopy & Hnp & Hplt & Hnorm). split.
  - set (xs := np.flatten (replicate 1000 x_fine_grid)).
    set (ys := np.flatten (fine_series w (rng_calls k))).
    assert (Hxs : length xs = (1000 * 800)%nat).
    { unfold xs. etransitivity; [apply length_flatten, replicate_shaped|].
      now rewrite length_x_fine_grid. }
    assert (Hys : length ys = (1000 * 800)%nat)
      by (unfold ys; apply length_flatten, fine_series_shaped).
    assert (Hafter : imports_in (after_data w k)).
    { unfold imports_in. split_and!; lookup_ns. }
    exists (after_data w k), xs, ys. split_and!.
    + now apply run_data.
    + lookup_ns.
    + lookup_ns.
    + exact Hxs.
    + exact Hys.
    + now apply run_hist_prefix.
    + apply s_histogram_spec; lookup_ns.
    + apply histogram2d_paired. etransitivity; [exact Hxs|symmetry; exact Hys].
    + intros xe ye. rewrite length_zip, !length_map.
      etransitivity; [|exact Hxs]. rewrite Hys, <- Hxs. apply Nat.min_id.
  - intros k0 n m x Y H1 H2 H3 H4 H5 H6 H7 _ _. now apply (grid_lengths k0 n m x Y).
Qed.

End Claims_lengths.

Lemma flattened_arrays_pair_up_witness :
  (exists k' x_fine y_fine,
      run_cell (cell_data sample_world) kernel_after_imports = Done k' /\
      ns k' !! "x_fine" = Some (VArr1 x_fine) /\
      ns k' !! "y_fine" = Some (VArr1 y_fine) /\
      length x_fine = (1000 * 800)%nat /\
      length y_fine = (1000 * 800)%nat /\
      exec (take 3 hist_body) k' = Done (at_histogram_call k') /\
      s_histogram (at_histogram_call k') =
        match np.histogram2d x_fine y_fine 400 100 with
        | Ok (h, xedges, yedges) =>
            Done (store "yedges" (VArr1 yedges)
                    (store "xedges" (VArr1 xedges)
                       (store "h" (VArr2 h) (at_histogram_call k'))))
        | Raise err => Raised err (at_histogram_call k')
        end /\
      np.histogram2d x_fine y_fine 400 100 =
        (xe ← np.bin_edges x_fine 400; ye ← np.bin_edges y_fine 100;
         Ok (np.tabulate
               (np.count_in (zip (map (np.bin_of xe) x_fine) (map (np.bin_of ye) y_fine)))
               400 100, xe, ye)) /\
      forall xe ye,
        length (zip (map (np.bin_of xe) x_fine) (map (np.bin_of ye) y_fine))
        = (1000 * 800)%nat) /\
  (exists k' x_fine y_fine,
      exec (drop 9 (data_body sample_world)) small_kernel = Done k' /\
      ns k' !! "x_fine" = Some (VArr1 x_fine) /\
      ns k' !! "y_fine" = Some (VArr1 y_fine) /\
      length x_fine = (2 * 3)%nat /\
      length y_fine = (2 * 3)%nat).
Proof.
  assert (Himp : imports_in kernel_after_imports) by (vm_compute; repeat split).
  destruct (flattened_arrays_pair_up sample_world kernel_after_imports Himp) as [Hc Hg].
  split; [exact Hc|].
  apply (Hg small_kernel 2%nat 3%nat [0; 1]%float [[1; 2]; [3; 5]]%float).
  - vm_compute. reflexivity.
  - vm_compute. reflexivity.
  - vm_compute. reflexivity.
  - vm_compute. reflexivity.
  - vm_compute. reflexivity.
  - simpl. lia.
  - split; [reflexivity|]. repeat constructor.
  - lia.
  - lia.
Defined.

(** ** The signals, entry by entry *)

Section SignalEntries.

Context (w : world).

Lemma map_map_tabulate (g : float -> float) f r c :
  map (map g) (np.tabulate f r c) = np.tabulate (fun i j => g (f i j)) r c.
Proof.
  unfold np.tabulate. rewrite map_map. apply map_ext. intros i. now rewrite map_map.
Qed.

Lemma pick_nth {A : Type} (l : list A) (i : nat) (d : A) :
  i < length l -> np.pick l i d = nth i l d.
Proof.
  intros Hi. unfold np.pick. destruct (length l =? 1)%nat eqn:E; [|reflexivity].
  apply Nat.eqb_eq in E. replace i with 0%nat by lia. reflexivity.
Qed.

Lemma pick_single {A : Type} (a : A) (i : nat) (d : A) : np.pick [a] i d = a.
Proof. reflexivity. Qed.

Lemma entry_tabulate f r c i j :
  i < r -> j < c -> np.entry (np.tabulate f r c) i j = f i j.
Proof.
  intros Hi Hj. unfold np.entry.
  rewrite (pick_nth (np.tabulate f r c)) by now rewrite length_tabulate.
  rewrite nth_tabulate by exact Hi.
  rewrite pick_nth by now rewrite length_map, length_seq.
  now apply nth_map_seq.
Qed.

(** A column is stretched along the rows: entry [(i, j)] of an array
    of one column is its entry [(i, 0)]. *)
Lemma entry_tabulate_column f r i j :
  i < r -> np.entry (np.tabulate f r 1) i j = f i 0%nat.
Proof.
  intros Hi. unfold np.entry.
  rewrite (pick_nth (np.tabulate f r 1)) by now rewrite length_tabulate.
  rewrite nth_tabulate by exact Hi. reflexivity.
Qed.

(** A row is stretched along the columns. *)
Lemma entry_row (a : arr1) i j :
  j < length a -> np.entry (np.as_row a) i j = nth j a 0%float.
Proof. intros Hj. unfold np.entry, np.as_row. rewrite pick_single. now apply pick_nth. Qed.

(** Entry [(i, j)] of the signals: the sine of the sample point [x[j]]
    shifted by the phase of signal [i], plus noise, scaled by the square
    root of [j]. *)
Lemma signal_of_entry c (x : arr1) (draws : nat -> nat -> float) S P i j :
  i < S -> j < P -> length x = P ->
  nth j (nth i (signal_of w c x (np.scale (np.pi / 8) (np.tabulate draws S 1)) S P) []) 0%float
  = (PrimFloat.sqrt (py.float_of_nat j) *
       (w_sin w (nth j x 0 - np.pi / 8 * draws i 0%nat) + 0.05 * w_randn w c i j))%float.
Proof.
  intros Hi Hj Hx. unfold signal_of.
  rewrite nth_tabulate by exact Hi. rewrite nth_map_seq by exact Hj.
  rewrite entry_row by now rewrite length_arange.
  rewrite entry_tabulate by assumption.
  unfold np.sin, np.scale. rewrite !map_map_tabulate.
  rewrite entry_tabulate by assumption.
  rewrite entry_tabulate_column by exact Hi.
  rewrite entry_tabulate by assumption.
  rewrite entry_row by lia.
  unfold np.sqrt, np.arange. rewrite Nat2Z.id, map_map.
  now rewrite (nth_map_seq (fun n => PrimFloat.sqrt (py.float_of_nat n))) by exact Hj.
Qed.

Lemma signals_entry c i j :
  i < 100 -> j < 100 ->
  nth j (nth i (signals w c) []) 0%float
  = (PrimFloat.sqrt (py.float_of_nat j) *
       (w_sin w (nth j x_grid 0 - np.pi / 8 * w_randn w (c + 1) i 0%nat)
        + 0.05 * w_randn w (c + 2) i j))%float.
Proof.
  intros Hi Hj. unfold signals, phases.
  now rewrite (signal_of_entry (c + 2) x_grid (w_randn w (c + 1)) 100 100 i j)
    by (try apply length_x_grid; assumption).
Qed.

End SignalEntries.

(** ** C1: the pipeline of the histogram example *)

Lemma nth_cumsum (a : arr2) (i : nat) :
  nth i (np.cumsum a) [] = np.cumsum_row (nth i a []).
Proof. unfold np.cumsum. now rewrite <- (map_nth np.cumsum_row). Qed.

(** In the sample world the last series starts at 0, the square root of
    its index times the signal, where the walk of the same draws starts
    at 3. *)
Lemma last_series_is_a_signal :
  ~ every_series_is_a_walk sample_world kernel_after_imports.
Proof.
  intros H.
  assert (Hnp : numpy_in kernel_after_imports) by (vm_compute; reflexivity).
  specialize (H (after_loop sample_world kernel_after_imports)
                (series sample_world (rng_calls kernel_after_imports))
                (run_loop sample_world _ Hnp)).
  assert (HY : ns (after_loop sample_world kernel_after_imports) !! "Y"
               = Some (VArr2 (series sample_world (rng_calls kernel_after_imports))))
    by lookup_ns.
  specialize (H HY).
  apply (f_equal (fun Y => PrimFloat.eqb (nth 0 (nth 999 Y []) 0%float) 0%float)) in H.
  revert H. unfold series.
  rewrite app_nth2
    by (rewrite length_take, (proj1 (walks_shaped _ _)); vm_compute; lia).
  rewrite length_take, (proj1 (walks_shaped _ _)).
  change (999 - 900 `min` 1000)%nat with 99%nat.
  rewrite signals_entry by lia.
  rewrite nth_cumsum, nth_tabulate by lia.
  vm_compute. discriminate.
Qed.

Section Claims_pipeline.

Context (w : world).
Implicit Types (k : kernel).

Lemma run_hist_raises k (x_fine y_fine : arr1) (err : exn) :
  imports_in k ->
  ns k !! "x_fine" = Some (VArr1 x_fine) ->
  ns k !! "y_fine" = Some (VArr1 y_fine) ->
  np.histogram2d x_fine y_fine 400 100 = Raise err ->
  run_cell cell_hist k = Raised err (at_histogram_call k).
Proof.
  intros Himp Hx Hy Hh. pose proof Himp as (Hcopy & Hnp & Hplt & Hnorm).
  unfold run_cell, cell_hist, cell_body.
  change hist_body with (take 3 hist_body ++ drop 3 hist_body).
  rewrite (exec_app _ _ _ _ (run_hist_prefix k Himp)).
  unfold hist_body, drop. simpl exec.
  rewrite (s_histogram_spec _ x_fine y_fine) by lookup_ns.
  now rewrite Hh.
Qed.

Lemma rng_after_data k : rng_calls (after_data w k) = (rng_calls k + 3)%nat.
Proof.
  unfold after_data, after_loop, after_iters, after_grid, after_signal, after_walks.
  repeat first [ rewrite rng_store | rewrite rng_tick ]. lia.
Qed.

(** C1, amended.  The data cell makes 1000 series of 100 samples: the
    first 900 are cumulative sums of Gaussian draws, the last 100 are
    sinusoids of random phase with noise, scaled by the square root of the
    sample index.  Each series is interpolated from the 100 sample points
    onto the common grid of 800 points, and the histogram cell bins the
    flattened points with [np.histogram2d].  The generator is called
    three times; the histogram cell ends normally unless the binning
    raises; the cells before the data cell and after the histogram cell
    neither read nor bind the arrays. *)
Theorem histogram_pipeline (k : kernel) :
  imports_in k ->
  exists k' Y,
    run_cell (cell_data w) k = Done k' /\
    rng_calls k' = (rng_calls k + 3)%nat /\
    ns k' !! "Y" = Some (VArr2 Y) /\
    take 900 Y = take 900 (np.cumsum (np.tabulate (w_randn w (rng_calls k)) 1000 100)) /\
    (forall i j, i < 100 -> j < 100 ->
       nth j (nth (900 + i) Y []) 0%float
       = (PrimFloat.sqrt (py.float_of_nat j) *
            (w_sin w (nth j (np.linspace_nat 0 (4 * np.pi) 100) 0
                      - np.pi / 8 * w_randn w (rng_calls k + 1) i 0%nat)
             + 0.05 * w_randn w (rng_calls k + 2) i j))%float) /\
    ns k' !! "y_fine" =
      Some (VArr1 (np.flatten
                     (map (fun row =>
                             map (np.interp_at (np.linspace_nat 0 (4 * np.pi) 100) row)
                               (np.linspace_nat 0 (4 * np.pi) 800)) Y))) /\
    ns k' !! "x_fine" =
      Some (VArr1 (np.flatten (replicate 1000 (np.linspace_nat 0 (4 * np.pi) 800)))) /\
    (forall x_fine y_fine,
       ns k' !! "x_fine" = Some (VArr1 x_fine) ->
       ns k' !! "y_fine" = Some (VArr1 y_fine) ->
       match np.histogram2d x_fine y_fine 400 100 with
       | Ok (h, xedges, yedges) =>
           run_cell cell_hist k' = Done (after_hist h xedges yedges k') /\
           ns (after_hist h xedges yedges k') !! "h" = Some (VArr2 h)
       | Raise err => run_cell cell_hist k' = Raised err (at_histogram_call k')
       end) /\
    (forall x, x ∈ ["Y"; "x_fine"; "y_fine"; "h"; "xedges"; "yedges"] ->
       Forall (fun c => ignores x (run_cell c))
         (take 6 (notebook w) ++ drop 9 (notebook w))).
Proof.
  intros Himp. pose proof Himp as (Hcopy & Hnp & Hplt & Hnorm).
  assert (Hafter : imports_in (after_data w k))
    by (unfold imports_in; split_and!; lookup_ns).
  destruct (walks_shaped w (rng_calls k)) as [Hl _].
  assert (Ht : length (take 900 (walks w (rng_calls k))) = 900%nat)
    by (rewrite length_take, Hl; reflexivity).
  exists (after_data w k), (series w (rng_calls k)). split_and!.
  - now apply run_data.
  - apply rng_after_data.
  - lookup_ns.
  - unfold series. rewrite take_app_length'; [reflexivity|exact Ht].
  - intros i j Hi Hj. unfold series.
    rewrite app_nth2 by lia. rewrite Ht.
    replace (900 + i - 900)%nat with i by lia.
    now apply signals_entry.
  - lookup_ns.
  - lookup_ns.
  - intros xf yf Hxf Hyf.
    destruct (np.histogram2d xf yf 400 100) as [[[h xe] ye]|err] eqn:Hh.
    + split; [now apply (run_hist _ xf yf)|lookup_ns].
    + now apply (run_hist_raises _ xf yf).
  - intros x Hx. now apply dataset_unused_elsewhere.
Qed.

End Claims_pipeline.

Lemma histogram_pipeline_witness :
  exists k' Y,
    run_cell (cell_data sample_world) kernel_after_imports = Done k' /\
    rng_calls k' = (rng_calls kernel_after_imports + 3)%nat /\
    ns k' !! "Y" = Some (VArr2 Y) /\
    take 900 Y
    = take 900 (np.cumsum (np.tabulate
                             (w_randn sample_world (rng_calls kernel_after_imports))
                             1000 100)) /\
    (forall i j, i < 100 -> j < 100 ->
       nth j (nth (900 + i) Y []) 0%float
       = (PrimFloat.sqrt (py.float_of_nat j) *
            (w_sin sample_world
               (nth j (np.linspace_nat 0 (4 * np.pi) 100) 0
                - np.pi / 8
                  * w_randn sample_world (rng_calls kernel_after_imports + 1) i 0%nat)
             + 0.05 * w_randn sample_world (rng_calls kernel_after_imports + 2) i j))%float) /\
    ns k' !! "y_fine" =
      Some (VArr1 (np.flatten
                     (map (fun row =>
                             map (np.interp_at (np.linspace_nat 0 (4 * np.pi) 100) row)
                               (np.linspace_nat 0 (4 * np.pi) 800)) Y))) /\
    ns k' !! "x_fine" =
      Some (VArr1 (np.flatten (replicate 1000 (np.linspace_nat 0 (4 * np.pi) 800)))) /\
    (forall x_fine y_fine,
       ns k' !! "x_fine" = Some (VArr1 x_fine) ->
       ns k' !! "y_fine" = Some (VArr1 y_fine) ->
       match np.histogram2d x_fine y_fine 400 100 with
       | Ok (h, xedges, yedges) =>
           run_cell cell_hist k' = Done (after_hist h xedges yedges k') /\
           ns (after_hist h xedges yedges k') !! "h" = Some (VArr2 h)
       | Raise err => run_cell cell_hist k' = Raised err (at_histogram_call k')
       end) /\
    (forall x, x ∈ ["Y"; "x_fine"; "y_fine"; "h"; "xedges"; "yedges"] ->
       Forall (fun c => ignores x (run_cell c))
         (take 6 (notebook sample_world) ++ drop 9 (notebook sample_world))).
Proof.
  apply (histogram_pipeline sample_world kernel_after_imports).
  vm_compute. repeat split.
Defined.

(** ** C7: labels and the cross-reference *)

(** C7.  Two cells carry a label: the cell that displays the chart,
    labelled [horsepower], and the histogram cell, labelled [plasma]; no
    other cell has one.  The markdown refers to one label, [horsepower],
    and a cell of the notebook defines it. *)
Theorem labels_and_cross_reference (w : world) :
  map cell_label (notebook w)
  = [None; None; None; Some "horsepower"; None; None; None; None; Some "plasma";
     None; None; None] /\
  notebook w !! 3%nat = Some cell_show_chart /\
  cell_label cell_show_chart = Some "horsepower" /\
  notebook w !! 8%nat = Some cell_hist /\
  cell_label cell_hist = Some "plasma" /\
  cross_references (notebook w) = ["horsepower"] /\
  (forall r, r ∈ cross_references (notebook w) ->
     exists c, c ∈ notebook w /\ is_code c = true /\ cell_label c = Some r).
Proof.
  split_and!; try reflexivity.
  intros r Hr. change (cross_references (notebook w)) with ["horsepower"] in Hr.
  apply list_elem_of_singleton in Hr. subst r.
  exists cell_show_chart. split_and!; try reflexivity.
  apply (list_elem_of_lookup_2 _ 3%nat). reflexivity.
Qed.

(** ** C4: the chart consumes the cars dataset as it is *)

#[global] Hint Unfold after_charts : kernels.

Section Claims_chart.

Context (w : world).
Implicit Types (k : kernel).

Lemma run_charts k (d : dataframe) :
  w_cars w = Ok d -> run_cell (cell_charts w) k = Done (after_charts d k).
Proof.
  intros Hd. unfold run_cell, cell_charts, cell_body.
  erewrite exec_cons by (unfold s_import_alt; apply assign1_done; reflexivity).
  erewrite exec_cons by (unfold s_import_data; apply assign1_done; reflexivity).
  erewrite exec_cons.
  2:{ unfold s_source. apply assign1_done.
      erewrite use_bound by lookup_ns. simpl. rewrite Hd. reflexivity. }
  erewrite exec_cons.
  2:{ unfold s_brush. apply assign1_done.
      erewrite use_bound by lookup_ns. reflexivity. }
  erewrite exec_cons.
  2:{ unfold s_points. apply assign1_done.
      erewrite !use_bound by lookup_ns. simpl.
      erewrite (load_bound "source") by lookup_ns. simpl.
      erewrite !(load_bound "brush") by lookup_ns. reflexivity. }
  erewrite exec_cons.
  2:{ unfold s_bars. apply assign1_done.
      erewrite !use_bound by lookup_ns. simpl.
      erewrite (load_bound "source") by lookup_ns. simpl.
      erewrite !(load_bound "brush") by lookup_ns. reflexivity. }
  reflexivity.
Qed.

Lemma run_show_chart k (p b : alt.chart) :
  ns k !! "points" = Some (VChart p) ->
  ns k !! "bars" = Some (VChart b) ->
  run_cell cell_show_chart k = Done (display (VChart (alt.VConcat p b)) k).
Proof.
  intros Hp Hb. unfold run_cell, cell_show_chart, cell_body, exec, s_show_chart, show.
  rewrite (load_bound _ _ _ Hp). simpl. rewrite (load_bound _ _ _ Hb). reflexivity.
Qed.

(** No cell after the chart cell reads or binds [source]. *)
Lemma source_unused_later :
  Forall (fun c => ignores "source" (run_cell c)) (drop 2 (notebook w)).
Proof.
  unfold notebook, drop.
  repeat constructor;
    first [ apply markdown_ignores | apply empty_ignores
          | apply show_chart_ignores; solve_notin
          | apply imports_ignores; solve_notin
          | apply data_ignores; solve_notin
          | apply hist_ignores; solve_notin
          | apply import_leafmap_ignores; solve_notin
          | apply map_ignores; solve_notin ].
Qed.

(** C4.  When [data.cars()] returns the table [d], cell 1 binds [source]
    to [d] and builds both charts on [d] itself.  The scatter plot encodes
    [Horsepower] on x, [Miles_per_Gallon] on y, [Acceleration] as size and
    [Origin], as a nominal field, as the colour of the selected points;
    the bars refer to [Origin] only, so these four are the attributes in
    use.  The display cell shows the two charts; the statements that follow
    the load and all later cells leave [source] as it is. *)
Theorem chart_consumes_cars (k : kernel) (d : dataframe) :
  w_cars w = Ok d ->
  exists k' points bars,
    run_cell (cell_charts w) k = Done k' /\
    ns k' !! "source" = Some (VFrame d) /\
    ns k' !! "points" = Some (VChart (alt.Unit points)) /\
    ns k' !! "bars" = Some (VChart (alt.Unit bars)) /\
    alt.ch_data points = d /\ alt.ch_filters points = [] /\
    alt.ch_data bars = d /\
    alt.ch_encoding points
    = alt.Encoding (Some "Horsepower:Q") (Some "Miles_per_Gallon:Q") (Some "Acceleration")
        (Some (alt.ColorCondition (alt.selection_interval ["x"]) "Origin:N" "lightgray")) /\
    alt.encoded_fields (alt.ch_encoding points)
    = ["Horsepower"; "Miles_per_Gallon"; "Acceleration"; "Origin"] /\
    (forall f, f ∈ alt.encoded_fields (alt.ch_encoding bars) -> f = "Origin") /\
    run_cell cell_show_chart k'
    = Done (display (VChart (alt.VConcat (alt.Unit points) (alt.Unit bars))) k') /\
    Forall (keeps "source") [s_brush; s_points; s_bars] /\
    Forall (fun c => ignores "source" (run_cell c)) (drop 2 (notebook w)).
Proof.
  intros Hd. exists (after_charts d k), (points_chart d), (bars_chart d). split_and!.
  - now apply run_charts.
  - lookup_ns.
  - lookup_ns.
  - lookup_ns.
  - reflexivity.
  - reflexivity.
  - reflexivity.
  - reflexivity.
  - reflexivity.
  - intros f Hf. change (alt.encoded_fields (alt.ch_encoding (bars_chart d)))
      with ["Origin"; "Origin"; "Origin"] in Hf.
    repeat (apply elem_of_cons in Hf; destruct Hf as [->|Hf]); try reflexivity.
    now apply elem_of_nil in Hf.
  - apply run_show_chart; lookup_ns.
  - repeat constructor; keeps_stmt.
  - apply source_unused_later.
Qed.

End Claims_chart.

(** The claim in the sample world, from a fresh kernel. *)
Lemma chart_consumes_cars_witness :
  exists k' points bars,
    run_cell (cell_charts sample_world) fresh = Done k' /\
    ns k' !! "source"
    = Some (VFrame (DataFrame ["Name"; "Miles_per_Gallon"; "Horsepower"; "Acceleration"; "Origin"]
                      [ ["chevrolet chevelle malibu"; "18.0"; "130.0"; "12.0"; "USA"];
                        ["datsun pl510"; "27.0"; "88.0"; "14.5"; "Japan"] ])) /\
    ns k' !! "points" = Some (VChart (alt.Unit points)) /\
    ns k' !! "bars" = Some (VChart (alt.Unit bars)) /\
    alt.ch_data points
    = DataFrame ["Name"; "Miles_per_Gallon"; "Horsepower"; "Acceleration"; "Origin"]
        [ ["chevrolet chevelle malibu"; "18.0"; "130.0"; "12.0"; "USA"];
          ["datsun pl510"; "27.0"; "88.0"; "14.5"; "Japan"] ] /\
    alt.ch_filters points = [] /\
    alt.ch_data bars
    = DataFrame ["Name"; "Miles_per_Gallon"; "Horsepower"; "Acceleration"; "Origin"]
        [ ["chevrolet chevelle malibu"; "18.0"; "130.0"; "12.0"; "USA"];
          ["datsun pl510"; "27.0"; "88.0"; "14.5"; "Japan"] ] /\
    alt.ch_encoding points
    = alt.Encoding (Some "Horsepower:Q") (Some "Miles_per_Gallon:Q") (Some "Acceleration")
        (Some (alt.ColorCondition (alt.selection_interval ["x"]) "Origin:N" "lightgray")) /\
    alt.encoded_fields (alt.ch_encoding points)
    = ["Horsepower"; "Miles_per_Gallon"; "Acceleration"; "Origin"] /\
    (forall f, f ∈ alt.encoded_fields (alt.ch_encoding bars) -> f = "Origin") /\
    run_cell cell_show_chart k'
    = Done (display (VChart (alt.VConcat (alt.Unit points) (alt.Unit bars))) k') /\
    Forall (keeps "source") [s_brush; s_points; s_bars] /\
    Forall (fun c => ignores "source" (run_cell c)) (drop 2 (notebook sample_world)).
Proof.
  apply (chart_consumes_cars sample_world fresh). reflexivity.
Defined.

(** ** C3: the map widget and its two rasters *)

#[global] Hint Unfold at_split_map : kernels.

Section Claims_map.

Context (w : world).
Implicit Types (k : kernel).

Lemma run_map_prefix k :
  ns k !! "leafmap" = Some (VModule "leafmap.foliumap") ->
  exec (take 3 (map_body w)) k = Done (at_split_map k).
Proof.
  intros Hl. unfold map_body, take.
  erewrite exec_cons.
  2:{ unfold s_m. apply assign1_done. rewrite (use_bound _ _ _ Hl). reflexivity. }
  erewrite exec_cons by (unfold s_url; apply assign1_done; reflexivity).
  erewrite exec_cons by (unfold s_url2; apply assign1_done; reflexivity).
  reflexivity.
Qed.

Lemma s_split_map_spec k (m : leafmap.Map) (u1 u2 : string) :
  ns k !! "m" = Some (VMap m) ->
  ns k !! "url" = Some (VStr u1) ->
  ns k !! "url2" = Some (VStr u2) ->
  s_split_map w k =
    match leafmap.split_map w m u1 u2 with
    | Ok m' => Done (store "m" (VMap m') k)
    | Raise err => Raised err k
    end.
Proof.
  intros Hm H1 H2. unfold s_split_map, assign.
  rewrite (load_bound _ _ _ Hm). simpl. rewrite (load_bound _ _ _ H1). simpl.
  rewrite (load_bound _ _ _ H2). simpl.
  destruct (leafmap.split_map w m u1 u2); reflexivity.
Qed.

Lemma map_keeps (x : string) :
  x ∉ ["m"; "url"; "url2"] -> keeps x (run_cell (cell_map w)).
Proof.
  intros Hx. split_notin Hx. unfold run_cell, cell_map, cell_body, map_body. keeps_body.
Qed.

(** C3.  The map cell makes one widget, centred at
    [[39.4948, -108.5492]] with zoom 12, and binds it to [m]; the cell
    binds no other name but [url] and [url2].  [split_map] is called with
    the widget and the two URLs of lines 173-174, both remote rasters, so
    both are resolved through the tile endpoint; when that succeeds, the
    widget with the split layers is displayed.  In the text of the
    notebook the two URLs are the only string literals that name a remote
    raster, lines 173-174 the only lines that mention a GeoTIFF, and line
    172 the only call of [leafmap.Map]. *)
Theorem map_cell_widget (k : kernel) :
  ns k !! "leafmap" = Some (VModule "leafmap.foliumap") ->
  exec (take 3 (map_body w)) k = Done (at_split_map k) /\
  ns (at_split_map k) !! "m"
  = Some (VMap (leafmap.MkMap 600 (39.4948, -108.5492)%float 12 None)) /\
  ns (at_split_map k) !! "url" = Some (VStr url_left) /\
  ns (at_split_map k) !! "url2" = Some (VStr url_right) /\
  s_split_map w (at_split_map k) =
    match leafmap.split_map w map_widget url_left url_right with
    | Ok m' => Done (store "m" (VMap m') (at_split_map k))
    | Raise err => Raised err (at_split_map k)
    end /\
  leafmap.split_map w map_widget url_left url_right =
    (l ← w_cog_tile w url_left; r ← w_cog_tile w url_right;
     Ok (leafmap.MkMap 600 (39.4948, -108.5492)%float 12 (Some (l, r)))) /\
  (forall l r, w_cog_tile w url_left = Ok l -> w_cog_tile w url_right = Ok r ->
     run_cell (cell_map w) k =
       Done (display (VMap (leafmap.MkMap 600 (39.4948, -108.5492)%float 12 (Some (l, r))))
               (store "m"
                  (VMap (leafmap.MkMap 600 (39.4948, -108.5492)%float 12 (Some (l, r))))
                  (at_split_map k)))) /\
  (forall x, x ∉ ["m"; "url"; "url2"] -> keeps x (run_cell (cell_map w))) /\
  filter (fun s => is_remote_raster s = true)
    (concat (map string_literals (code_lines (notebook w))))
  = [url_left; url_right] /\
  filter (fun line => contains ".tif" line = true) (concat (map cell_source (notebook w)))
  = [src "url = 'https://github.com/opengeos/data/releases/download/raster/Libya-2023-07-01.tif'";
     src "url2 = 'https://github.com/opengeos/data/releases/download/raster/Libya-2023-09-13.tif'"] /\
  filter (fun line => contains "leafmap.Map(" line = true) (code_lines (notebook w))
  = [src "m = leafmap.Map(height=600, center=[39.4948, -108.5492], zoom=12)"].
Proof.
  intros Hl. split_and!.
  - now apply run_map_prefix.
  - lookup_ns.
  - lookup_ns.
  - lookup_ns.
  - apply s_split_map_spec; lookup_ns.
  - reflexivity.
  - intros l r Hleft Hright. unfold run_cell, cell_map, cell_body.
    change (map_body w) with (take 3 (map_body w) ++ [s_split_map w; s_show_m]).
    rewrite (exec_app _ _ _ _ (run_map_prefix k Hl)).
    erewrite exec_cons.
    2:{ rewrite (s_split_map_spec _ map_widget url_left url_right) by lookup_ns.
        unfold leafmap.split_map, leafmap.tile_layer.
        change (String.prefix "http" url_left && leafmap.ends_with ".tif" url_left) with true.
        change (String.prefix "http" url_right && leafmap.ends_with ".tif" url_right) with true.
        cbv iota. rewrite Hleft. simpl. rewrite Hright. reflexivity. }
    unfold exec, s_show_m, show. erewrite load_bound by lookup_ns. reflexivity.
  - apply map_keeps.
  - vm_compute. reflexivity.
  - vm_compute. reflexivity.
  - vm_compute. reflexivity.
Qed.

End Claims_map.

Lemma map_cell_widget_witness :
  exec (take 3 (map_body sample_world)) kernel_after_leafmap
  = Done (at_split_map kernel_after_leafmap) /\
  ns (at_split_map kernel_after_leafmap) !! "m"
  = Some (VMap (leafmap.MkMap 600 (39.4948, -108.5492)%float 12 None)) /\
  ns (at_split_map kernel_after_leafmap) !! "url" = Some (VStr url_left) /\
  ns (at_split_map kernel_after_leafmap) !! "url2" = Some (VStr url_right) /\
  s_split_map sample_world (at_split_map kernel_after_leafmap) =
    match leafmap.split_map sample_world map_widget url_left url_right with
    | Ok m' => Done (store "m" (VMap m') (at_split_map kernel_after_leafmap))
    | Raise err => Raised err (at_split_map kernel_after_leafmap)
    end /\
  leafmap.split_map sample_world map_widget url_left url_right =
    (l ← w_cog_tile sample_world url_left; r ← w_cog_tile sample_world url_right;
     Ok (leafmap.MkMap 600 (39.4948, -108.5492)%float 12 (Some (l, r)))) /\
  (forall l r,
     w_cog_tile sample_world url_left = Ok l -> w_cog_tile sample_world url_right = Ok r ->
     run_cell (cell_map sample_world) kernel_after_leafmap =
       Done (display (VMap (leafmap.MkMap 600 (39.4948, -108.5492)%float 12 (Some (l, r))))
               (store "m"
                  (VMap (leafmap.MkMap 600 (39.4948, -108.5492)%float 12 (Some (l, r))))
                  (at_split_map kernel_after_leafmap)))) /\
  (forall x, x ∉ ["m"; "url"; "url2"] -> keeps x (run_cell (cell_map sample_world))) /\
  filter (fun s => is_remote_raster s = true)
    (concat (map string_literals (code_lines (notebook sample_world))))
  = [url_left; url_right] /\
  filter (fun line => contains ".tif" line = true)
    (concat (map cell_source (notebook sample_world)))
  = [src "url = 'https://github.com/opengeos/data/releases/download/raster/Libya-2023-07-01.tif'";
     src "url2 = 'https://github.com/opengeos/data/releases/download/raster/Libya-2023-09-13.tif'"] /\
  filter (fun line => contains "leafmap.Map(" line = true)
    (code_lines (notebook sample_world))
  = [src "m = leafmap.Map(height=600, center=[39.4948, -108.5492], zoom=12)"].
Proof.
  apply (map_cell_widget sample_world kernel_after_leafmap). reflexivity.
Defined.

(** ** C5: no cell handles an error *)

Section Claims_errors.

Implicit Types (k : kernel) (s : stmt).

Lemma assign_atomic xs e : atomic (assign xs e).
Proof. intros k err k'. unfold assign. destruct (e k); [discriminate|]. now intros [= _ <-]. Qed.

Lemma show_atomic e : atomic (show e).
Proof. intros k err k'. unfold show. destruct (e k); [discriminate|]. now intros [= _ <-]. Qed.

Lemma drawing_atomic s : atomic s -> atomic (drawing s).
Proof.
  intros Hs k err k'. unfold drawing. destruct (s k) as [k1|err1 k1] eqn:E; [discriminate|].
  intros [= <- <-]. now apply (Hs k err1).
Qed.

(** The exception of a run of statements is the exception of the first
    statement that raises, in the kernel the statements before it left;
    what follows it does not run. *)
Lemma exec_raised (body : list stmt) k err k' :
  exec body k = Raised err k' ->
  exists pre s post k1,
    body = pre ++ s :: post /\ exec pre k = Done k1 /\ s k1 = Raised err k'.
Proof.
  revert k. induction body as [|s body IH]; intros k; simpl; [discriminate|].
  destruct (s k) as [k1|err1 k1] eqn:E.
  - intros H. destruct (IH k1 H) as (pre & s' & post & k2 & -> & Hpre & Hs).
    exists (s :: pre), s', post, k2. split_and!; [reflexivity| |exact Hs].
    simpl. now rewrite E.
  - intros [= <- <-]. exists [], s, body, k. split_and!; [reflexivity|reflexivity|exact E].
Qed.

Lemma for_each_raised x s items k err k' :
  for_each x s items k = Raised err k' ->
  exists before i rest k1,
    items = before ++ i :: rest /\ for_each x s before k = Done k1 /\
    s (store x (VInt i) k1) = Raised err k'.
Proof.
  revert k. induction items as [|i items IH]; intros k; simpl; [discriminate|].
  destruct (s (store x (VInt i) k)) as [k1|err1 k1] eqn:E.
  - intros H. destruct (IH k1 H) as (before & j & rest & k2 & -> & Hb & Hs).
    exists (i :: before), j, rest, k2. split_and!; [reflexivity| |exact Hs].
    simpl. now rewrite E.
  - intros [= <- <-]. exists [], i, items, k. split_and!; [reflexivity|reflexivity|exact E].
Qed.

(** Every statement of the notebook but the loop is an assignment or a
    displayed expression. *)
Lemma statements_atomic (w : world) (c : cell) (s : stmt) :
  c ∈ notebook w -> s ∈ cell_body c -> s = s_interp_loop \/ atomic s.
Proof.
  intros Hc Hs. unfold notebook in Hc.
  repeat (apply elem_of_cons in Hc; destruct Hc as [->|Hc]);
    try (now apply elem_of_nil in Hc);
    simpl in Hs; unfold data_body, hist_body, map_body in Hs;
    repeat (apply elem_of_cons in Hs; destruct Hs as [->|Hs]);
    try (now apply elem_of_nil in Hs);
    first [ left; reflexivity
          | right; autounfold with stmts;
            repeat first [ apply drawing_atomic | apply assign_atomic | apply show_atomic ] ].
Qed.

(** C5.  No line of a code cell has a keyword that handles, raises or
    branches on an error.  When a cell raises, the exception is the one
    its first failing statement raised, in the kernel the statements
    before it left, and the statements after it do not run; the failing
    statement leaves its kernel as it was (in the loop: as the rounds
    before the failing one left it), so nothing is undone or repaired;
    and [Run All] ends with that exception.  So a failure to load the
    dataset or to reach the tile endpoint, and a name that is not bound,
    end the cell with the library's or Python's exception. *)
Theorem no_error_handling (w : world) :
  Forall (fun line => handles_errors line = false) (code_lines (notebook w)) /\
  (forall c k err k',
     c ∈ notebook w -> run_cell c k = Raised err k' ->
     exists pre s post k1,
       cell_body c = pre ++ s :: post /\ exec pre k = Done k1 /\ s k1 = Raised err k' /\
       (s = s_interp_loop \/ k' = k1)) /\
  (forall k err k',
     s_interp_loop k = Raised err k' ->
     (load "num_series" k ≫= as_int = Raise err /\ k' = k) \/
     exists before i k1,
       for_each "i" s_interp_row before k = Done k1 /\
       s_interp_row (store "i" (VInt i) k1) = Raised err k' /\
       k' = store "i" (VInt i) k1) /\
  (forall pre c post k k1 err k',
     notebook w = pre ++ c :: post ->
     run_cells pre k = Done k1 -> run_cell c k1 = Raised err k' ->
     run_cells (notebook w) k = Raised err k') /\
  (forall k err,
     w_cars w = Raise err ->
     run_cell (cell_charts w) k
     = Raised err (store "data" (VModule "vega_datasets.data")
                     (store "alt" (VModule "altair") k))) /\
  (forall k err,
     ns k !! "leafmap" = Some (VModule "leafmap.foliumap") ->
     w_cog_tile w url_left = Raise err ->
     run_cell (cell_map w) k = Raised err (at_split_map k)) /\
  (forall k, ns k !! "points" = None ->
     run_cell cell_show_chart k = Raised (NameError "points") k).
Proof.
  split_and!.
  - assert (H : forallb (fun line => negb (handles_errors line)) (code_lines (notebook w)) = true)
      by (vm_compute; reflexivity).
    apply forallb_Forall in H. eapply Forall_impl; [exact H|].
    intros line Hl. simpl in Hl. now apply negb_true_iff in Hl.
  - intros c k err k' Hc Hrun. unfold run_cell in Hrun.
    destruct (exec_raised _ _ _ _ Hrun) as (pre & s & post & k1 & Hbody & Hpre & Hs).
    exists pre, s, post, k1. split_and!; try assumption.
    destruct (statements_atomic w c s Hc) as [Hloop|Hatomic].
    + rewrite Hbody. apply elem_of_app. right. apply elem_of_cons. now left.
    + now left.
    + right. now apply (Hatomic k1 err).
  - intros k err k'. unfold s_interp_loop, for_range.
    destruct (load "num_series" k ≫= as_int) as [n|err1] eqn:E.
    + intros H. right.
      destruct (for_each_raised _ _ _ _ _ _ H) as (before & i & rest & k1 & _ & Hb & Hs).
      exists before, i, k1. split_and!; [exact Hb|exact Hs|].
      unfold s_interp_row in Hs. now apply assign_atomic in Hs.
    + intros [= <- <-]. now left.
  - intros pre c post k k1 err k' Hnb Hpre Hc. unfold run_cells in *.
    rewrite Hnb, map_app. rewrite (exec_app _ _ _ _ Hpre). simpl. now rewrite Hc.
  - intros k err Hcars. unfold run_cell, cell_charts, cell_body.
    erewrite exec_cons by (unfold s_import_alt; apply assign1_done; reflexivity).
    erewrite exec_cons by (unfold s_import_data; apply assign1_done; reflexivity).
    simpl. unfold s_source. erewrite assign_raised; [reflexivity|].
    erewrite use_bound by lookup_ns. simpl. now rewrite Hcars.
  - intros k err Hl Htile. unfold run_cell, cell_map, cell_body.
    change (map_body w) with (take 3 (map_body w) ++ [s_split_map w; s_show_m]).
    rewrite (exec_app _ _ _ _ (run_map_prefix w k Hl)). simpl.
    rewrite (s_split_map_spec w _ map_widget url_left url_right) by lookup_ns.
    unfold leafmap.split_map, leafmap.tile_layer.
    change (String.prefix "http" url_left && leafmap.ends_with ".tif" url_left) with true.
    cbv iota. rewrite Htile. reflexivity.
  - intros k Hp. unfold run_cell, cell_show_chart, cell_body, exec, s_show_chart, show.
    now rewrite (load_unbound _ _ Hp).
Qed.

End Claims_errors.

(** The claim in a world that is offline: the chart cell and the map
    cell end with the library's exception, the imports and the three
    bindings of the map cell in place, and [Run All] ends with the first of
    them. *)
Lemma no_error_handling_offline :
  run_cell (cell_charts offline_world) fresh
  = Raised (LibraryError "vega_datasets" "cannot load cars")
      (store "data" (VModule "vega_datasets.data") (store "alt" (VModule "altair") fresh)) /\
  run_cell (cell_map offline_world) kernel_after_leafmap
  = Raised (LibraryError "leafmap" "tile endpoint unreachable")
      (at_split_map kernel_after_leafmap) /\
  run_cells (notebook offline_world) fresh
  = Raised (LibraryError "vega_datasets" "cannot load cars")
      (store "data" (VModule "vega_datasets.data") (store "alt" (VModule "altair") fresh)).
Proof.
  destruct (no_error_handling offline_world) as (_ & _ & _ & Hall & Hcars & Htile & _).
  split_and!.
  - apply Hcars. reflexivity.
  - apply Htile; reflexivity.
  - apply (Hall [cell_title] (cell_charts offline_world)
             (drop 2 (notebook offline_world)) fresh fresh).
    + reflexivity.
    + reflexivity.
    + apply Hcars. reflexivity.
Defined.

(** ** C6: what one cell takes from another *)


Section Claims_flow.

Context (w : world).

Lemma cells_bind_listed_names :
  Forall2 (fun c bound => forall x, x ∉ bound -> keeps x (run_cell c))
    (notebook w) names_bound.
Proof.
  unfold notebook, names_bound.
  repeat match goal with |- Forall2 _ _ _ => constructor end;
    intros x Hx; split_notin Hx;
    unfold run_cell, cell_title, cell_charts, cell_intro_chart, cell_show_chart,
      cell_imports, cell_reference, cell_data, cell_warning, cell_hist,
      cell_import_leafmap, cell_map, cell_empty, cell_body, data_body, hist_body, map_body;
    keeps_body.
Qed.

Lemma cells_read_listed_names :
  Forall2 (fun c reads => forall x, x ∈ reads -> ~ ignores x (run_cell c))
    (notebook w) names_read.
Proof.
  unfold notebook, names_read.
  repeat match goal with |- Forall2 _ _ _ => constructor end;
    intros x Hx;
    repeat (apply elem_of_cons in Hx; destruct Hx as [->|Hx]);
    try (now apply elem_of_nil in Hx); intros Hig.
  - specialize (Hig (VInt 0) fresh). vm_compute in Hig. discriminate.
  - specialize (Hig (VInt 0) (store "points" (VChart blank_chart) fresh)).
    vm_compute in Hig. discriminate.
  - specialize (Hig (VInt 0) fresh). vm_compute in Hig. discriminate.
  - specialize (Hig (VInt 0) fresh). vm_compute in Hig. discriminate.
  - specialize (Hig (VInt 0) (store "plt" (VModule "matplotlib.pyplot") fresh)).
    vm_compute in Hig. discriminate.
  - specialize (Hig (VInt 0) (store "copy" (VModule "copy.copy")
                                (store "plt" (VModule "matplotlib.pyplot") fresh))).
    vm_compute in Hig. discriminate.
  - specialize (Hig (VInt 0)
                  (store "y_fine" (VArr1 [])
                     (store "x_fine" (VArr1 [])
                        (store "np" (VModule "numpy")
                           (store "copy" (VModule "copy.copy")
                              (store "plt" (VModule "matplotlib.pyplot") fresh)))))).
    vm_compute in Hig. discriminate.
  - specialize (Hig (VInt 0)
                  (store "np" (VModule "numpy")
                     (store "copy" (VModule "copy.copy")
                        (store "plt" (VModule "matplotlib.pyplot") fresh)))).
    vm_compute in Hig. discriminate.
  - specialize (Hig (VInt 0)
                  (store "x_fine" (VArr1 [])
                     (store "np" (VModule "numpy")
                        (store "copy" (VModule "copy.copy")
                           (store "plt" (VModule "matplotlib.pyplot") fresh))))).
    vm_compute in Hig. discriminate.
  - specialize (Hig (VInt 0) fresh). vm_compute in Hig. discriminate.
Qed.


End Claims_flow.

(** * Further properties of the cells *)

(** ** The figure of the histogram cell *)

Lemma transpose_entry (a : arr2) (r c i j : nat) :
  shaped r c a -> i < r -> j < c ->
  nth i (nth j (np.transpose a) []) 0%float = nth j (nth i a []) 0%float.
Proof.
  intros Ha Hi Hj. unfold np.transpose.
  rewrite (shaped_ncols r c a Ha) by lia. destruct Ha as [Hl _]. rewrite Hl.
  rewrite nth_tabulate by exact Hj.
  now rewrite (nth_map_seq (fun i => nth j (nth i a []) 0%float)).
Qed.

Lemma out_after_hist h xe ye k : out (after_hist h xe ye k) = out k.
Proof. reflexivity. Qed.

Lemma rng_after_hist h xe ye k : rng_calls (after_hist h xe ye k) = rng_calls k.
Proof. reflexivity. Qed.



(** ** A run of all cells *)

#[global] Hint Unfold after_imports after_map before_hist after_all : kernels.

Section RunAll.

Context (w : world).

Lemma run_imports k : run_cell cell_imports k = Done (after_imports k).
Proof. reflexivity. Qed.

Lemma imports_in_after_imports k : imports_in (after_imports k).
Proof. unfold imports_in. split_and!; lookup_ns. Qed.

Lemma imports_in_after_data k : imports_in k -> imports_in (after_data w k).
Proof. intros (Hcopy & Hnp & Hplt & Hnorm). unfold imports_in. split_and!; lookup_ns. Qed.

Lemma run_import_leafmap k :
  run_cell cell_import_leafmap k = Done (store "leafmap" (VModule "leafmap.foliumap") k).
Proof. reflexivity. Qed.

Lemma run_map k (l r : string) :
  ns k !! "leafmap" = Some (VModule "leafmap.foliumap") ->
  w_cog_tile w url_left = Ok l -> w_cog_tile w url_right = Ok r ->
  run_cell (cell_map w) k = Done (after_map l r k).
Proof.
  intros Hl Hleft Hright. unfold run_cell, cell_map, cell_body.
  change (map_body w) with (take 3 (map_body w) ++ [s_split_map w; s_show_m]).
  rewrite (exec_app _ _ _ _ (run_map_prefix w k Hl)).
  erewrite exec_cons.
  2:{ rewrite (s_split_map_spec w _ map_widget url_left url_right) by lookup_ns.
      unfold leafmap.split_map, leafmap.tile_layer.
      change (String.prefix "http" url_left && leafmap.ends_with ".tif" url_left) with true.
      change (String.prefix "http" url_right && leafmap.ends_with ".tif" url_right) with true.
      cbv iota. rewrite Hleft. simpl. rewrite Hright. reflexivity. }
  unfold exec, s_show_m, show. erewrite load_bound by lookup_ns. reflexivity.
Qed.

Lemma run_cells_cons (c : cell) (cs : list cell) k k1 :
  run_cell c k = Done k1 -> run_cells (c :: cs) k = run_cells cs k1.
Proof. unfold run_cells. simpl. now intros ->. Qed.

Lemma run_cells_raised (c : cell) (cs : list cell) k err k1 :
  run_cell c k = Raised err k1 -> run_cells (c :: cs) k = Raised err k1.
Proof. unfold run_cells. simpl. now intros ->. Qed.

Lemma run_until_hist k (d : dataframe) :
  w_cars w = Ok d ->
  run_cells (notebook w) k = run_cells (drop 8 (notebook w)) (before_hist w d k).
Proof.
  intros Hd. unfold notebook, drop.
  rewrite (run_cells_cons cell_title _ k k) by reflexivity.
  rewrite (run_cells_cons _ _ _ _ (run_charts w k d Hd)).
  rewrite (run_cells_cons cell_intro_chart _ _ (after_charts d k)) by reflexivity.
  rewrite (run_cells_cons _ _ _ _
             (run_show_chart (after_charts d k) (alt.Unit (points_chart d))
                (alt.Unit (bars_chart d)) ltac:(lookup_ns) ltac:(lookup_ns))).
  rewrite (run_cells_cons _ _ _ _ (run_imports _)).
  rewrite (run_cells_cons cell_reference _ _ _ eq_refl).
  rewrite (run_cells_cons (cell_data w) _ _ _
             (run_data w _ (proj1 (proj2 (imports_in_after_imports _))))).
  rewrite (run_cells_cons cell_warning _ _ _ eq_refl).
  reflexivity.
Qed.

Lemma out_before_hist k d : out (before_hist w d k) = out k ++ [shown_chart d].
Proof. reflexivity. Qed.

Lemma rng_before_hist k d : rng_calls (before_hist w d k) = (rng_calls k + 3)%nat.
Proof. unfold before_hist. now rewrite rng_after_data. Qed.

Lemma x_fine_before_hist k d :
  ns (before_hist w d k) !! "x_fine"
  = Some (VArr1 (np.flatten (replicate 1000 x_fine_grid))).
Proof. lookup_ns. Qed.

Lemma y_fine_before_hist k d :
  ns (before_hist w d k) !! "y_fine"
  = Some (VArr1 (np.flatten (fine_series w (rng_calls k)))).
Proof.
  change (rng_calls k)
    with (rng_calls (after_imports (display (shown_chart d) (after_charts d k)))).
  lookup_ns.
Qed.


End RunAll.


(** ** The interpolation loop, round by round *)

Section LoopRounds.

Context (w : world).

Lemma for_each_app x (body : stmt) (l1 l2 : list Z) k k1 :
  for_each x body l1 k = Done k1 ->
  for_each x body (l1 ++ l2) k = for_each x body l2 k1.
Proof.
  revert k. induction l1 as [|i l1 IH]; intros k; simpl.
  - now intros [= ->].
  - destruct (body (store x (VInt i) k)) as [k'|err k']; [apply IH|discriminate].
Qed.

Lemma for_each_interp_prefix k (x_fine x : arr1) (Y yf0 : arr2) (n : nat) :
  numpy_in k ->
  ns k !! "x_fine" = Some (VArr1 x_fine) ->
  ns k !! "x" = Some (VArr1 x) ->
  ns k !! "Y" = Some (VArr2 Y) ->
  ns k !! "y_fine" = Some (VArr2 yf0) ->
  shaped n (length x_fine) yf0 ->
  n <= length Y -> Forall (fun row => length row = length x) Y -> 0 < length x ->
  forall s, s <= n ->
    for_each "i" s_interp_row (map Z.of_nat (seq 0 s)) k
    = Done (after_iters s (interp_rows x_fine x (take s Y) ++ drop s yf0) k).
Proof.
  intros Hnp Hxf Hx HY Hyf Hshape HnY Hrows Hx0.
  induction s as [|s IH]; intros Hs.
  - reflexivity.
  - rewrite seq_S, map_app. rewrite (for_each_app _ _ _ _ _ _ (IH ltac:(lia))).
    simpl.
    set (V := interp_rows x_fine x (take s Y) ++ drop s yf0).
    rewrite (s_interp_row_spec _ s x_fine x Y V).
    + rewrite iter_step. unfold V, interp_rows at 1.
      rewrite (insert_next_row (fun row => map (np.interp_at x row) x_fine))
        by (destruct Hshape as [Hl _]; lia).
      reflexivity.
    + unfold numpy_in. rewrite ns_store, lookup_insert_ne by discriminate.
      now rewrite lookup_after_iters by discriminate.
    + rewrite ns_store, lookup_insert_ne by discriminate.
      now rewrite lookup_after_iters by discriminate.
    + rewrite ns_store, lookup_insert_ne by discriminate.
      now rewrite lookup_after_iters by discriminate.
    + rewrite ns_store, lookup_insert_ne by discriminate.
      now rewrite lookup_after_iters by discriminate.
    + rewrite ns_store. now rewrite lookup_insert_eq.
    + rewrite ns_store, lookup_insert_ne by discriminate.
      apply lookup_after_iters_y. intros ->. unfold V. simpl. now rewrite drop_0.
    + lia.
    + rewrite Forall_forall in Hrows. apply Hrows, list_elem_of_In, nth_In. lia.
    + exact Hx0.
    + unfold V, interp_rows. rewrite length_app, length_map, length_take, length_drop.
      destruct Hshape as [-> _]. lia.
    + unfold V, interp_rows.
      rewrite app_nth2 by (rewrite length_map, length_take; lia).
      rewrite length_map, length_take.
      replace (s - s `min` length Y)%nat with 0%nat by lia.
      destruct Hshape as [Hl Hr]. rewrite Forall_forall in Hr.
      destruct (lookup_lt_is_Some_2 yf0 s ltac:(lia)) as [y0 Hy0].
      rewrite (drop_S _ _ _ Hy0). simpl.
      eapply Hr, list_elem_of_lookup_2, Hy0.
Qed.

(** X3.  The invariant of the loop of lines 125-126.  Line 124 leaves in
    [y_fine] the 1000 rows of 800 entries [np.empty] returned.  After
    the first [s] rounds of the loop, for any [s] up to 1000, [y_fine]
    still has 1000 rows of 800 entries: its first [s] rows are the first
    [s] series interpolated onto the grid, its other rows are as
    [np.empty] returned them, and [i] is bound to [s - 1]. *)
Theorem loop_fills_rows_in_order (k : kernel) (s : nat) :
  numpy_in k -> s <= 1000 ->
  exists k11 V,
    exec (take 11 (data_body w)) k = Done k11 /\
    ns k11 !! "y_fine" = Some (VArr2 (np.tabulate (w_empty w) 1000 800)) /\
    for_each "i" s_interp_row (map Z.of_nat (seq 0 s)) k11
    = Done (after_iters s V k11) /\
    shaped 1000 800 V /\
    take s V = take s (fine_series w (rng_calls k)) /\
    drop s V = drop s (np.tabulate (w_empty w) 1000 800) /\
    (0 < s -> ns (after_iters s V k11) !! "i" = Some (VInt (Z.of_nat s - 1)) /\
              ns (after_iters s V k11) !! "y_fine" = Some (VArr2 V)).
Proof.
  intros Hnp Hs.
  destruct (series_shaped w (rng_calls k)) as [Hl Hr].
  assert (Hlen : length (interp_rows x_fine_grid x_grid (take s (series w (rng_calls k)))) = s).
  { unfold interp_rows. rewrite length_map, length_take, Hl. lia. }
  exists (after_grid w k),
    (interp_rows x_fine_grid x_grid (take s (series w (rng_calls k)))
     ++ drop s (np.tabulate (w_empty w) 1000 800)).
  split_and!.
  - now apply run_grid.
  - lookup_ns.
  - apply (for_each_interp_prefix _ x_fine_grid x_grid (series w (rng_calls k))
             (np.tabulate (w_empty w) 1000 800) 1000);
      [lookup_ns|lookup_ns|lookup_ns|lookup_ns|lookup_ns| | | | |exact Hs].
    + rewrite length_x_fine_grid. apply tabulate_shaped.
    + rewrite Hl. lia.
    + rewrite length_x_grid. exact Hr.
    + rewrite length_x_grid. lia.
  - split.
    + rewrite length_app, Hlen, length_drop, length_tabulate. lia.
    + apply Forall_app. split.
      * apply (interp_rows_shaped x_fine_grid x_grid (take s (series w (rng_calls k)))).
      * apply Forall_drop. apply tabulate_shaped.
  - rewrite take_app_length' by (first [exact Hlen|symmetry; exact Hlen]).
    unfold fine_series, interp_rows. now rewrite firstn_map.
  - now rewrite drop_app_length' by (first [exact Hlen|symmetry; exact Hlen]).
  - intros Hpos. destruct s as [|s]; [lia|]. unfold after_iters. split.
    + rewrite ns_store, lookup_insert_ne by discriminate.
      rewrite ns_store, lookup_insert_eq. do 2 f_equal. lia.
    + now rewrite ns_store, lookup_insert_eq.
Qed.

End LoopRounds.

(** The loop after three rounds. *)
Lemma loop_fills_rows_in_order_witness :
  exists k11 V,
    exec (take 11 (data_body sample_world)) kernel_after_imports = Done k11 /\
    ns k11 !! "y_fine" = Some (VArr2 (np.tabulate (w_empty sample_world) 1000 800)) /\
    for_each "i" s_interp_row (map Z.of_nat (seq 0 3)) k11
    = Done (after_iters 3 V k11) /\
    shaped 1000 800 V /\
    take 3 V = take 3 (fine_series sample_world (rng_calls kernel_after_imports)) /\
    drop 3 V = drop 3 (np.tabulate (w_empty sample_world) 1000 800) /\
    (0 < 3 -> ns (after_iters 3 V k11) !! "i" = Some (VInt (Z.of_nat 3 - 1)) /\
              ns (after_iters 3 V k11) !! "y_fine" = Some (VArr2 V)).
Proof.
  apply (loop_fills_rows_in_order sample_world kernel_after_imports 3).
  - vm_compute. reflexivity.
  - lia.
Defined.

(** ** What the data cell takes from the world *)

Section Memory.

Lemma tabulate_ext (f g : nat -> nat -> float) r c :
  (forall i j, f i j = g i j) -> np.tabulate f r c = np.tabulate g r c.
Proof.
  intros H. unfold np.tabulate. apply map_ext. intros i. apply map_ext. intros j. apply H.
Qed.

Context (w w' : world).
Hypothesis same_draws : forall c i j, w_randn w c i j = w_randn w' c i j.
Hypothesis same_sine : forall v, w_sin w v = w_sin w' v.

Lemma walks_same c : walks w c = walks w' c.
Proof using same_draws.
  unfold walks. f_equal. apply tabulate_ext. intros i j. apply same_draws.
Qed.

Lemma phases_same c : phases w c = phases w' c.
Proof using same_draws.
  unfold phases. f_equal. apply tabulate_ext. intros i j. apply same_draws.
Qed.

Lemma signal_of_same c x phi S P : signal_of w c x phi S P = signal_of w' c x phi S P.
Proof using same_draws same_sine.
  unfold signal_of. apply tabulate_ext. intros i j. do 2 f_equal.
  apply tabulate_ext. intros i' j'. f_equal.
  - f_equal. unfold np.sin. apply map_ext. intros row. apply map_ext. exact same_sine.
  - do 2 f_equal. apply tabulate_ext. intros i0 j0. apply same_draws.
Qed.

Lemma series_same c : series w c = series w' c.
Proof using same_draws same_sine.
  unfold series, signals. now rewrite walks_same, phases_same, signal_of_same.
Qed.

Lemma after_signal_same k : after_signal w k = after_signal w' k.
Proof using same_draws same_sine.
  unfold after_signal, after_walks.
  now rewrite series_same, (phases_same (rng_calls k + 1)), walks_same.
Qed.

End Memory.

(** The array [np.empty] returned is gone from the kernel once the loop
    has run: every row has been assigned. *)
Lemma after_loop_forgets (w : world) k :
  after_loop w k
  = store "y_fine" (VArr2 (fine_series w (rng_calls k)))
      (store "i" (VInt 999)
         (store "x_fine" (VArr1 x_fine_grid)
            (store "num_fine" (VInt 800) (after_signal w k)))).
Proof.
  unfold after_loop, after_grid.
  change (after_iters 1000 ?V ?K) with (store "y_fine" (VArr2 V) (store "i" (VInt 999) K)).
  rewrite (store_commute "i" "y_fine") by discriminate.
  now rewrite (store_store "y_fine").
Qed.

Lemma use_ok_inv x m k : use x m k = Ok () -> ns k !! x = Some (VModule m).
Proof.
  unfold use, load. destruct (ns k !! x) as [[]|]; simpl; try discriminate.
  destruct (String.eqb name m) eqn:E; [|discriminate].
  apply String.eqb_eq in E. now subst.
Qed.

(** Without [np] the data cell stops at line 106. *)
Lemma data_stops_at_linspace (w : world) k err :
  use "np" "numpy"
    (store "SNR" (VFloat 0.10) (store "num_points" (VInt 100)
       (store "num_series" (VInt 1000) k))) = Raise err ->
  run_cell (cell_data w) k
  = Raised err (store "SNR" (VFloat 0.10) (store "num_points" (VInt 100)
                  (store "num_series" (VInt 1000) k))).
Proof.
  intros E. unfold run_cell, cell_data, cell_body, data_body.
  rewrite (exec_cons _ _ _ _ (s_num_series_spec _)).
  rewrite (exec_cons _ _ _ _ (s_num_points_spec _)).
  rewrite (exec_cons _ _ _ _ (s_SNR_spec _)).
  unfold exec, s_x, assign. now rewrite E.
Qed.

(** X4.  The data cell takes nothing from outside but the random draws
    and the sine: in two worlds that agree on both, it ends in the same
    way and leaves the same kernel, whatever kernel it starts in.  So
    nothing of the memory [np.empty] hands out in line 124 is left in the
    kernel, every row having been assigned by the loop, and neither the
    dataset of the chart cell nor the tile endpoint matters to it. *)
Theorem data_cell_reads_draws_and_sine (w w' : world) (k : kernel) :
  (forall c i j, w_randn w c i j = w_randn w' c i j) ->
  (forall v, w_sin w v = w_sin w' v) ->
  run_cell (cell_data w) k = run_cell (cell_data w') k.
Proof.
  intros Hr Hs.
  destruct (use "np" "numpy"
              (store "SNR" (VFloat 0.10) (store "num_points" (VInt 100)
                 (store "num_series" (VInt 1000) k)))) as [[]|err] eqn:E.
  - apply use_ok_inv in E. rewrite !ns_store in E.
    rewrite !lookup_insert_ne in E by discriminate.
    unfold run_cell, cell_data, cell_body.
    rewrite (run_data w k E), (run_data w' k E).
    unfold after_data. rewrite !after_loop_forgets.
    unfold fine_series.
    now rewrite (series_same w w' Hr Hs), (after_signal_same w w' Hr Hs).
  - now rewrite !(data_stops_at_linspace _ _ _ E).
Qed.

Lemma data_cell_reads_draws_and_sine_witness :
  run_cell (cell_data sample_world) kernel_after_imports
  = run_cell (cell_data scrambled_world) kernel_after_imports.
Proof.
  apply (data_cell_reads_draws_and_sine sample_world scrambled_world kernel_after_imports).
  - intros c i j. reflexivity.
  - intros v. reflexivity.
Defined.

(** ** Cells run before the cells they depend on *)

Section OutOfOrder.

Context (w : world).

(** X5.  Cells run before the import cells.  In a kernel where [np],
    [plt] and [leafmap] are not bound, the data cell binds [num_series],
    [num_points] and [SNR] and then raises [NameError] for [np] at line
    106; the histogram cell and the map cell raise [NameError] for [plt]
    and for [leafmap] at their first line and bind nothing. *)
Theorem cells_before_their_imports (k : kernel) :
  ns k !! "np" = None -> ns k !! "plt" = None -> ns k !! "leafmap" = None ->
  run_cell (cell_data w) k
  = Raised (NameError "np")
      (store "SNR" (VFloat 0.10) (store "num_points" (VInt 100)
         (store "num_series" (VInt 1000) k))) /\
  run_cell cell_hist k = Raised (NameError "plt") k /\
  run_cell (cell_map w) k = Raised (NameError "leafmap") k.
Proof.
  intros Hnp Hplt Hleaf. split_and!.
  - apply data_stops_at_linspace. apply use_unbound. lookup_ns.
  - unfold run_cell, cell_hist, cell_body, hist_body, exec, s_fig_axes, assign.
    now rewrite (use_unbound _ _ _ Hplt).
  - unfold run_cell, cell_map, cell_body, map_body, exec, s_m, assign.
    now rewrite (use_unbound _ _ _ Hleaf).
Qed.

(** X6.  The histogram cell run after the import cell but before the
    data cell.  Lines 146-148 run: the cell binds [fig] to an empty
    figure, [axes] to axes without a mesh and [cmap] to the colormap,
    and then raises [NameError] for [x_fine] at line 149; [h] and [pcm]
    are left as they were. *)
Theorem histogram_before_data (k : kernel) :
  imports_in k -> ns k !! "x_fine" = None ->
  exists k',
    run_cell cell_hist k = Raised (NameError "x_fine") k' /\
    ns k' !! "fig" = Some (VFigure (plt.Figure (8, 4)%Z true [])) /\
    ns k' !! "axes" = Some (VAxes (plt.Axes [] "")) /\
    ns k' !! "cmap" = Some (VCmap (plt.Colormap "plasma" (Some ("plasma", 0%Z)))) /\
    ns k' !! "h" = ns k !! "h" /\
    ns k' !! "pcm" = ns k !! "pcm".
Proof.
  intros Himp Hx. pose proof Himp as (Hcopy & Hnp & Hplt & Hnorm).
  exists (at_histogram_call k). split_and!; try lookup_ns.
  unfold run_cell, cell_hist, cell_body.
  change hist_body with (take 3 hist_body ++ drop 3 hist_body).
  rewrite (exec_app _ _ _ _ (run_hist_prefix k Himp)).
  unfold hist_body, drop, exec, s_histogram, assign.
  rewrite (use_bound "np" "numpy") by lookup_ns. simpl.
  rewrite (load_unbound "x_fine") by lookup_ns. reflexivity.
Qed.

End OutOfOrder.

Lemma cells_before_their_imports_witness :
  run_cell (cell_data sample_world) fresh
  = Raised (NameError "np")
      (store "SNR" (VFloat 0.10) (store "num_points" (VInt 100)
         (store "num_series" (VInt 1000) fresh))) /\
  run_cell cell_hist fresh = Raised (NameError "plt") fresh /\
  run_cell (cell_map sample_world) fresh = Raised (NameError "leafmap") fresh.
Proof.
  apply (cells_before_their_imports sample_world fresh); reflexivity.
Defined.

Lemma histogram_before_data_witness :
  exists k',
    run_cell cell_hist kernel_after_imports = Raised (NameError "x_fine") k' /\
    ns k' !! "fig" = Some (VFigure (plt.Figure (8, 4)%Z true [])) /\
    ns k' !! "axes" = Some (VAxes (plt.Axes [] "")) /\
    ns k' !! "cmap" = Some (VCmap (plt.Colormap "plasma" (Some ("plasma", 0%Z)))) /\
    ns k' !! "h" = ns kernel_after_imports !! "h" /\
    ns k' !! "pcm" = ns kernel_after_imports !! "pcm".
Proof.
  apply (histogram_before_data kernel_after_imports).
  - vm_compute. repeat split.
  - vm_compute. reflexivity.
Defined.

(** ** The selection that links the two charts *)

Section Brush.

Context (w : world).

(** X7.  The two charts are linked by one selection.  When the dataset
    loads, [brush] is an interval selection on the x channel alone.  The
    scatter plot, of point marks, carries it as its parameter and colours
    by [Origin] the points it selects, the others light gray.  The
    chart of bar marks has no parameter of its own and is filtered by
    that same selection; it shows the count of [Origin] by [Origin].
    The display cell shows the scatter plot above the bars. *)
Theorem brush_links_charts (k : kernel) (d : dataframe) :
  w_cars w = Ok d ->
  exists k' points bars,
    run_cell (cell_charts w) k = Done k' /\
    ns k' !! "brush" = Some (VSelection (alt.Selection "interval" ["x"])) /\
    ns k' !! "points" = Some (VChart (alt.Unit points)) /\
    ns k' !! "bars" = Some (VChart (alt.Unit bars)) /\
    alt.ch_mark points = alt.Point /\
    alt.ch_params points = [alt.Selection "interval" ["x"]] /\
    alt.enc_color (alt.ch_encoding points)
    = Some (alt.ColorCondition (alt.Selection "interval" ["x"]) "Origin:N" "lightgray") /\
    alt.ch_mark bars = alt.Bar /\
    alt.ch_params bars = [] /\
    alt.ch_filters bars = alt.ch_params points /\
    alt.ch_encoding bars
    = alt.Encoding (Some "count(Origin):Q") (Some "Origin:N") None
        (Some (alt.ColorField "Origin:N")) /\
    forall k3, ns k3 !! "points" = ns k' !! "points" -> ns k3 !! "bars" = ns k' !! "bars" ->
      run_cell cell_show_chart k3
      = Done (display (VChart (alt.VConcat (alt.Unit points) (alt.Unit bars))) k3).
Proof.
  intros Hd. exists (after_charts d k), (points_chart d), (bars_chart d).
  split_and!; try reflexivity; try lookup_ns.
  - now apply run_charts.
  - intros k3 Hp Hb. apply run_show_chart.
    + rewrite Hp. lookup_ns.
    + rewrite Hb. lookup_ns.
Qed.

End Brush.

Lemma brush_links_charts_witness :
  exists k' points bars,
    run_cell (cell_charts sample_world) fresh = Done k' /\
    ns k' !! "brush" = Some (VSelection (alt.Selection "interval" ["x"])) /\
    ns k' !! "points" = Some (VChart (alt.Unit points)) /\
    ns k' !! "bars" = Some (VChart (alt.Unit bars)) /\
    alt.ch_mark points = alt.Point /\
    alt.ch_params points = [alt.Selection "interval" ["x"]] /\
    alt.enc_color (alt.ch_encoding points)
    = Some (alt.ColorCondition (alt.Selection "interval" ["x"]) "Origin:N" "lightgray") /\
    alt.ch_mark bars = alt.Bar /\
    alt.ch_params bars = [] /\
    alt.ch_filters bars = alt.ch_params points /\
    alt.ch_encoding bars
    = alt.Encoding (Some "count(Origin):Q") (Some "Origin:N") None
        (Some (alt.ColorField "Origin:N")) /\
    forall k3, ns k3 !! "points" = ns k' !! "points" -> ns k3 !! "bars" = ns k' !! "bars" ->
      run_cell cell_show_chart k3
      = Done (display (VChart (alt.VConcat (alt.Unit points) (alt.Unit bars))) k3).
Proof.
  apply (brush_links_charts sample_world fresh sample_cars). reflexivity.
Defined.

(** ** Which cells display a value and which call the random generator *)

Section Frame.

Lemma out_store_all xs vs k : out (store_all xs vs k) = out k.
Proof.
  revert vs k. induction xs as [|x xs IH]; intros [|v vs] k; try reflexivity.
  simpl. now rewrite IH.
Qed.

Lemma rng_store_all xs vs k : rng_calls (store_all xs vs k) = rng_calls k.
Proof.
  revert vs k. induction xs as [|x xs IH]; intros [|v vs] k; try reflexivity.
  simpl. now rewrite IH.
Qed.

Lemma assign_silent xs e : silent (assign xs e).
Proof.
  intros k. unfold assign. destruct (e k) as [vs|err]; [|reflexivity].
  apply out_store_all.
Qed.

Lemma assign_drawless xs e : drawless (assign xs e).
Proof.
  intros k. unfold assign. destruct (e k) as [vs|err]; [|reflexivity].
  apply rng_store_all.
Qed.

Lemma drawing_silent s : silent s -> silent (drawing s).
Proof. intros H k. specialize (H k). unfold drawing. now destruct (s k). Qed.

Lemma show_drawless e : drawless (show e).
Proof. intros k. unfold show. now destruct (e k). Qed.

Lemma show_shows_one e : shows_one (show e).
Proof.
  intros k. unfold show. destruct (e k) as [v|err]; [right; now exists v|now left].
Qed.

Lemma for_each_silent x s items : silent s -> silent (for_each x s items).
Proof.
  intros H. induction items as [|i items IH]; intros k; [reflexivity|]. simpl.
  specialize (H (store x (VInt i) k)).
  destruct (s (store x (VInt i) k)) as [k1|err k1]; simpl in *.
  - now rewrite IH.
  - exact H.
Qed.

Lemma for_each_drawless x s items : drawless s -> drawless (for_each x s items).
Proof.
  intros H. induction items as [|i items IH]; intros k; [reflexivity|]. simpl.
  specialize (H (store x (VInt i) k)).
  destruct (s (store x (VInt i) k)) as [k1|err k1]; simpl in *.
  - now rewrite IH.
  - exact H.
Qed.

Lemma for_range_silent x n s : silent s -> silent (for_range x n s).
Proof.
  intros H k. unfold for_range. destruct (n k); [now apply for_each_silent|reflexivity].
Qed.

Lemma for_range_drawless x n s : drawless s -> drawless (for_range x n s).
Proof.
  intros H k. unfold for_range. destruct (n k); [now apply for_each_drawless|reflexivity].
Qed.

Lemma exec_silent (body : list stmt) : Forall silent body -> silent (exec body).
Proof.
  induction 1 as [|s body Hs _ IH]; intros k; [reflexivity|]. simpl.
  specialize (Hs k). destruct (s k) as [k1|err k1]; simpl in *.
  - now rewrite IH.
  - exact Hs.
Qed.

Lemma exec_drawless (body : list stmt) : Forall drawless body -> drawless (exec body).
Proof.
  induction 1 as [|s body Hs _ IH]; intros k; [reflexivity|]. simpl.
  specialize (Hs k). destruct (s k) as [k1|err k1]; simpl in *.
  - now rewrite IH.
  - exact Hs.
Qed.

(** After silent statements, a statement that shows a value. *)
Lemma exec_shows_last (body : list stmt) (s : stmt) :
  Forall silent body -> shows_one s -> shows_one (exec (body ++ [s])).
Proof.
  intros Hb Hs. induction Hb as [|s0 body H0 _ IH]; intros k; simpl.
  - specialize (Hs k). now destruct (s k).
  - specialize (H0 k). destruct (s0 k) as [k1|err k1]; simpl in *.
    + rewrite <- H0. apply IH.
    + now left.
Qed.

Lemma drawless_draws s : drawless s -> draws_at_most 0 s.
Proof. intros H k. rewrite (H k). lia. Qed.

(** A statement that draws once moves the generator by at most one call. *)
Lemma drawing_draws s : drawless s -> draws_at_most 1 (drawing s).
Proof.
  intros H k. specialize (H k). unfold drawing.
  destruct (s k) as [k1|err k1]; simpl in *; lia.
Qed.

Lemma exec_draws (counts : list nat) (body : list stmt) :
  Forall2 draws_at_most counts body -> draws_at_most (list_sum counts) (exec body).
Proof.
  induction 1 as [|n s counts body Hs _ IH]; intros k; simpl; [lia|].
  specialize (Hs k). destruct (s k) as [k1|err k1]; simpl in *.
  - specialize (IH k1). lia.
  - lia.
Qed.

Context (w : world).


End Frame.

(** ** The point cloud *)

Section Cloud.

Lemma nth_flatten (a : arr2) (r c i j : nat) (d : float) :
  shaped r c a -> i < r -> j < c ->
  nth (i * c + j) (np.flatten a) d = nth j (nth i a []) d.
Proof.
  unfold np.flatten. revert r i. induction a as [|row a IH]; intros r i [Hl Hr] Hi Hj.
  - simpl in Hl. lia.
  - apply Forall_cons in Hr as [Hrow Hr]. simpl concat. destruct i as [|i].
    + simpl. apply app_nth1. lia.
    + rewrite app_nth2 by (rewrite Hrow; simpl; lia).
      replace (S i * c + j - length row)%nat with (i * c + j)%nat by (rewrite Hrow; simpl; lia).
      simpl in Hl. apply (IH (length a)); [now split|lia|exact Hj].
Qed.

Lemma nth_interp_rows (x_fine x : arr1) (Y : arr2) (i j : nat) :
  i < length Y -> j < length x_fine ->
  nth j (nth i (interp_rows x_fine x Y) []) 0%float
  = np.interp_at x (nth i Y []) (nth j x_fine 0%float).
Proof.
  intros Hi Hj. unfold interp_rows.
  rewrite (nth_indep _ [] (map (np.interp_at x []) x_fine)) by now rewrite length_map.
  rewrite (map_nth (fun row => map (np.interp_at x row) x_fine) Y []).
  rewrite (nth_indep _ 0%float (np.interp_at x (nth i Y []) 0%float)) by now rewrite length_map.
  apply map_nth.
Qed.

Lemma nth_replicate_row (row : arr1) (n i : nat) : i < n -> nth i (replicate n row) [] = row.
Proof.
  revert i. induction n as [|n IH]; intros i Hi; [lia|].
  destruct i as [|i]; [reflexivity|]. simpl. apply IH. lia.
Qed.

Lemma first_grid_point : nth 0 x_fine_grid 0%float = 0%float.
Proof. vm_compute. reflexivity. Qed.

Lemma last_grid_point : nth 799 x_fine_grid 0%float = (4 * np.pi)%float.
Proof. vm_compute. reflexivity. Qed.

Lemma interp_at_first (row : arr1) : np.interp_at x_grid row 0 = nth 0 row 0%float.
Proof.
  unfold np.interp_at. rewrite length_x_grid.
  change (100 =? 1)%nat with false. cbv iota.
  assert (Hloc : np.locate 0 x_grid = np.Within 0) by (vm_compute; reflexivity).
  rewrite Hloc. unfold np.interp_segment. rewrite length_x_grid.
  change (1 =? 100)%nat with false. cbv iota.
  assert (Hx0 : (nth 0 x_grid 0 =? 0)%float = true) by (vm_compute; reflexivity).
  now rewrite Hx0.
Qed.

Lemma interp_at_last (row : arr1) :
  np.interp_at x_grid row (4 * np.pi) = nth 99 row 0%float.
Proof.
  unfold np.interp_at. rewrite length_x_grid.
  change (100 =? 1)%nat with false. cbv iota.
  assert (Hloc : np.locate (4 * np.pi) x_grid = np.Within 99) by (vm_compute; reflexivity).
  rewrite Hloc. unfold np.interp_segment. rewrite length_x_grid.
  change (100 =? 100)%nat with true. cbv iota. reflexivity.
Qed.

Context (w : world).

(** X9.  The two flattened arrays name the same points in the same
    order.  After the data cell, entry [800 * i + j] of [x_fine] is grid
    point [j] and entry [800 * i + j] of [y_fine] is series [i]
    interpolated at grid point [j], for each of the 1000 series and the
    800 grid points: [flatten] lays the rows out one after the other and
    [repmat] repeats the grid once for each series. *)
Theorem cloud_points (k : kernel) :
  numpy_in k ->
  exists k' Y xs ys,
    run_cell (cell_data w) k = Done k' /\
    ns k' !! "Y" = Some (VArr2 Y) /\
    ns k' !! "x_fine" = Some (VArr1 xs) /\
    ns k' !! "y_fine" = Some (VArr1 ys) /\
    forall i j, i < 1000 -> j < 800 ->
      nth (i * 800 + j) xs 0%float = nth j x_fine_grid 0%float /\
      nth (i * 800 + j) ys 0%float
      = np.interp_at x_grid (nth i Y []) (nth j x_fine_grid 0%float).
Proof.
  intros Hnp.
  exists (after_data w k), (series w (rng_calls k)),
    (np.flatten (replicate 1000 x_fine_grid)), (np.flatten (fine_series w (rng_calls k))).
  destruct (series_shaped w (rng_calls k)) as [Hl _].
  split_and!.
  - now apply run_data.
  - lookup_ns.
  - lookup_ns.
  - lookup_ns.
  - intros i j Hi Hj. split.
    + rewrite (nth_flatten _ 1000 800) by
        (try lia; rewrite <- length_x_fine_grid; apply replicate_shaped).
      now rewrite nth_replicate_row.
    + rewrite (nth_flatten _ 1000 800) by (try lia; apply fine_series_shaped).
      unfold fine_series. apply nth_interp_rows; [rewrite Hl|rewrite length_x_fine_grid]; lia.
Qed.

(** X10.  The interpolation keeps the two ends of every series.  The
    grid starts at the first sample point and ends at the last one, so
    for each series the first interpolated value is its first sample and
    the last interpolated value is its last sample, exactly. *)
Theorem interpolation_keeps_endpoints (k : kernel) :
  numpy_in k ->
  exists k' Y ys,
    run_cell (cell_data w) k = Done k' /\
    ns k' !! "Y" = Some (VArr2 Y) /\
    ns k' !! "y_fine" = Some (VArr1 ys) /\
    forall i, i < 1000 ->
      nth (i * 800) ys 0%float = nth 0 (nth i Y []) 0%float /\
      nth (i * 800 + 799) ys 0%float = nth 99 (nth i Y []) 0%float.
Proof.
  intros Hnp.
  exists (after_data w k), (series w (rng_calls k)),
    (np.flatten (fine_series w (rng_calls k))).
  destruct (series_shaped w (rng_calls k)) as [Hl _].
  split_and!.
  - now apply run_data.
  - lookup_ns.
  - lookup_ns.
  - intros i Hi. split.
    + replace (i * 800)%nat with (i * 800 + 0)%nat by lia.
      rewrite (nth_flatten _ 1000 800) by (try lia; apply fine_series_shaped).
      unfold fine_series.
      rewrite nth_interp_rows by (try rewrite Hl; try rewrite length_x_fine_grid; lia).
      rewrite first_grid_point. apply interp_at_first.
    + rewrite (nth_flatten _ 1000 800) by (try lia; apply fine_series_shaped).
      unfold fine_series.
      rewrite nth_interp_rows by (try rewrite Hl; try rewrite length_x_fine_grid; lia).
      rewrite last_grid_point. apply interp_at_last.
Qed.

End Cloud.

Lemma cloud_points_witness :
  exists k' Y xs ys,
    run_cell (cell_data sample_world) kernel_after_imports = Done k' /\
    ns k' !! "Y" = Some (VArr2 Y) /\
    ns k' !! "x_fine" = Some (VArr1 xs) /\
    ns k' !! "y_fine" = Some (VArr1 ys) /\
    forall i j, i < 1000 -> j < 800 ->
      nth (i * 800 + j) xs 0%float = nth j x_fine_grid 0%float /\
      nth (i * 800 + j) ys 0%float
      = np.interp_at x_grid (nth i Y []) (nth j x_fine_grid 0%float).
Proof.
  apply (cloud_points sample_world kernel_after_imports). vm_compute. reflexivity.
Defined.

Lemma interpolation_keeps_endpoints_witness :
  exists k' Y ys,
    run_cell (cell_data sample_world) kernel_after_imports = Done k' /\
    ns k' !! "Y" = Some (VArr2 Y) /\
    ns k' !! "y_fine" = Some (VArr1 ys) /\
    forall i, i < 1000 ->
      nth (i * 800) ys 0%float = nth 0 (nth i Y []) 0%float /\
      nth (i * 800 + 799) ys 0%float = nth 99 (nth i Y []) 0%float.
Proof.
  apply (interpolation_keeps_endpoints sample_world kernel_after_imports).
  vm_compute. reflexivity.
Defined.

(** ** The bins along x *)

Section XBins.

Lemma fold_left_tiled {A : Type} (f : A -> A -> A) (L : list A) (m : A) (n : nat) :
  fold_left f L m = m -> fold_left f (concat (replicate n L)) m = m.
Proof.
  intros H. induction n as [|n IH]; [reflexivity|].
  simpl. now rewrite fold_left_app, H.
Qed.

Lemma min_tiled (L : arr1) (m : float) (n : nat) :
  np.min L = Ok m -> fold_left np.fmin L m = m ->
  np.min (np.flatten (replicate (S n) L)) = Ok m.
Proof.
  intros Hmin Hfix. destruct L as [|x t]; [discriminate|].
  injection Hmin as Hm. unfold np.flatten. simpl.
  now rewrite fold_left_app, Hm, fold_left_tiled.
Qed.

Lemma max_tiled (L : arr1) (m : float) (n : nat) :
  np.max L = Ok m -> fold_left np.fmax L m = m ->
  np.max (np.flatten (replicate (S n) L)) = Ok m.
Proof.
  intros Hmax Hfix. destruct L as [|x t]; [discriminate|].
  injection Hmax as Hm. unfold np.flatten. simpl.
  now rewrite fold_left_app, Hm, fold_left_tiled.
Qed.

Lemma outer_edges_range (a : arr1) (lo hi : float) :
  np.min a = Ok lo -> np.max a = Ok hi ->
  PrimFloat.is_finite lo && PrimFloat.is_finite hi = true -> (lo =? hi)%float = false ->
  np.outer_edges a = Ok (lo, hi).
Proof.
  intros Hlo Hhi Hfin Hne. destruct a as [|x t]; [discriminate|].
  unfold np.outer_edges. rewrite Hlo, Hhi. simpl. now rewrite Hfin, Hne.
Qed.

Lemma histogram2d_edges (x y : arr1) (nx ny : Z) (h : arr2) (xe ye : arr1) :
  np.histogram2d x y nx ny = Ok (h, xe, ye) ->
  np.bin_edges x nx = Ok xe /\ np.bin_edges y ny = Ok ye.
Proof.
  unfold np.histogram2d. destruct (negb (length x =? length y)%nat); [discriminate|].
  destruct (np.bin_edges x nx) as [xe'|err]; simpl; [|discriminate].
  destruct (np.bin_edges y ny) as [ye'|err]; simpl; [|discriminate].
  now intros [= _ <- <-].
Qed.

Lemma length_filter_tiled {A : Type} (P : A -> Prop) `{!forall x, Decision (P x)}
    (L : list A) (n : nat) :
  length (filter P (concat (replicate n L))) = (n * length (filter P L))%nat.
Proof.
  induction n as [|n IH]; [reflexivity|].
  simpl. now rewrite filter_app, length_app, IH.
Qed.

Lemma length_filter_map {A : Type} (f : A -> nat) (b : nat) (L : list A) :
  length (filter (fun v => f v = b) L) = length (filter (fun n => n = b) (map f L)).
Proof.
  induction L as [|v L IH]; [reflexivity|].
  simpl map. rewrite !filter_cons. destruct (decide (f v = b)); simpl; now rewrite IH.
Qed.

Lemma bins_of_grid :
  map (np.bin_of x_edges) x_fine_grid = flat_map (fun t => [S t; S t]) (seq 0 400).
Proof. vm_compute. reflexivity. Qed.

Lemma two_per_bin (b : nat) :
  1 <= b <= 400 ->
  length (filter (fun v => np.bin_of x_edges v = b) x_fine_grid) = 2%nat.
Proof.
  intros Hb. rewrite length_filter_map, bins_of_grid.
  assert (H : forallb
                (fun b => (length (filter (fun n => n = b)
                                     (flat_map (fun t => [S t; S t]) (seq 0 400))) =? 2)%nat)
                (seq 1 400) = true) by (vm_compute; reflexivity).
  rewrite forallb_forall in H. apply Nat.eqb_eq, H, in_seq. lia.
Qed.

Lemma x_fine_min : np.min (np.flatten (replicate 1000 x_fine_grid)) = Ok 0%float.
Proof. apply (min_tiled x_fine_grid 0 999); vm_compute; reflexivity. Qed.

Lemma x_fine_max : np.max (np.flatten (replicate 1000 x_fine_grid)) = Ok (4 * np.pi)%float.
Proof. apply (max_tiled x_fine_grid (4 * np.pi) 999); vm_compute; reflexivity. Qed.

Lemma x_fine_edges : np.bin_edges (np.flatten (replicate 1000 x_fine_grid)) 400 = Ok x_edges.
Proof.
  unfold np.bin_edges. change (400 <? 1)%Z with false. cbv iota.
  rewrite (outer_edges_range _ 0 (4 * np.pi) x_fine_min x_fine_max)
    by (vm_compute; reflexivity).
  reflexivity.
Qed.

Context (w : world).

(** X11.  The bins along x do not depend on the random draws.  The x
    coordinates the data cell leaves run from 0 to [4 * np.pi], so the
    401 edges [np.histogram2d] computes for them are
    [np.linspace(0, 4 * np.pi, 401)] whatever the series are, and each of
    the 400 bins along x holds the x coordinates of exactly 2000 of the
    800,000 points: two grid points for each of the 1000 series. *)
Theorem x_bins_evenly_filled (k : kernel) :
  numpy_in k ->
  exists k' xs,
    run_cell (cell_data w) k = Done k' /\
    ns k' !! "x_fine" = Some (VArr1 xs) /\
    np.bin_edges xs 400 = Ok (np.linspace_nat 0 (4 * np.pi) 401) /\
    (forall ys h xedges yedges,
       np.histogram2d xs ys 400 100 = Ok (h, xedges, yedges) ->
       xedges = np.linspace_nat 0 (4 * np.pi) 401) /\
    (forall b, 1 <= b <= 400 ->
       length (filter (fun v => np.bin_of (np.linspace_nat 0 (4 * np.pi) 401) v = b) xs)
       = 2000%nat).
Proof.
  intros Hnp. exists (after_data w k), (np.flatten (replicate 1000 x_fine_grid)).
  split_and!.
  - now apply run_data.
  - lookup_ns.
  - apply x_fine_edges.
  - intros ys h xe ye Hh. apply histogram2d_edges in Hh as [Hxe _].
    rewrite x_fine_edges in Hxe. now injection Hxe as <-.
  - intros b Hb. unfold np.flatten. rewrite length_filter_tiled.
    fold x_edges. now rewrite (two_per_bin b Hb).
Qed.

End XBins.

Lemma x_bins_evenly_filled_witness :
  exists k' xs,
    run_cell (cell_data sample_world) kernel_after_imports = Done k' /\
    ns k' !! "x_fine" = Some (VArr1 xs) /\
    np.bin_edges xs 400 = Ok (np.linspace_nat 0 (4 * np.pi) 401) /\
    (forall ys h xedges yedges,
       np.histogram2d xs ys 400 100 = Ok (h, xedges, yedges) ->
       xedges = np.linspace_nat 0 (4 * np.pi) 401) /\
    (forall b, 1 <= b <= 400 ->
       length (filter (fun v => np.bin_of (np.linspace_nat 0 (4 * np.pi) 401) v = b) xs)
       = 2000%nat).
Proof.
  apply (x_bins_evenly_filled sample_world kernel_after_imports). vm_compute. reflexivity.
Defined.

(** ** The slice of line 112 when no row or too many rows are asked for *)

Section SliceEdge.

Context (w : world).

Lemma set_tail_raises (a v : arr2) (R S : nat) :
  length a = R -> length v = S -> 0 < R -> S = 0%nat \/ R < S ->
  np.set_tail a (Z.of_nat S) v = Raise (ValueError "could not broadcast input array").
Proof.
  intros Ha Hv HR HS. unfold np.set_tail.
  assert (Hs : np.tail_start (length a) (Z.of_nat S) = 0%nat).
  { unfold np.tail_start. rewrite Ha. destruct (- Z.of_nat S <? 0)%Z eqn:E.
    - apply Z.ltb_lt in E. lia.
    - apply Z.ltb_ge in E. lia. }
  rewrite Hs, Ha, Hv, Nat.sub_0_r.
  replace (S =? R)%nat with false by (symmetry; apply Nat.eqb_neq; lia).
  replace (S =? 1)%nat with false by (symmetry; apply Nat.eqb_neq; lia).
  reflexivity.
Qed.

Lemma s_Y_signal_raises k (S P R : nat) (x : arr1) (phi Y : arr2) :
  numpy_in k ->
  ns k !! "num_points" = Some (VInt (Z.of_nat P)) ->
  ns k !! "num_signal" = Some (VInt (Z.of_nat S)) ->
  ns k !! "x" = Some (VArr1 x) ->
  ns k !! "phi" = Some (VArr2 phi) ->
  ns k !! "Y" = Some (VArr2 Y) ->
  length x = P -> shaped S 1 phi -> length Y = R -> 0 < R -> S = 0%nat \/ R < S ->
  s_Y_signal w k = Raised (ValueError "could not broadcast input array") k.
Proof.
  intros Hnp HP HS Hx Hphi HY Hlx Hsphi HlY HR HSR. unfold s_Y_signal, drawing.
  erewrite assign_raised; [reflexivity|].
  rewrite (use_bound _ _ _ Hnp), (load_bound _ _ _ HP), (load_bound _ _ _ HS),
    (load_bound _ _ _ Hx), (load_bound _ _ _ Hphi), (load_bound _ _ _ HY).
  simpl.
  rewrite (broadcast2_lengths _ _ _ S (if (S =? 0)%nat then 0%nat else P)); cycle 1.
  { destruct Hsphi as [-> _]. apply bcast_len_one_l. }
  { intros HS0. replace (S =? 0)%nat with false by (symmetry; apply Nat.eqb_neq; lia).
    rewrite (shaped_ncols S 1 phi) by (auto; lia).
    unfold np.as_row, np.ncols. simpl. rewrite Hlx. apply bcast_len_one_r. }
  { now intros ->. }
  simpl. unfold np.random_randn. rewrite dims_ok by lia. simpl. rewrite !Nat2Z.id.
  set (c := if (S =? 0)%nat then 0%nat else P).
  rewrite (broadcast2_lengths _ _ _ S c); cycle 1.
  { rewrite (proj1 (sin_shaped w S c _ (tabulate_shaped _ S c))).
    rewrite (proj1 (scale_shaped _ S P _ (tabulate_shaped _ S P))).
    apply bcast_len_same. }
  { intros HS0.
    rewrite (shaped_ncols S c _ (sin_shaped w S c _ (tabulate_shaped _ S c))) by lia.
    rewrite (shaped_ncols S P _ (scale_shaped _ S P _ (tabulate_shaped _ S P))) by lia.
    unfold c. replace (S =? 0)%nat with false by (symmetry; apply Nat.eqb_neq; lia).
    apply bcast_len_same. }
  { unfold c. now intros ->. }
  simpl.
  rewrite (broadcast2_lengths _ _ _ S c); cycle 1.
  { rewrite length_tabulate. apply bcast_len_one_l. }
  { intros HS0. rewrite (shaped_ncols S c _ (tabulate_shaped _ S c)) by lia.
    unfold np.as_row, np.ncols. simpl. rewrite length_arange.
    unfold c. replace (S =? 0)%nat with false by (symmetry; apply Nat.eqb_neq; lia).
    apply bcast_len_same. }
  { unfold c. now intros ->. }
  simpl.
  rewrite (set_tail_raises _ _ R S) by (auto using length_tabulate).
  reflexivity.
Qed.

(** X12.  The slice of line 112 at its bounds.  Lines 110-116 run in a
    kernel where [SNR * num_series] rounds to [S] and [Y] has [R] rows,
    [R] not 0.  If [S] is 0, [Y[-0:]] is all of [Y] and not an empty
    slice; if [S] is more than [R], the slice is all of [Y] as well.  In
    both cases the [S] rows on the right-hand side do not fit the [R]
    rows of the slice: line 112 raises [ValueError], after lines 110 and
    111 have bound [num_signal] to [S] and [phi] to [S] phases, and [Y]
    is left as it was. *)
Theorem signal_slice_needs_rows (k : kernel) (snr f : float) (n : Z) (S P R : nat)
    (x : arr1) (Y : arr2) :
  numpy_in k ->
  ns k !! "SNR" = Some (VFloat snr) ->
  ns k !! "num_series" = Some (VInt n) ->
  ns k !! "num_points" = Some (VInt (Z.of_nat P)) ->
  ns k !! "x" = Some (VArr1 x) ->
  ns k !! "Y" = Some (VArr2 Y) ->
  py.float_of_int n = Ok f ->
  py.round (snr * f) = Ok (Z.of_nat S) ->
  length x = P -> length Y = R -> 0 < R ->
  S = 0%nat \/ R < S ->
  exists k',
    exec [s_num_signal; s_phi w; s_Y_signal w] k
    = Raised (ValueError "could not broadcast input array") k' /\
    ns k' !! "num_signal" = Some (VInt (Z.of_nat S)) /\
    (exists phi, ns k' !! "phi" = Some (VArr2 phi) /\ shaped S 1 phi) /\
    ns k' !! "Y" = Some (VArr2 Y).
Proof.
  intros Hnp Hsnr Hn HP Hx HY Hf Hq Hlx HlY HR HS.
  set (k1 := store "num_signal" (VInt (Z.of_nat S)) k).
  set (phi := np.scale (np.pi / 8) (np.tabulate (w_randn w (rng_calls k1)) S 1)).
  set (k2 := tick 1 (store "phi" (VArr2 phi) k1)).
  assert (Hphi : shaped S 1 phi) by apply scale_shaped, tabulate_shaped.
  exists k2. split_and!.
  - rewrite (exec_cons _ _ _ _ (s_num_signal_spec k snr n _ f Hsnr Hn Hf Hq)).
    fold k1.
    erewrite exec_cons by (apply (s_phi_spec w k1 S); unfold k1; lookup_ns).
    fold phi. fold k2. unfold exec.
    rewrite (s_Y_signal_raises k2 S P R x phi Y); trivial; unfold k2, k1; lookup_ns.
  - unfold k2, k1. lookup_ns.
  - exists phi. split; [unfold k2, k1; lookup_ns|exact Hphi].
  - unfold k2, k1. lookup_ns.
Qed.

End SliceEdge.

(** A signal fraction of 0.0004 over two series: no series is a signal. *)
Lemma signal_slice_needs_rows_witness :
  exists k',
    exec [s_num_signal; s_phi sample_world; s_Y_signal sample_world] faint_kernel
    = Raised (ValueError "could not broadcast input array") k' /\
    ns k' !! "num_signal" = Some (VInt (Z.of_nat 0)) /\
    (exists phi, ns k' !! "phi" = Some (VArr2 phi) /\ shaped 0 1 phi) /\
    ns k' !! "Y" = Some (VArr2 [[1; 2]; [3; 5]]%float).
Proof.
  apply (signal_slice_needs_rows sample_world faint_kernel 0.0004 2 2 0 2 2
           [0; 1]%float [[1; 2]; [3; 5]]%float).
  - vm_compute. reflexivity.
  - vm_compute. reflexivity.
  - vm_compute. reflexivity.
  - vm_compute. reflexivity.
  - vm_compute. reflexivity.
  - vm_compute. reflexivity.
  - vm_compute. reflexivity.
  - vm_compute. reflexivity.
  - reflexivity.
  - reflexivity.
  - lia.
  - left. reflexivity.
Defined.

(** ** The order of binary64 numbers *)

Section FloatOrder.

Local Open Scope float_scope.

Lemma SFcompare_refl (a : spec_float) : a <> S754_nan -> SFcompare a a = Some Eq.
Proof.
  destruct a as [s| s | |s m e]; intros H; try congruence; simpl.
  - reflexivity.
  - now destruct s.
  - rewrite Z.compare_refl, Pos.compare_cont_refl. now destruct s.
Qed.

Lemma SFcompare_antisym (a b : spec_float) :
  SFcompare b a = option_map CompOpp (SFcompare a b).
Proof.
  destruct a as [sa|sa| |sa ma ea], b as [sb|sb| |sb mb eb]; simpl; try reflexivity;
    try (now destruct sa); try (now destruct sb); try (now destruct sa, sb).
  destruct sa, sb; simpl; try reflexivity;
    rewrite (Z.compare_antisym ea eb); destruct (ea ?= eb)%Z; simpl; try reflexivity;
    change (Pos.compare_cont Eq mb ma) with (Pos.compare mb ma);
    change (Pos.compare_cont Eq ma mb) with (Pos.compare ma mb);
    rewrite (Pos.compare_antisym ma mb); destruct (ma ?= mb)%positive; reflexivity.
Qed.

Lemma SFleb_key (a b : spec_float) :
  a <> S754_nan -> b <> S754_nan -> (SFleb a b = true <-> key_le (SFkey a) (SFkey b)).
Proof.
  intros Ha Hb. unfold SFleb.
  destruct a as [sa|sa| |sa ma ea], b as [sb|sb| |sb mb eb]; try congruence; simpl;
    try (destruct sa); try (destruct sb); simpl;
    try (split; [intros _; lia|reflexivity]);
    try (split; [discriminate|intros ?; lia]).
  - change (Pos.compare_cont Eq ma mb) with (Pos.compare ma mb).
    destruct (Z.compare_spec ea eb), (Pos.compare_spec ma mb); simpl;
      (split; [try discriminate; intros _; lia|try reflexivity; intros ?; lia]).
  - change (Pos.compare_cont Eq ma mb) with (Pos.compare ma mb).
    destruct (Z.compare_spec ea eb), (Pos.compare_spec ma mb); simpl;
      (split; [try discriminate; intros _; lia|try reflexivity; intros ?; lia]).
Qed.

Lemma SFleb_not_nan (a b : spec_float) :
  SFleb a b = true -> a <> S754_nan /\ b <> S754_nan.
Proof.
  unfold SFleb. destruct a, b; simpl; try discriminate; intros _; split; discriminate.
Qed.

Lemma key_le_trans p q r : key_le p q -> key_le q r -> key_le p r.
Proof. destruct p as [[a b] c], q as [[a' b'] c'], r as [[a'' b''] c'']. simpl. lia. Qed.

Lemma key_le_total p q : key_le p q \/ key_le q p.
Proof. destruct p as [[a b] c], q as [[a' b'] c']. simpl. lia. Qed.

Lemma SFleb_trans (a b c : spec_float) :
  SFleb a b = true -> SFleb b c = true -> SFleb a c = true.
Proof.
  intros Hab Hbc.
  destruct (SFleb_not_nan _ _ Hab) as [Ha Hb], (SFleb_not_nan _ _ Hbc) as [_ Hc].
  apply SFleb_key; trivial. apply SFleb_key in Hab, Hbc; trivial.
  eapply key_le_trans; eassumption.
Qed.

Lemma SFleb_total (a b : spec_float) :
  a <> S754_nan -> b <> S754_nan -> SFleb a b = false -> SFleb b a = true.
Proof.
  intros Ha Hb Hab. apply SFleb_key; trivial.
  destruct (key_le_total (SFkey a) (SFkey b)) as [H|H]; [|exact H].
  apply SFleb_key in H; trivial. congruence.
Qed.

Lemma SFleb_antisym (a b : spec_float) :
  SFleb a b = true -> SFleb b a = true -> SFeqb a b = true.
Proof.
  unfold SFleb, SFeqb. rewrite (SFcompare_antisym a b).
  destruct (SFcompare a b) as [[]|]; simpl; congruence.
Qed.

Lemma SFeqb_leb (a b : spec_float) :
  SFeqb a b = true -> SFleb a b = true /\ SFleb b a = true.
Proof.
  unfold SFleb, SFeqb. rewrite (SFcompare_antisym a b).
  destruct (SFcompare a b) as [[]|]; simpl; try discriminate. now split.
Qed.

Lemma is_nan_spec (x : float) : PrimFloat.is_nan x = false <-> Prim2SF x <> S754_nan.
Proof.
  unfold PrimFloat.is_nan. rewrite FloatAxioms.eqb_spec, negb_false_iff. unfold SFeqb. split.
  - intros H E. rewrite E in H. discriminate.
  - intros H. now rewrite SFcompare_refl.
Qed.

Lemma leb_not_nan (x y : float) :
  (x <=? y) = true -> PrimFloat.is_nan x = false /\ PrimFloat.is_nan y = false.
Proof.
  rewrite FloatAxioms.leb_spec. intros H. apply SFleb_not_nan in H. now rewrite !is_nan_spec.
Qed.

Lemma leb_trans (x y z : float) : (x <=? y) = true -> (y <=? z) = true -> (x <=? z) = true.
Proof. rewrite !FloatAxioms.leb_spec. apply SFleb_trans. Qed.

Lemma leb_total (x y : float) :
  PrimFloat.is_nan x = false -> PrimFloat.is_nan y = false ->
  (x <=? y) = false -> (y <=? x) = true.
Proof. rewrite !is_nan_spec, !FloatAxioms.leb_spec. apply SFleb_total. Qed.

Lemma leb_refl (x : float) : PrimFloat.is_nan x = false -> (x <=? x) = true.
Proof.
  rewrite is_nan_spec, FloatAxioms.leb_spec. intros H. unfold SFleb. now rewrite SFcompare_refl.
Qed.

Lemma leb_antisym (x y : float) : (x <=? y) = true -> (y <=? x) = true -> (x =? y) = true.
Proof. rewrite !FloatAxioms.leb_spec, FloatAxioms.eqb_spec. apply SFleb_antisym. Qed.

Lemma eqb_leb (x y : float) : (x =? y) = true -> (x <=? y) = true /\ (y <=? x) = true.
Proof. rewrite !FloatAxioms.leb_spec, FloatAxioms.eqb_spec. apply SFeqb_leb. Qed.

Lemma ltb_leb (x y : float) : (x <? y) = true -> (x <=? y) = true /\ (x =? y) = false.
Proof.
  rewrite FloatAxioms.ltb_spec, FloatAxioms.leb_spec, FloatAxioms.eqb_spec. unfold SFltb, SFleb, SFeqb.
  destruct (SFcompare _ _) as [[]|]; try discriminate. now split.
Qed.

(** A number that is finite is a zero or has a mantissa. *)
Lemma is_finite_spec (x : float) :
  PrimFloat.is_finite x = true ->
  (exists s, Prim2SF x = S754_zero s) \/ (exists s m e, Prim2SF x = S754_finite s m e).
Proof.
  unfold PrimFloat.is_finite, PrimFloat.is_nan, PrimFloat.is_infinity.
  rewrite !FloatAxioms.eqb_spec, FloatAxioms.abs_spec.
  assert (Hinf : Prim2SF infinity = S754_infinity false) by (vm_compute; reflexivity).
  rewrite Hinf.
  destruct (Prim2SF x) as [s|s| |s m e]; simpl.
  - intros _. left. now exists s.
  - destruct s; discriminate.
  - discriminate.
  - intros _. right. now exists s, m, e.
Qed.

Lemma is_finite_not_nan (x : float) :
  PrimFloat.is_finite x = true -> PrimFloat.is_nan x = false.
Proof.
  unfold PrimFloat.is_finite. destruct (PrimFloat.is_nan x); [discriminate|reflexivity].
Qed.

End FloatOrder.

(** ** Minimum, maximum and the edges of the bins *)

Section Edges.

Local Open Scope float_scope.

Lemma fold_fmin_le (t : arr1) (x m : float) :
  fold_left np.fmin t x = m -> PrimFloat.is_nan m = false ->
  (m <=? x) = true /\ Forall (fun v => (m <=? v) = true) t.
Proof.
  revert x. induction t as [|y t IH]; intros x Hm Hnan; simpl in Hm.
  - subst m. split; [now apply leb_refl|constructor].
  - destruct (IH _ Hm Hnan) as [Hle Ht]. unfold np.fmin in Hle.
    destruct (PrimFloat.is_nan x) eqn:Ex; simpl in Hle.
    + apply leb_not_nan in Hle. destruct Hle. congruence.
    + destruct (x <=? y) eqn:Exy.
      * split; [exact Hle|]. constructor; [|exact Ht]. now apply (leb_trans m x y).
      * destruct (leb_not_nan _ _ Hle) as [_ Hy].
        pose proof (leb_total x y Ex Hy Exy) as Hyx.
        split; [now apply (leb_trans m y x)|]. now constructor.
Qed.

Lemma fold_fmax_ge (t : arr1) (x m : float) :
  fold_left np.fmax t x = m -> PrimFloat.is_nan m = false ->
  (x <=? m) = true /\ Forall (fun v => (v <=? m) = true) t.
Proof.
  revert x. induction t as [|y t IH]; intros x Hm Hnan; simpl in Hm.
  - subst m. split; [now apply leb_refl|constructor].
  - destruct (IH _ Hm Hnan) as [Hle Ht]. unfold np.fmax in Hle.
    destruct (PrimFloat.is_nan x) eqn:Ex; simpl in Hle.
    + apply leb_not_nan in Hle. destruct Hle. congruence.
    + destruct (y <=? x) eqn:Eyx.
      * split; [exact Hle|]. constructor; [|exact Ht]. now apply (leb_trans y x m).
      * destruct (leb_not_nan _ _ Hle) as [Hy _].
        pose proof (leb_total y x Hy Ex Eyx) as Hxy.
        split; [now apply (leb_trans x y m)|]. now constructor.
Qed.

(** A minimum that is a number is below every value, and a maximum
    that is a number is above every value. *)
Lemma min_below (a : arr1) (lo : float) :
  np.min a = Ok lo -> PrimFloat.is_nan lo = false -> Forall (fun v => (lo <=? v) = true) a.
Proof.
  destruct a as [|x t]; [discriminate|]. intros [= H] Hnan.
  destruct (fold_fmin_le t x lo H Hnan). now constructor.
Qed.

Lemma max_above (a : arr1) (hi : float) :
  np.max a = Ok hi -> PrimFloat.is_nan hi = false -> Forall (fun v => (v <=? hi) = true) a.
Proof.
  destruct a as [|x t]; [discriminate|]. intros [= H] Hnan.
  destruct (fold_fmax_ge t x hi H Hnan). now constructor.
Qed.

Lemma set_last_snoc (l : arr1) (v : float) :
  l <> [] -> np.set_last l v = removelast l ++ [v].
Proof.
  induction l as [|x [|y t] IH]; intros H; [congruence|reflexivity|].
  change (np.set_last (x :: y :: t) v) with (x :: np.set_last (y :: t) v).
  rewrite IH by discriminate. reflexivity.
Qed.

(** The value from which the first edge is made is a zero. *)
Lemma zero_times_finite (z x : float) :
  (exists s, Prim2SF z = S754_zero s) -> PrimFloat.is_finite x = true ->
  exists s, Prim2SF (z * x) = S754_zero s.
Proof.
  intros [sz Hz] Hx. rewrite mul_spec, Hz. unfold SF64mul.
  destruct (is_finite_spec x Hx) as [[s ->]|(s & m & e & ->)]; simpl; eauto.
Qed.

Lemma zero_plus_finite (z x v : float) :
  (exists s, Prim2SF z = S754_zero s) -> PrimFloat.is_finite x = true ->
  (z + x <=? v) = (x <=? v).
Proof.
  intros [sz Hz] Hx. rewrite !FloatAxioms.leb_spec, add_spec, Hz. unfold SF64add.
  destruct (is_finite_spec x Hx) as [[s ->]|(s & m & e & ->)]; simpl.
  - destruct sz, s; reflexivity.
  - reflexivity.
Qed.

(** When the width of a bin is finite, so is the range. *)
Lemma finite_quotient (delta div : float) :
  (exists s m e, Prim2SF div = S754_finite s m e) ->
  PrimFloat.is_finite (delta / div) = true -> PrimFloat.is_finite delta = true.
Proof.
  intros (s & m & e & Hdiv) H.
  destruct (is_finite_spec _ H) as [[sq Hq]|(sq & mq & eq & Hq)];
    rewrite div_spec, Hdiv in Hq; unfold SF64div in Hq;
    unfold PrimFloat.is_finite, PrimFloat.is_nan, PrimFloat.is_infinity;
    rewrite !FloatAxioms.eqb_spec, FloatAxioms.abs_spec;
    assert (Hinf : Prim2SF infinity = S754_infinity false) by (vm_compute; reflexivity);
    rewrite Hinf;
    destruct (Prim2SF delta) as [sd|sd| |sd md ed]; simpl in Hq |- *; try discriminate;
    try reflexivity;
    unfold SFeqb; rewrite SFcompare_refl by discriminate; reflexivity.
Qed.

Lemma zero_over_finite (z div : float) :
  (exists s, Prim2SF z = S754_zero s) ->
  (exists s m e, Prim2SF div = S754_finite s m e) ->
  exists s, Prim2SF (z / div) = S754_zero s.
Proof.
  intros [sz Hz] (s & m & e & Hdiv). rewrite div_spec, Hz, Hdiv. simpl. eauto.
Qed.

Lemma float_of_zero : Prim2SF (py.float_of_nat 0) = S754_zero false.
Proof. vm_compute. reflexivity. Qed.

(** The edges [np.linspace] makes for [bins] bins: a first edge that
    compares as [lo] does, [bins - 1] edges between, and [hi] itself. *)
Lemma linspace_edges (lo hi : float) (bins : nat) :
  1 <= bins ->
  (exists s m e, Prim2SF (py.float_of_nat bins) = S754_finite s m e) ->
  PrimFloat.is_finite lo = true ->
  PrimFloat.is_finite ((hi - lo) / py.float_of_nat bins) = true ->
  exists e0 mid,
    np.linspace_nat lo hi (S bins) = e0 :: mid ++ [hi] /\
    length mid = (bins - 1)%nat /\
    forall v, (e0 <=? v) = (lo <=? v).
Proof.
  intros Hb Hdiv Hlo Hstep.
  pose proof (finite_quotient _ _ Hdiv Hstep) as Hdelta.
  unfold np.linspace_nat.
  replace (1 <? S bins)%nat with true by (symmetry; apply Nat.ltb_lt; lia).
  replace (S bins - 1)%nat with bins by lia.
  set (div := py.float_of_nat bins) in *.
  set (delta := hi - lo) in *.
  set (g := fun v : float => if (delta / div =? 0) then v / div * delta else v * (delta / div)).
  assert (Hmap :
    map (fun v => v + lo)
      (if (delta / div =? 0) then map (fun v => v / div * delta) (map py.float_of_nat (seq 0 (S bins)))
       else map (fun v => v * (delta / div)) (map py.float_of_nat (seq 0 (S bins))))
    = map (fun v => g v + lo) (map py.float_of_nat (seq 0 (S bins)))).
  { unfold g. destruct (delta / div =? 0); now rewrite map_map. }
  cbv zeta. rewrite Hmap. clear Hmap.
  destruct bins as [|n]; [lia|].
  change (seq 0 (S (S n))) with (0%nat :: 1%nat :: seq 2 n).
  simpl map.
  rewrite set_last_snoc by discriminate.
  exists (g (py.float_of_nat 0) + lo),
    (removelast (g (py.float_of_nat 1) + lo
                 :: map (fun v => g v + lo) (map py.float_of_nat (seq 2 n)))).
  split_and!.
  - reflexivity.
  - assert (Hl : length (g (py.float_of_nat 1) + lo
                         :: map (fun v => g v + lo) (map py.float_of_nat (seq 2 n))) = S n)
      by (simpl; now rewrite !length_map, length_seq).
    revert Hl. generalize (g (py.float_of_nat 1) + lo
                           :: map (fun v => g v + lo) (map py.float_of_nat (seq 2 n))).
    intros l Hl. destruct (exists_last (l := l)) as (l' & a & ->).
    { intros ->. discriminate. }
    rewrite removelast_last. rewrite length_app in Hl. simpl in Hl. lia.
  - intros v. apply zero_plus_finite; [|exact Hlo].
    assert (Hz : exists s, Prim2SF (py.float_of_nat 0) = S754_zero s)
      by (exists false; apply float_of_zero).
    unfold g. destruct (delta / div =? 0).
    + apply zero_times_finite; [|exact Hdelta]. now apply zero_over_finite.
    + now apply zero_times_finite.
Qed.

Lemma last_snoc (l : arr1) (a d : float) : List.last (l ++ [a]) d = a.
Proof. apply last_last. Qed.

(** A value between the first and the last edge falls in one of the bins. *)
Lemma bin_of_range (e0 hi v : float) (mid : arr1) :
  (e0 <=? v) = true -> (v <=? hi) = true ->
  1 <= np.bin_of (e0 :: mid ++ [hi]) v <= S (length mid).
Proof.
  intros Hlo Hhi. unfold np.bin_of.
  change (e0 :: mid ++ [hi]) with ((e0 :: mid) ++ [hi]).
  rewrite last_snoc, filter_app, length_app.
  rewrite (filter_cons_True (fun e => (e <=? v) = true) e0) by exact Hlo.
  pose proof (length_filter (fun e => (e <=? v) = true) mid) as Hmid.
  simpl length at 1.
  destruct (v =? hi) eqn:E.
  - destruct (eqb_leb _ _ E) as [_ Hle].
    rewrite (filter_cons_True (fun e => (e <=? v) = true) hi) by exact Hle. simpl. lia.
  - rewrite (filter_cons_False (fun e => (e <=? v) = true) hi).
    + simpl. lia.
    + intros Hle. rewrite (leb_antisym v hi Hhi Hle) in E. discriminate.
Qed.

(** Every value of [a] falls in one of the bins [np.histogram2d] makes
    for [a]. *)
Lemma bin_edges_cover (a edges : arr1) (bins : nat) :
  1 <= bins ->
  (exists s m e, Prim2SF (py.float_of_nat bins) = S754_finite s m e) ->
  finite_width a bins = true ->
  np.bin_edges a (Z.of_nat bins) = Ok edges ->
  Forall (fun v => 1 <= np.bin_of edges v <= bins) a.
Proof.
  intros Hb Hdiv Hw He. unfold finite_width in Hw.
  destruct (np.min a) as [lo|] eqn:Hmin; [|discriminate].
  destruct (np.max a) as [hi|] eqn:Hmax; [|discriminate].
  apply andb_true_iff in Hw as [Hlt Hstep].
  destruct (ltb_leb _ _ Hlt) as [_ Hne].
  unfold np.bin_edges in He.
  destruct (Z.of_nat bins <? 1)%Z; [discriminate|].
  unfold np.outer_edges in He. destruct a as [|x t]; [discriminate|].
  rewrite Hmin, Hmax in He. simpl in He.
  destruct (PrimFloat.is_finite lo && PrimFloat.is_finite hi) eqn:Hfin; [|discriminate].
  simpl in He. rewrite Hne in He. simpl in He.
  apply andb_true_iff in Hfin as [Hflo Hfhi].
  unfold np.linspace in He. destruct (Z.of_nat bins + 1 <? 0)%Z; [discriminate|].
  injection He as <-.
  replace (Z.to_nat (Z.of_nat bins + 1)) with (S bins) by lia.
  destruct (linspace_edges lo hi bins Hb Hdiv Hflo Hstep) as (e0 & mid & -> & Hmid & He0).
  pose proof (min_below _ _ Hmin (is_finite_not_nan _ Hflo)) as Hlo.
  pose proof (max_above _ _ Hmax (is_finite_not_nan _ Hfhi)) as Hhi.
  rewrite Forall_forall in Hlo, Hhi. apply Forall_forall. intros v Hv.
  pose proof (bin_of_range e0 hi v mid) as H.
  rewrite He0 in H. specialize (H (Hlo v Hv) (Hhi v Hv)). lia.
Qed.

End Edges.

(** ** Every point is counted *)

Section Counting.

Lemma list_sum_map_add {A : Type} (f g : A -> nat) (l : list A) :
  list_sum (map (fun x => f x + g x) l) = list_sum (map f l) + list_sum (map g l).
Proof. induction l as [|x l IH]; simpl; lia. Qed.

Lemma list_sum_map_mul {A : Type} (c : nat) (f : A -> nat) (l : list A) :
  list_sum (map (fun x => c * f x) l) = c * list_sum (map f l).
Proof. induction l as [|x l IH]; simpl; lia. Qed.

Lemma list_sum_map_zero {A : Type} (l : list A) : list_sum (map (fun _ => 0) l) = 0.
Proof. induction l as [|x l IH]; simpl; lia. Qed.

(** Among the bins 1 to [n], one is bin [b]. *)
Lemma sum_indicator (b n : nat) :
  1 <= b <= n ->
  list_sum (map (fun j => if decide (b = S j) then 1 else 0) (seq 0 n)) = 1.
Proof.
  revert b. induction n as [|n IH]; intros b Hb; [lia|].
  rewrite seq_S, map_app, list_sum_app. simpl.
  destruct (decide (b = S n)) as [->|Hne].
  - rewrite (map_ext_in _ (fun _ => 0)); [rewrite list_sum_map_zero; lia|].
    intros j Hj. apply in_seq in Hj. destruct (decide (S n = S j)); lia.
  - rewrite IH by lia. lia.
Qed.

Lemma count_cons (c : nat * nat) (cells : list (nat * nat)) (i j : nat) :
  length (filter (fun c' => c' = (S i, S j)) (c :: cells))
  = (if decide (c.1 = S i) then 1 else 0) * (if decide (c.2 = S j) then 1 else 0)
    + length (filter (fun c' => c' = (S i, S j)) cells).
Proof.
  destruct c as [a b]. rewrite filter_cons. simpl.
  destruct (decide ((a, b) = (S i, S j))) as [[= -> ->]|Hne].
  - rewrite !decide_True by reflexivity. reflexivity.
  - destruct (decide (a = S i)) as [->|]; [|reflexivity].
    destruct (decide (b = S j)) as [->|]; [|reflexivity]. congruence.
Qed.

Lemma sum_bin_counts (cells : list (nat * nat)) (nx ny : nat) :
  Forall (fun c => 1 <= c.1 <= nx /\ 1 <= c.2 <= ny) cells ->
  list_sum (map list_sum (bin_counts cells nx ny)) = length cells.
Proof.
  unfold bin_counts. rewrite map_map.
  induction 1 as [|c cells [Hx Hy] _ IH].
  - rewrite (map_ext _ (fun _ => 0)); [apply list_sum_map_zero|].
    intros i. apply list_sum_map_zero.
  - rewrite (map_ext _
      (fun i => (if decide (c.1 = S i) then 1 else 0) * 1
                + list_sum (map (fun j => length (filter (fun c' => c' = (S i, S j)) cells))
                              (seq 0 ny)))).
    + rewrite list_sum_map_add, IH.
      rewrite (map_ext _ (fun i => if decide (c.1 = S i) then 1 else 0))
        by (intros i; lia).
      rewrite sum_indicator by exact Hx. reflexivity.
    + intros i.
      rewrite (map_ext _ _ (fun j => count_cons c cells i j)).
      rewrite list_sum_map_add, list_sum_map_mul.
      now rewrite sum_indicator by exact Hy.
Qed.

Lemma Forall_zip_bins {A B : Type} (P : A -> Prop) (Q : B -> Prop) (l1 : list A) (l2 : list B) :
  Forall P l1 -> Forall Q l2 -> Forall (fun c => P c.1 /\ Q c.2) (zip l1 l2).
Proof.
  intros H1. revert l2. induction H1 as [|a l1 Ha _ IH]; intros l2 H2; [constructor|].
  destruct H2 as [|b l2 Hb H2]; [constructor|]. simpl. constructor; [now split|now apply IH].
Qed.

Lemma counts_as_floats (cells : list (nat * nat)) (nx ny : nat) :
  np.tabulate (np.count_in cells) nx ny = map (map py.float_of_nat) (bin_counts cells nx ny).
Proof.
  unfold np.tabulate, bin_counts, np.count_in. rewrite map_map.
  apply map_ext. intros i. now rewrite map_map.
Qed.

(** X13.  No point is left out of the histogram.  Line 149 gives
    [np.histogram2d] no range, so the edges span the data.  When the
    values along each axis are not all equal and the width of a bin is a
    finite number, every point falls in one of the 400 bins along x and
    one of the 100 bins along y; the array [h] the cell binds is the
    table of the counts of the bins, and the counts add up to the number
    of points. *)
Theorem every_point_is_counted (k : kernel) (xs ys : arr1) (h : arr2) (xedges yedges : arr1) :
  imports_in k ->
  ns k !! "x_fine" = Some (VArr1 xs) ->
  ns k !! "y_fine" = Some (VArr1 ys) ->
  np.histogram2d xs ys 400 100 = Ok (h, xedges, yedges) ->
  finite_width xs 400 = true ->
  finite_width ys 100 = true ->
  exists k' counts,
    run_cell cell_hist k = Done k' /\
    ns k' !! "h" = Some (VArr2 h) /\
    counts = bin_counts (zip (map (np.bin_of xedges) xs) (map (np.bin_of yedges) ys)) 400 100 /\
    h = map (map py.float_of_nat) counts /\
    Forall (fun v => 1 <= np.bin_of xedges v <= 400) xs /\
    Forall (fun v => 1 <= np.bin_of yedges v <= 100) ys /\
    list_sum (map list_sum counts) = length xs.
Proof.
  intros Himp Hx Hy Hh Hwx Hwy.
  destruct (histogram2d_edges _ _ _ _ _ _ _ Hh) as [Hxe Hye].
  assert (Hbx : Forall (fun v => 1 <= np.bin_of xedges v <= 400) xs).
  { apply (bin_edges_cover xs xedges 400); try assumption; [lia|].
    vm_compute. eauto. }
  assert (Hby : Forall (fun v => 1 <= np.bin_of yedges v <= 100) ys).
  { apply (bin_edges_cover ys yedges 100); try assumption; [lia|].
    vm_compute. eauto. }
  assert (Hlen : length xs = length ys).
  { unfold np.histogram2d in Hh.
    destruct (length xs =? length ys)%nat eqn:E; [now apply Nat.eqb_eq in E|discriminate]. }
  exists (after_hist h xedges yedges k),
    (bin_counts (zip (map (np.bin_of xedges) xs) (map (np.bin_of yedges) ys)) 400 100).
  split_and!; try assumption.
  - now apply (run_hist k xs ys).
  - lookup_ns.
  - reflexivity.
  - rewrite (histogram2d_paired _ _ _ _ Hlen), Hxe, Hye in Hh. simpl in Hh.
    injection Hh as <-. apply counts_as_floats.
  - rewrite sum_bin_counts.
    + rewrite length_zip_with, !length_map. lia.
    + apply (Forall_zip_bins (fun a => 1 <= a <= 400) (fun b => 1 <= b <= 100));
        now apply Forall_map.
Qed.

End Counting.

Lemma every_point_is_counted_witness :
  exists h xedges yedges,
    np.histogram2d [0; 1; 2; 3]%float [0; 0.5; 1; 4]%float 400 100 = Ok (h, xedges, yedges) /\
    exists k' counts,
      run_cell cell_hist spread_kernel = Done k' /\
      ns k' !! "h" = Some (VArr2 h) /\
      counts = bin_counts (zip (map (np.bin_of xedges) [0; 1; 2; 3]%float)
                             (map (np.bin_of yedges) [0; 0.5; 1; 4]%float)) 400 100 /\
      h = map (map py.float_of_nat) counts /\
      Forall (fun v => 1 <= np.bin_of xedges v <= 400) [0; 1; 2; 3]%float /\
      Forall (fun v => 1 <= np.bin_of yedges v <= 100) [0; 0.5; 1; 4]%float /\
      list_sum (map list_sum counts) = length [0; 1; 2; 3]%float.
Proof.
  destruct (np.histogram2d [0; 1; 2; 3]%float [0; 0.5; 1; 4]%float 400 100)
    as [[[h xe] ye]|err] eqn:E; [|vm_compute in E; discriminate].
  exists h, xe, ye. split; [reflexivity|].
  apply (every_point_is_counted spread_kernel [0; 1; 2; 3]%float [0; 0.5; 1; 4]%float h xe ye).
  - vm_compute. repeat split.
  - vm_compute. reflexivity.
  - vm_compute. reflexivity.
  - exact E.
  - vm_compute. reflexivity.
  - vm_compute. reflexivity.
Defined.

(** ** Where the sinusoids start *)

Section SignalStart.

Local Open Scope float_scope.

Context (w : world).

(** X14.  The sinusoids start at zero.  Line 112 scales sample [j] of
    every signal by [sqrt(j)], which is 0 for the first sample: in each
    of the last 100 rows of [Y] the first entry is zero, whenever the
    sine plus the noise it scales is a finite number. *)
Theorem signals_start_at_zero (k : kernel) :
  numpy_in k ->
  exists k8 Y,
    exec (take 8 (data_body w)) k = Done k8 /\
    ns k8 !! "Y" = Some (VArr2 Y) /\
    forall i, (i < 100)%nat ->
      PrimFloat.is_finite
        (w_sin w (0 - np.pi / 8 * w_randn w (rng_calls k + 1) i 0%nat)
         + 0.05 * w_randn w (rng_calls k + 2) i 0%nat) = true ->
      (nth 0 (nth (900 + i) Y []) 0 =? 0) = true.
Proof.
  intros Hnp. exists (after_signal w k), (series w (rng_calls k)).
  destruct (walks_shaped w (rng_calls k)) as [Hl _].
  assert (Ht : length (take 900 (walks w (rng_calls k))) = 900%nat)
    by (rewrite length_take, Hl; reflexivity).
  split_and!.
  - now apply run_signal.
  - lookup_ns.
  - intros i Hi Hfin. unfold series.
    rewrite app_nth2 by lia. rewrite Ht.
    replace (900 + i - 900)%nat with i by lia.
    rewrite signals_entry by lia.
    assert (Hx0 : nth 0 x_grid 0 = 0) by (vm_compute; reflexivity).
    rewrite Hx0.
    assert (Hz : exists s, Prim2SF (PrimFloat.sqrt (py.float_of_nat 0)) = S754_zero s)
      by (exists false; vm_compute; reflexivity).
    destruct (zero_times_finite _ _ Hz Hfin) as [s Hs].
    rewrite FloatAxioms.eqb_spec, Hs. reflexivity.
Qed.

End SignalStart.

Lemma signals_start_at_zero_witness :
  exists k8 Y,
    exec (take 8 (data_body sample_world)) kernel_after_imports = Done k8 /\
    ns k8 !! "Y" = Some (VArr2 Y) /\
    (nth 0 (nth 900 Y []) 0 =? 0)%float = true.
Proof.
  destruct (signals_start_at_zero sample_world kernel_after_imports)
    as (k8 & Y & Hrun & HY & Hzero); [vm_compute; reflexivity|].
  exists k8, Y. split_and!; [exact Hrun|exact HY|].
  apply (Hzero 0%nat); [lia|]. vm_compute. reflexivity.
Defined.
